(** * mcp-sandbox: the client-side session manager, metrics collector and
      chat wrapper, embedded from [src/mcp_sandbox/client/{session,metrics,app}.py].

    The Python code is embedded shallowly.  Objects of the client (the
    session manager, the metrics collector, the conversation history) are
    fields of one [State] record that is threaded through a small
    state-and-exception monad.  Everything outside the process (backend
    subprocesses, the model API, the clock, the interpreter's float
    conversions) is an oracle collected in the record [World]; oracles see the
    trace of all interactions so far, so a backend or the model may answer
    differently on every call.

    Strings are byte strings: a Python [str] is identified with its UTF-8
    encoding (lone surrogates encoded as by the [surrogatepass] handler). *)

From Stdlib Require Import ZArith NArith String Ascii List Bool Lia.
From Stdlib Require Import SpecFloat.
From stdpp Require Import base option list strings gmap pretty.

Set Warnings "-register-all".

Open Scope string_scope.
Open Scope list_scope.
Open Scope Z_scope.

(** ** Python exceptions *)

(** The exception classes the [except] clauses of [chat_with_claude] tell
    apart; any other class is kept by its [type(e).__name__]. *)
Inductive ExnType :=
| APITimeoutError
| RateLimitError
| OtherError (type_name : string).

Record PyExn := { exn_type : ExnType; exn_text : string }.

Definition type_name_of (e : PyExn) : string :=
  match exn_type e with
  | APITimeoutError => "APITimeoutError"
  | RateLimitError => "RateLimitError"
  | OtherError n => n
  end.

(** ** Floats: IEEE binary64 through [SpecFloat] *)

Module Float.

Definition prec : Z := 53.
Definition emax : Z := 1024.

Definition of_Z (z : Z) : spec_float := binary_normalize prec emax z 0 false.
Definition add := SFadd prec emax.
Definition sub := SFsub prec emax.
Definition mul := SFmul prec emax.
Definition div := SFdiv prec emax.

Definition is_finite (x : spec_float) : bool :=
  match x with
  | S754_zero _ | S754_finite _ _ _ => true
  | S754_infinity _ | S754_nan => false
  end.

(** [bool(x)]: only the two zeros are false. *)
Definition truthy (x : spec_float) : bool :=
  match x with S754_zero _ => false | _ => true end.

(** [int(x)]: truncation toward zero; raises on infinities and NaN. *)
Definition to_int (x : spec_float) : PyExn + Z :=
  match x with
  | S754_zero _ => inr 0
  | S754_finite s m e =>
      let a := if 0 <=? e then Z.pos m * 2 ^ e else Z.pos m / 2 ^ (- e) in
      inr (if s then - a else a)
  | S754_infinity _ =>
      inl {| exn_type := OtherError "OverflowError";
             exn_text := "cannot convert float infinity to integer" |}
  | S754_nan =>
      inl {| exn_type := OtherError "ValueError";
             exn_text := "cannot convert float NaN to integer" |}
  end.

(** [n] zeros. *)
Fixpoint zeros (n : nat) : string :=
  match n with O => "" | S n => String "0" (zeros n) end.

(** The magnitude [m * 2^e] scaled by [10^d] and rounded to the nearest
    integer, ties to even: the digits of a [%.df] conversion. *)
Definition scaled_round (d : nat) (m : positive) (e : Z) : Z :=
  let p := 10 ^ Z.of_nat d in
  if 0 <=? e then Z.pos m * 2 ^ e * p
  else
    let num := Z.pos m * p in
    let den := 2 ^ (- e) in
    let q := num / den in
    let r := num mod den in
    match 2 * r ?= den with
    | Lt => q
    | Gt => q + 1
    | Eq => if Z.even q then q else q + 1
    end.

Definition fixed (d : nat) (sign : bool) (n : Z) : string :=
  let p := 10 ^ Z.of_nat d in
  let frac := pretty (n mod p) in
  (if sign then "-" else "") +:+ pretty (n / p) +:+
  match d with
  | O => ""
  | _ => "." +:+ zeros (d - String.length frac) +:+ frac
  end.

(** [format(x, ".df")], as in the f-strings [{x:.1f}] and [{x:.2f}]. *)
Definition format_f (d : nat) (x : spec_float) : string :=
  match x with
  | S754_zero s => fixed d s 0
  | S754_finite s m e => fixed d s (scaled_round d m e)
  | S754_infinity s => if s then "-inf" else "inf"
  | S754_nan => "nan"
  end.

End Float.

(** ** String methods *)

Module Str.

(** [s.startswith(p)]; on success the rest of [s]. *)
Fixpoint strip_prefix (p s : string) : option string :=
  match p, s with
  | EmptyString, _ => Some s
  | String a p', String b s' => if Ascii.eqb a b then strip_prefix p' s' else None
  | String _ _, EmptyString => None
  end.

(** [p in s] *)
Fixpoint contains (p s : string) : bool :=
  match strip_prefix p s with
  | Some _ => true
  | None => match s with String _ s' => contains p s' | EmptyString => false end
  end.

(** [s.endswith(p)] *)
Fixpoint endswith (p s : string) : bool :=
  if String.eqb p s then true
  else match s with String _ s' => endswith p s' | EmptyString => false end.

(** [str(n)] for an [int] *)
Definition of_int (n : Z) : string := pretty n.

End Str.

(** ** Insertion-ordered dictionaries

    A Python [dict] keeps its keys in insertion order, and assigning to a key
    that is present keeps the key's position.  Both matter below (sessions are
    visited in registration order), so a dict is an association list without
    repeated keys. *)

Section Dict.
Context {V : Type}.

Fixpoint dict_get (k : string) (d : list (string * V)) : option V :=
  match d with
  | [] => None
  | (k', v) :: d' => if String.eqb k k' then Some v else dict_get k d'
  end.

(** [d[k] = v] *)
Fixpoint dict_set (k : string) (v : V) (d : list (string * V)) : list (string * V) :=
  match d with
  | [] => [(k, v)]
  | (k', v') :: d' =>
      if String.eqb k k' then (k, v) :: d' else (k', v') :: dict_set k v d'
  end.

Definition dict_keys (d : list (string * V)) : list string := map fst d.
Definition dict_values (d : list (string * V)) : list V := map snd d.

(** [dict(pairs)]: later pairs overwrite earlier ones. *)
Definition dict_of_pairs (l : list (string * V)) : list (string * V) :=
  fold_left (fun d kv => dict_set (fst kv) (snd kv) d) l [].

End Dict.

(** ** JSON values, as the [json] module maps them to Python objects *)

Inductive json :=
| JNull
| JBool (b : bool)
| JInt (n : Z)
| JFloat (x : spec_float)
| JStr (s : string)
| JArr (l : list json)
| JObj (d : list (string * json)).

(** ** The [json] module: [json.loads] and [json.dumps(..., indent=2)]

    The decoder follows CPython's scanner ([scan_once], [JSONObject],
    [JSONArray], [scanstring] in strict mode, the number pattern "optional minus, 0 or a
    nonzero digit and digits, optional fraction, optional exponent", and the
    constants [NaN], [Infinity], [-Infinity]); the encoder follows the default
    [ensure_ascii=True] encoder with [indent=2].  [None] stands for
    [JSONDecodeError].  Resource limits of the interpreter (recursion depth,
    the digit limit of [int]) are not modelled.  The conversions between a
    float and its decimal text, [float(text)] and [repr(x)], are parameters. *)

Module Json.

Definition dq : string := String "034"%char "".        (* the double quote *)
Definition backslash : string := String "092"%char "".

Definition code (c : ascii) : N := N_of_ascii c.
Definition chr (n : N) : string := String (ascii_of_N n) "".

(** *** Unicode helpers *)

(** The UTF-8 encoding of a code point (surrogates included). *)
Definition utf8_encode (cp : N) : string :=
  if (cp <? 128)%N then chr cp
  else if (cp <? 2048)%N then
    chr (N.lor 192 (N.shiftr cp 6)) +:+ chr (N.lor 128 (N.land cp 63))
  else if (cp <? 65536)%N then
    chr (N.lor 224 (N.shiftr cp 12)) +:+
    chr (N.lor 128 (N.land (N.shiftr cp 6) 63)) +:+
    chr (N.lor 128 (N.land cp 63))
  else
    chr (N.lor 240 (N.shiftr cp 18)) +:+
    chr (N.lor 128 (N.land (N.shiftr cp 12) 63)) +:+
    chr (N.lor 128 (N.land (N.shiftr cp 6) 63)) +:+
    chr (N.lor 128 (N.land cp 63)).

Definition hex_digit (n : N) : string :=
  chr (if (n <? 10)%N then 48 + n else 87 + n)%N.

(** ['\\u{0:04x}'.format(n)] *)
Definition u_escape (n : N) : string :=
  backslash +:+ "u" +:+
  hex_digit (N.land (N.shiftr n 12) 15) +:+ hex_digit (N.land (N.shiftr n 8) 15) +:+
  hex_digit (N.land (N.shiftr n 4) 15) +:+ hex_digit (N.land n 15).

Definition hex_val (c : ascii) : option N :=
  let n := code c in
  if (48 <=? n)%N && (n <=? 57)%N then Some (n - 48)%N
  else if (97 <=? n)%N && (n <=? 102)%N then Some (n - 87)%N
  else if (65 <=? n)%N && (n <=? 70)%N then Some (n - 55)%N
  else None.

(** *** Decoder *)

Definition is_ws (c : ascii) : bool :=
  let n := code c in (n =? 32)%N || (n =? 9)%N || (n =? 10)%N || (n =? 13)%N.

Fixpoint skip_ws (s : string) : string :=
  match s with
  | String c r => if is_ws c then skip_ws r else s
  | EmptyString => s
  end.

Definition is_digit (c : ascii) : bool :=
  let n := code c in (48 <=? n)%N && (n <=? 57)%N.

(** The longest prefix of digits, and the rest. *)
Fixpoint span_digits (s : string) : string * string :=
  match s with
  | String c r =>
      if is_digit c then let '(ds, rest) := span_digits r in (String c ds, rest)
      else ("", s)
  | EmptyString => ("", s)
  end.

Fixpoint int_of_digits (acc : Z) (ds : string) : Z :=
  match ds with
  | String c r => int_of_digits (10 * acc + Z.of_N (code c - 48)) r
  | EmptyString => acc
  end.

(** One piece of a string literal: a literal byte or the 16-bit unit of
    a [\uXXXX] escape. *)
Inductive piece := Raw (c : ascii) | Unit16 (n : N).

(** The body of a string literal, up to its closing quote. *)
Fixpoint scan_pieces (s : string) : option (list piece * string) :=
  match s with
  | EmptyString => None
  | String c r =>
      let n := code c in
      if (n =? 34)%N then Some ([], r)
      else if (n =? 92)%N then
        match r with
        | EmptyString => None
        | String e r1 =>
            let simple (c' : N) :=
              match scan_pieces r1 with
              | Some (ps, rest) => Some (Raw (ascii_of_N c') :: ps, rest)
              | None => None
              end in
            let m := code e in
            if (m =? 34)%N || (m =? 92)%N || (m =? 47)%N then simple m
            else if (m =? 98)%N then simple 8%N
            else if (m =? 102)%N then simple 12%N
            else if (m =? 110)%N then simple 10%N
            else if (m =? 114)%N then simple 13%N
            else if (m =? 116)%N then simple 9%N
            else if (m =? 117)%N then
              match r1 with
              | String h1 (String h2 (String h3 (String h4 r2))) =>
                  match hex_val h1, hex_val h2, hex_val h3, hex_val h4 with
                  | Some a, Some b, Some c', Some d =>
                      match scan_pieces r2 with
                      | Some (ps, rest) =>
                          Some (Unit16 (4096 * a + 256 * b + 16 * c' + d)%N :: ps, rest)
                      | None => None
                      end
                  | _, _, _, _ => None
                  end
              | _ => None
              end
            else None
        end
      else if (n <? 32)%N then None
      else
        match scan_pieces r with
        | Some (ps, rest) => Some (Raw c :: ps, rest)
        | None => None
        end
  end.

(** Adjacent escapes forming a surrogate pair denote one code point. *)
Fixpoint join_pieces (ps : list piece) : string :=
  match ps with
  | [] => ""
  | Raw c :: ps' => String c (join_pieces ps')
  | Unit16 hi :: ps' =>
      match ps' with
      | Unit16 lo :: ps'' =>
          if (55296 <=? hi)%N && (hi <=? 56319)%N && (56320 <=? lo)%N && (lo <=? 57343)%N
          then utf8_encode (65536 + ((hi - 55296) * 1024 + (lo - 56320)))%N
                 +:+ join_pieces ps''
          else utf8_encode hi +:+ join_pieces ps'
      | _ => utf8_encode hi +:+ join_pieces ps'
      end
  end.

Definition scanstring (s : string) : option (string * string) :=
  match scan_pieces s with
  | Some (ps, rest) => Some (join_pieces ps, rest)
  | None => None
  end.

Section Codec.
Variable float_of_literal : string -> spec_float.   (* [float(text)] *)
Variable float_repr : spec_float -> string.         (* [float.__repr__] *)

(** The number pattern at the start of [s], group by group: the optional
minus, the integer part, the optional fraction and the optional exponent.
Each returns what it matched and the rest; an optional group that does
not match completely matches nothing. *)
Definition opt_minus (s : string) : string * string :=
  match s with
  | String c r => if (code c =? 45)%N then ("-", r) else ("", s)
  | EmptyString => ("", s)
  end.

Definition int_part (s : string) : option (string * string) :=
  match s with
  | String c r =>
  if (code c =? 48)%N then Some ("0", r)
  else if is_digit c then Some (span_digits s)
  else None
  | EmptyString => None
  end.

Definition opt_frac (s : string) : string * string :=
  match s with
  | String c r =>
  if (code c =? 46)%N then
    match span_digits r with
    | (EmptyString, _) => ("", s)
    | (fd, r') => ("." +:+ fd, r')
    end
  else ("", s)
  | EmptyString => ("", s)
  end.

Definition opt_sign (s : string) : string * string :=
  match s with
  | String c r => if (code c =? 43)%N || (code c =? 45)%N then (String c "", r) else ("", s)
  | EmptyString => ("", s)
  end.

Definition opt_exp (s : string) : string * string :=
  match s with
  | String c r =>
  if (code c =? 101)%N || (code c =? 69)%N then
    let '(sg, r1) := opt_sign r in
    match span_digits r1 with
    | (EmptyString, _) => ("", s)
    | (ed, r2) => (String c "" +:+ sg +:+ ed, r2)
    end
  else ("", s)
  | EmptyString => ("", s)
  end.

Definition match_number (s : string) : option (json * string) :=
  let '(sign, s1) := opt_minus s in
  match int_part s1 with
  | None => None
  | Some (ds, s2) =>
  let '(frac, s3) := opt_frac s2 in
  let '(exp, s4) := opt_exp s3 in
  match frac, exp with
  | EmptyString, EmptyString =>
      let n := int_of_digits 0 ds in
      Some (JInt (match sign with EmptyString => n | _ => - n end), s4)
  | _, _ => Some (JFloat (float_of_literal (sign +:+ ds +:+ frac +:+ exp)), s4)
  end
  end.

Definition match_constant (s : string) : option (json * string) :=
  match Str.strip_prefix "NaN" s with
  | Some r => Some (JFloat S754_nan, r)
  | None =>
  match Str.strip_prefix "Infinity" s with
  | Some r => Some (JFloat (S754_infinity false), r)
  | None =>
  match Str.strip_prefix "-Infinity" s with
  | Some r => Some (JFloat (S754_infinity true), r)
  | None => None
  end end end.

(** [scan_once], [JSONArray] and [JSONObject]; the last two are entered
    after the opening bracket and leading whitespace, and carry the items
    read so far. *)
Fixpoint scan_once (fuel : nat) (s : string) : option (json * string) :=
  match fuel with
  | O => None
  | S fuel =>
      match s with
      | EmptyString => None
      | String c r =>
          let n := code c in
          if (n =? 34)%N then
            match scanstring r with
            | Some (str, rest) => Some (JStr str, rest)
            | None => None
            end
          else if (n =? 123)%N then
            match skip_ws r with
            | String c1 r1 =>
                if (code c1 =? 125)%N then Some (JObj [], r1)
                else scan_members fuel [] (String c1 r1)
            | EmptyString => None
            end
          else if (n =? 91)%N then
            match skip_ws r with
            | String c1 r1 =>
                if (code c1 =? 93)%N then Some (JArr [], r1)
                else scan_items fuel [] (String c1 r1)
            | EmptyString => None
            end
          else
            match Str.strip_prefix "null" s with
            | Some rest => Some (JNull, rest)
            | None =>
            match Str.strip_prefix "true" s with
            | Some rest => Some (JBool true, rest)
            | None =>
            match Str.strip_prefix "false" s with
            | Some rest => Some (JBool false, rest)
            | None =>
            match match_number s with
            | Some res => Some res
            | None => match_constant s
            end end end end
      end
  end
with scan_items (fuel : nat) (acc : list json) (s : string) : option (json * string) :=
  match fuel with
  | O => None
  | S fuel =>
      match scan_once fuel s with
      | None => None
      | Some (v, r) =>
          match skip_ws r with
          | String c r1 =>
              if (code c =? 93)%N then Some (JArr (acc ++ [v]), r1)
              else if (code c =? 44)%N then scan_items fuel (acc ++ [v]) (skip_ws r1)
              else None
          | EmptyString => None
          end
      end
  end
with scan_members (fuel : nat) (acc : list (string * json)) (s : string)
    : option (json * string) :=
  match fuel with
  | O => None
  | S fuel =>
      match s with
      | String q r =>
          if (code q =? 34)%N then
            match scanstring r with
            | None => None
            | Some (key, r1) =>
                match skip_ws r1 with
                | String c r2 =>
                    if (code c =? 58)%N then
                      match scan_once fuel (skip_ws r2) with
                      | None => None
                      | Some (v, r3) =>
                          match skip_ws r3 with
                          | String c' r4 =>
                              if (code c' =? 125)%N
                              then Some (JObj (dict_set key v acc), r4)
                              else if (code c' =? 44)%N
                              then scan_members fuel (dict_set key v acc) (skip_ws r4)
                              else None
                          | EmptyString => None
                          end
                      end
                    else None
                | EmptyString => None
                end
            end
          else None
      | EmptyString => None
      end
  end.

(** [json.loads(s)] *)
Definition loads (s : string) : option json :=
  match scan_once (2 * String.length s + 2) (skip_ws s) with
  | Some (v, rest) =>
      match skip_ws rest with
      | EmptyString => Some v
      | String _ _ => None          (* "Extra data" *)
      end
  | None => None
  end.

(** *** Encoder *)

(** [encode_basestring_ascii] without the surrounding quotes: the
    printable ASCII characters stay, the others are escaped. *)
Definition escape_ascii (c : ascii) : string :=
  let n := code c in
  if (n =? 34)%N then backslash +:+ dq
  else if (n =? 92)%N then backslash +:+ backslash
  else if (n =? 10)%N then backslash +:+ "n"
  else if (n =? 13)%N then backslash +:+ "r"
  else if (n =? 9)%N then backslash +:+ "t"
  else if (n =? 8)%N then backslash +:+ "b"
  else if (n =? 12)%N then backslash +:+ "f"
  else if (n <? 32)%N || (126 <? n)%N then u_escape n
  else String c "".

Definition escape_code_point (cp : N) : string :=
  if (cp <? 65536)%N then u_escape cp
  else
    let v := (cp - 65536)%N in
    u_escape (N.lor 55296 (N.land (N.shiftr v 10) 1023)) +:+
    u_escape (N.lor 56320 (N.land v 1023)).

Definition cont (c : ascii) : N := N.land (code c) 63.

(** The characters of the string are read back from its UTF-8 bytes; a
    byte that starts no well-formed sequence is escaped on its own. *)
Fixpoint escape_chars (s : string) : string :=
  match s with
  | EmptyString => ""
  | String c r =>
      let n := code c in
      if (n <? 128)%N then escape_ascii c +:+ escape_chars r
      else if (192 <=? n)%N && (n <? 224)%N then
        match r with
        | String c1 r1 =>
            escape_code_point (N.land n 31 * 64 + cont c1) +:+ escape_chars r1
        | _ => u_escape n +:+ escape_chars r
        end
      else if (224 <=? n)%N && (n <? 240)%N then
        match r with
        | String c1 (String c2 r2) =>
            escape_code_point (N.land n 15 * 4096 + cont c1 * 64 + cont c2)
              +:+ escape_chars r2
        | _ => u_escape n +:+ escape_chars r
        end
      else if (240 <=? n)%N then
        match r with
        | String c1 (String c2 (String c3 r3)) =>
            escape_code_point
              (N.land n 7 * 262144 + cont c1 * 4096 + cont c2 * 64 + cont c3)
              +:+ escape_chars r3
        | _ => u_escape n +:+ escape_chars r
        end
      else u_escape n +:+ escape_chars r
  end.

Definition encode_string (s : string) : string := dq +:+ escape_chars s +:+ dq.

Definition floatstr (x : spec_float) : string :=
  match x with
  | S754_nan => "NaN"
  | S754_infinity false => "Infinity"
  | S754_infinity true => "-Infinity"
  | _ => float_repr x
  end.

Fixpoint spaces (n : nat) : string :=
  match n with O => "" | S n => String " " (spaces n) end.

Definition newline_indent (level : nat) : string :=
  String "010"%char (spaces (2 * level)).

Fixpoint join (sep : string) (l : list string) : string :=
  match l with
  | [] => ""
  | [x] => x
  | x :: l' => x +:+ sep +:+ join sep l'
  end.

(** [_iterencode] at nesting depth [level], with [indent=2] and the
    separators [","] and [": "] that go with it. *)
Fixpoint iterencode (level : nat) (v : json) : string :=
  match v with
  | JNull => "null"
  | JBool true => "true"
  | JBool false => "false"
  | JInt n => pretty n
  | JFloat x => floatstr x
  | JStr s => encode_string s
  | JArr [] => "[]"
  | JArr l =>
      "[" +:+ newline_indent (S level) +:+
      join ("," +:+ newline_indent (S level)) (map (iterencode (S level)) l) +:+
      newline_indent level +:+ "]"
  | JObj [] => "{}"
  | JObj d =>
      "{" +:+ newline_indent (S level) +:+
      join ("," +:+ newline_indent (S level))
        (map (fun kv => encode_string (fst kv) +:+ ": " +:+ iterencode (S level) (snd kv)) d)
      +:+ newline_indent level +:+ "}"
  end.

(** [json.dumps(v, indent=2)] *)
Definition dumps (v : json) : string := iterencode 0 v.

End Codec.

End Json.

(** ** Data of [session.py] and of the libraries it talks to *)

(** [mcp.types.Tool], as far as the client reads it. *)
Module Tool.
Record t := {
  name : string;
  description : option string;
  inputSchema : json
}.
End Tool.

(** The dataclass [MCPServerConfig]; the annotations are taken as types. *)
Module MCPServerConfig.
Record t := {
  name : string;
  script_path : string;
  enabled : bool;
  timeout : Z;
  max_retries : Z;
  health_check_interval : Z;
  metadata : list (string * json)
}.

(** [self.enabled = b] *)
Definition set_enabled (b : bool) (c : t) : t :=
  {| name := name c; script_path := script_path c; enabled := b;
     timeout := timeout c; max_retries := max_retries c;
     health_check_interval := health_check_interval c;
     metadata := metadata c |}.
End MCPServerConfig.

(** The objects the MCP library hands out are kept by an identity. *)
Definition ClientSession := N.
Definition StdioClient := N.

(** The per-backend dict stored in [server_sessions]; all five keys are set
    together by [initialize_servers]. *)
Module SessionInfo.
Record t := {
  session : ClientSession;
  stdio : StdioClient;
  tools : list Tool.t;
  healthy : bool;
  last_check : spec_float
}.

Definition set_healthy (b : bool) (s : t) : t :=
  {| session := session s; stdio := stdio s; tools := tools s;
     healthy := b; last_check := last_check s |}.

Definition set_last_check (x : spec_float) (s : t) : t :=
  {| session := session s; stdio := stdio s; tools := tools s;
     healthy := healthy s; last_check := x |}.
End SessionInfo.

Record StdioServerParameters := {
  command : string;
  args : list string;
  env : list (string * string)
}.

(** What a backend that came up hands back: the entered stdio client, the
    initialized session and the result of [list_tools()]. *)
Record Backend := {
  backend_session : ClientSession;
  backend_stdio : StdioClient;
  backend_tools : list Tool.t
}.

(** An item of [CallToolResult.content]: it has a [text] attribute, or it is
    shown by [str()]. *)
Inductive Content :=
| TextContent (text : string)
| OtherContent (str : string).

(** ** Data of [metrics.py] *)

Module RequestMetrics.
Record t := {
  request_id : string;
  start_time : spec_float;
  end_time : option spec_float;
  success : bool;
  error_type : option string;
  tools_called : list string;
  token_usage : option (list (string * Z))
}.

(** [RequestMetrics(request_id=..., start_time=...)] *)
Definition new (request_id : string) (start_time : spec_float) : t :=
  {| request_id := request_id; start_time := start_time; end_time := None;
     success := false; error_type := None; tools_called := [];
     token_usage := None |}.

Definition set_end_time (x : spec_float) (m : t) : t :=
  {| request_id := request_id m; start_time := start_time m; end_time := Some x;
     success := success m; error_type := error_type m;
     tools_called := tools_called m; token_usage := token_usage m |}.

Definition set_success (b : bool) (m : t) : t :=
  {| request_id := request_id m; start_time := start_time m; end_time := end_time m;
     success := b; error_type := error_type m;
     tools_called := tools_called m; token_usage := token_usage m |}.

Definition set_error_type (e : string) (m : t) : t :=
  {| request_id := request_id m; start_time := start_time m; end_time := end_time m;
     success := success m; error_type := Some e;
     tools_called := tools_called m; token_usage := token_usage m |}.
End RequestMetrics.

(** ** Data of [app.py]: the messages exchanged with the model *)

(** A block of [response.content]. *)
Inductive ContentBlock :=
| TextBlock (text : string)
| ToolUseBlock (id name : string) (input : json)
| OtherBlock (type : string).

Definition block_type (b : ContentBlock) : string :=
  match b with
  | TextBlock _ => "text"
  | ToolUseBlock _ _ _ => "tool_use"
  | OtherBlock t => t
  end.

(** One entry of [tool_results]. *)
Record ToolResult := {
  tool_use_id : string;
  result_text : string
}.

(** The [content] of a history entry: the user's text, the blocks of a
    response, or a list of tool results. *)
Inductive MessageContent :=
| UserText (text : string)
| Blocks (blocks : list ContentBlock)
| ToolResults (results : list ToolResult).

Record Message := { role : string; content : MessageContent }.

(** The keyword arguments of [messages.create]; [tools] is absent in the
    second call of an exchange. *)
Record MessagesRequest := {
  model : string;
  max_tokens : Z;
  system : string;
  messages : list Message;
  req_tools : option (list json)
}.

Record Response := {
  stop_reason : string;
  response_content : list ContentBlock
}.

(** ** The outside world *)

Inductive LogLevel := DEBUG | INFO | WARNING | ERROR.

(** What the process did to the outside, oldest first. *)
Inductive Event :=
| EvLog (level : LogLevel) (msg : string)
| EvTime (t : spec_float)
| EvSleep (seconds : Z)
| EvConnect (params : StdioServerParameters) (r : PyExn + Backend)
| EvCallTool (s : ClientSession) (name : string) (arguments : json)
             (r : PyExn + list Content)
| EvCreate (req : MessagesRequest) (r : PyExn + Response).

(** The oracles.  Each sees the trace so far. *)
Record World := {
  (** [time.time()] *)
  time_time : list Event -> spec_float;
  (** [os.environ] *)
  os_environ : list (string * string);
  (** entering [stdio_client(params)] and [ClientSession], then
      [initialize()] and [list_tools()]: the backend, or the first exception *)
  connect : list Event -> StdioServerParameters -> PyExn + Backend;
  (** [session.call_tool(name=..., arguments=...)]: [result.content] *)
  call_tool : list Event -> ClientSession -> string -> json -> PyExn + list Content;
  (** [anthropic_client.messages.create(...)] *)
  messages_create : list Event -> MessagesRequest -> PyExn + Response;
  (** [float(text)], [repr(x)] and the builtin [sum] over floats *)
  float_of_literal : string -> spec_float;
  float_repr : spec_float -> string;
  float_sum : list spec_float -> spec_float
}.

(** ** The state of the client *)

Record State := {
  (** [MCPSessionManager] *)
  server_configs : list MCPServerConfig.t;
  server_sessions : list (string * SessionInfo.t);
  (** [MCPClient] *)
  conversation_history : list Message;
  (** [MetricsCollector.metrics] *)
  metrics : list RequestMetrics.t;
  (** the world: what happened so far, and the files by path *)
  trace : list Event;
  files : gmap string string
}.

Definition set_server_configs (f : list MCPServerConfig.t -> list MCPServerConfig.t)
    (st : State) : State :=
  {| server_configs := f (server_configs st); server_sessions := server_sessions st;
     conversation_history := conversation_history st; metrics := metrics st;
     trace := trace st; files := files st |}.

Definition set_server_sessions
    (f : list (string * SessionInfo.t) -> list (string * SessionInfo.t))
    (st : State) : State :=
  {| server_configs := server_configs st; server_sessions := f (server_sessions st);
     conversation_history := conversation_history st; metrics := metrics st;
     trace := trace st; files := files st |}.

Definition set_conversation_history (f : list Message -> list Message)
    (st : State) : State :=
  {| server_configs := server_configs st; server_sessions := server_sessions st;
     conversation_history := f (conversation_history st); metrics := metrics st;
     trace := trace st; files := files st |}.

Definition set_metrics (f : list RequestMetrics.t -> list RequestMetrics.t)
    (st : State) : State :=
  {| server_configs := server_configs st; server_sessions := server_sessions st;
     conversation_history := conversation_history st; metrics := f (metrics st);
     trace := trace st; files := files st |}.

Definition set_trace (f : list Event -> list Event) (st : State) : State :=
  {| server_configs := server_configs st; server_sessions := server_sessions st;
     conversation_history := conversation_history st; metrics := metrics st;
     trace := f (trace st); files := files st |}.

Definition set_files (f : gmap string string -> gmap string string)
    (st : State) : State :=
  {| server_configs := server_configs st; server_sessions := server_sessions st;
     conversation_history := conversation_history st; metrics := metrics st;
     trace := trace st; files := f (files st) |}.

(** A fresh [MCPClient] (with its fresh manager and collector) in a world. *)
Definition init_state (tr : list Event) (fs : gmap string string) : State :=
  {| server_configs := []; server_sessions := []; conversation_history := [];
     metrics := []; trace := tr; files := fs |}.

(** ** Computations: state and exceptions *)

Definition M (A : Type) : Type := State -> (PyExn + A) * State.

Definition ret {A} (a : A) : M A := fun st => (inr a, st).
Definition raise {A} (e : PyExn) : M A := fun st => (inl e, st).

Definition bind {A B} (m : M A) (k : A -> M B) : M B :=
  fun st =>
    match m st with
    | (inr a, st') => k a st'
    | (inl e, st') => (inl e, st')
    end.

(** [try: m  except Exception as e: h e] *)
Definition try_except {A} (m : M A) (h : PyExn -> M A) : M A :=
  fun st =>
    match m st with
    | (inr a, st') => (inr a, st')
    | (inl e, st') => h e st'
    end.

Definition gets {A} (f : State -> A) : M A := fun st => (inr (f st), st).
Definition modify (f : State -> State) : M unit := fun st => (inr tt, f st).

(** A value or an exception computed without the state. *)
Definition lift {A} (r : PyExn + A) : M A := fun st => (r, st).

Declare Scope py_scope.
Delimit Scope py_scope with py.
Notation "x <- m ;; k" := (bind m (fun x => k))
  (at level 100, m at next level, k at level 200, right associativity) : py_scope.
Notation "m ;; k" := (bind m (fun _ => k))
  (at level 100, k at level 200, right associativity) : py_scope.
Open Scope py_scope.

Definition emit (e : Event) : M unit := modify (set_trace (fun tr => tr ++ [e])).

(** * The program *)

Section Program.

Context (world : World).

(** [logger.debug/info/warning/error(msg)] *)
Definition log (level : LogLevel) (msg : string) : M unit := emit (EvLog level msg).

(** [time.time()] *)
Definition now : M spec_float :=
  fun st =>
    let t := time_time world (trace st) in
    (inr t, set_trace (fun tr => tr ++ [EvTime t]) st).

(** [await asyncio.sleep(seconds)] *)
Definition sleep (seconds : Z) : M unit := emit (EvSleep seconds).

Definition json_loads : string -> option json := Json.loads (float_of_literal world).
Definition json_dumps : json -> string := Json.dumps (float_repr world).

Definition error (type_name text : string) : PyExn :=
  {| exn_type := OtherError type_name; exn_text := text |}.

(** ** [session.py] *)

(** *** Building an [MCPServerConfig] from a decoded document *)

Definition field_names : list string :=
  ["name"; "script_path"; "enabled"; "timeout"; "max_retries";
   "health_check_interval"; "metadata"].

Definition type_name (v : json) : string :=
  match v with
  | JNull => "NoneType" | JBool _ => "bool" | JInt _ => "int" | JFloat _ => "float"
  | JStr _ => "str" | JArr _ => "list" | JObj _ => "dict"
  end.

(** A keyword argument with a default; [None] when the value present does
    not have the annotated type. *)
Definition kw_bool (d : list (string * json)) (k : string) (default : bool)
    : option bool :=
  match dict_get k d with
  | None => Some default
  | Some (JBool b) => Some b
  | Some _ => None
  end.

Definition kw_int (d : list (string * json)) (k : string) (default : Z) : option Z :=
  match dict_get k d with
  | None => Some default
  | Some (JInt n) => Some n
  | Some _ => None
  end.

Definition kw_dict (d : list (string * json)) (k : string) : option (list (string * json)) :=
  match dict_get k d with
  | None => Some []
  | Some (JObj m) => Some m
  | Some _ => None
  end.

(** [MCPServerConfig] applied to the unpacked [server] (the double-star
    call).  The generated [__init__] rejects a
    keyword that is no field and a missing [name] or [script_path].  It
    does not check the annotations; a document whose values do not have the
    annotated types has no counterpart in this typed record and is
    rejected here as well. *)
Definition MCPServerConfig_init (server : json) : PyExn + MCPServerConfig.t :=
  match server with
  | JObj d =>
      match List.filter (fun k => negb (existsb (String.eqb k) field_names)) (dict_keys d) with
      | k :: _ =>
          inl (error "TypeError"
                 ("MCPServerConfig.__init__() got an unexpected keyword argument '"
                  +:+ k +:+ "'"))
      | [] =>
          match dict_get "name" d, dict_get "script_path" d with
          | None, None =>
              inl (error "TypeError"
                     "MCPServerConfig.__init__() missing 2 required positional arguments: 'name' and 'script_path'")
          | None, Some _ =>
              inl (error "TypeError"
                     "MCPServerConfig.__init__() missing 1 required positional argument: 'name'")
          | Some _, None =>
              inl (error "TypeError"
                     "MCPServerConfig.__init__() missing 1 required positional argument: 'script_path'")
          | Some (JStr name), Some (JStr script_path) =>
              match kw_bool d "enabled" true, kw_int d "timeout" 30,
                    kw_int d "max_retries" 3, kw_int d "health_check_interval" 60,
                    kw_dict d "metadata" with
              | Some enabled, Some timeout, Some max_retries, Some interval, Some metadata =>
                  inr {| MCPServerConfig.name := name;
                         MCPServerConfig.script_path := script_path;
                         MCPServerConfig.enabled := enabled;
                         MCPServerConfig.timeout := timeout;
                         MCPServerConfig.max_retries := max_retries;
                         MCPServerConfig.health_check_interval := interval;
                         MCPServerConfig.metadata := metadata |}
              | _, _, _, _, _ => inl (error "TypeError" "field value outside its annotated type")
              end
          | Some _, Some _ => inl (error "TypeError" "field value outside its annotated type")
          end
      end
  | _ =>
      inl (error "TypeError"
             ("MCPServerConfig() argument after ** must be a mapping, not "
              +:+ type_name server))
  end.

(** [config_data.get("servers", [])] *)
Definition get_servers (config_data : json) : PyExn + json :=
  match config_data with
  | JObj d => inr (default (JArr []) (dict_get "servers" d))
  | _ =>
      inl (error "AttributeError"
             ("'" +:+ type_name config_data +:+ "' object has no attribute 'get'"))
  end.

(** What a [for] over the value yields: the items of a list, the keys of a
    dict, the characters of a str (here byte by byte: no character is a
    mapping, whatever the split). *)
Definition iterate (v : json) : PyExn + list json :=
  match v with
  | JArr l => inr l
  | JObj d => inr (map JStr (dict_keys d))
  | JStr s => inr (map (fun c => JStr (String c "")) (list_ascii_of_string s))
  | _ => inl (error "TypeError" ("'" +:+ type_name v +:+ "' object is not iterable"))
  end.

(** The list comprehension building one [MCPServerConfig] per item. *)
Fixpoint configs_of (servers : list json) : PyExn + list MCPServerConfig.t :=
  match servers with
  | [] => inr []
  | server :: rest =>
      match MCPServerConfig_init server with
      | inl e => inl e
      | inr c =>
          match configs_of rest with
          | inl e => inl e
          | inr cs => inr (c :: cs)
          end
      end
  end.

(** [json.load(f)]; the text of the decoder's message is not modelled. *)
Definition json_load (text : string) : PyExn + json :=
  match json_loads text with
  | Some v => inr v
  | None => inl (error "JSONDecodeError" "")
  end.

(** *** [_create_default_configuration] and [load_configuration] *)

Definition default_config : json :=
  JObj [
    ("servers", JArr [
       JObj [
         ("name", JStr "sqlite-database");
         ("script_path", JStr "mcp_sandbox.server");
         ("enabled", JBool true);
         ("timeout", JInt 30);
         ("max_retries", JInt 3);
         ("health_check_interval", JInt 60);
         ("metadata", JObj [
            ("description", JStr "SQLite database MCP server");
            ("version", JStr "1.0.0")])]]);
    ("log_level", JStr "INFO")].

(** [default_config["servers"]] *)
Definition default_servers : list json :=
  match default_config with
  | JObj d => match dict_get "servers" d with Some (JArr l) => l | _ => [] end
  | _ => []
  end.

(** Directories are not part of [files]: [mkdir(parents=True,
    exist_ok=True)] leaves it as it is, and opening for writing creates or
    replaces the file. *)
Definition _create_default_configuration (config_path : string) : M unit :=
  modify (set_files (fun fs => <[config_path := json_dumps default_config]> fs)) ;;
  cfgs <- lift (configs_of default_servers) ;;
  modify (set_server_configs (fun _ => cfgs)) ;;
  log INFO ("✅ Created default config at " +:+ config_path).

Definition load_configuration (config_path : string) : M unit :=
  fs <- gets files ;;
  match fs !! config_path with
  | Some text =>
      log INFO ("📁 Loading config from " +:+ config_path) ;;
      config_data <- lift (json_load text) ;;
      servers <- lift (get_servers config_data) ;;
      items <- lift (iterate servers) ;;
      cfgs <- lift (configs_of items) ;;
      modify (set_server_configs (fun _ => cfgs))
  | None =>
      log INFO "📁 Creating default configuration" ;;
      _create_default_configuration config_path
  end.

(** *** [initialize_servers] *)

(** Run as a module if [script_path] looks like a module path. *)
Definition server_params (server_config : MCPServerConfig.t) : StdioServerParameters :=
  let script_path := MCPServerConfig.script_path server_config in
  if Str.contains "." script_path && negb (Str.endswith ".py" script_path)
  then {| command := "python"; args := ["-m"; script_path]; env := os_environ world |}
  else {| command := "python"; args := [script_path]; env := os_environ world |}.

(** The awaited steps from [stdio_client(...)] to [list_tools()]; the
    manager changes nothing between them, so they are one oracle call. *)
Definition connect_backend (params : StdioServerParameters) : M Backend :=
  fun st =>
    let r := connect world (trace st) params in
    (r, set_trace (fun tr => tr ++ [EvConnect params r]) st).

(** The [try] block of the loop body. *)
Definition initialize_server (server_config : MCPServerConfig.t) : M unit :=
  let name := MCPServerConfig.name server_config in
  log INFO ("🔧 Initializing server: " +:+ name) ;;
  backend <- connect_backend (server_params server_config) ;;
  t <- now ;;
  modify (set_server_sessions (dict_set name
    {| SessionInfo.session := backend_session backend;
       SessionInfo.stdio := backend_stdio backend;
       SessionInfo.tools := backend_tools backend;
       SessionInfo.healthy := true;
       SessionInfo.last_check := t |})) ;;
  log INFO ("✅ Server " +:+ name +:+ " ready with "
            +:+ Str.of_int (Z.of_nat (length (backend_tools backend))) +:+ " tools").

(** The body of the loop over [self.server_configs]; [i] is the position
    of [server_config] in that list, the object that
    [server_config.enabled = False] updates. *)
Definition initialize_servers_body (i : nat) (server_config : MCPServerConfig.t)
    : M unit :=
  if negb (MCPServerConfig.enabled server_config) then ret tt   (* continue *)
  else
    try_except (initialize_server server_config)
      (fun e =>
         log ERROR ("❌ Failed to initialize " +:+ MCPServerConfig.name server_config
                    +:+ ": " +:+ exn_text e) ;;
         modify (set_server_configs (alter (MCPServerConfig.set_enabled false) i))).

Fixpoint initialize_servers_from (i : nat) (configs : list MCPServerConfig.t) : M unit :=
  match configs with
  | [] => ret tt
  | server_config :: rest =>
      initialize_servers_body i server_config ;;
      initialize_servers_from (S i) rest
  end.

Definition initialize_servers : M unit :=
  configs <- gets server_configs ;;
  initialize_servers_from 0 configs.

(** *** [health_check_all] *)

(** [session_info[...] = ...] for the [i]-th value of [server_sessions]. *)
Definition update_session (i : nat) (f : SessionInfo.t -> SessionInfo.t) : M unit :=
  modify (set_server_sessions (alter (fun kv => (fst kv, f (snd kv))) i)).

(** The [try] block of the loop body. *)
Definition health_check (i : nat) (server_name : string) : M unit :=
  update_session i (SessionInfo.set_healthy true) ;;
  t <- now ;;
  update_session i (SessionInfo.set_last_check t) ;;
  log DEBUG ("✅ Health check passed: " +:+ server_name).

Definition health_check_body (i : nat) (server_name : string) : M unit :=
  try_except (health_check i server_name)
    (fun e =>
       log WARNING ("⚠️ Health check failed for " +:+ server_name +:+ ": "
                    +:+ exn_text e) ;;
       update_session i (SessionInfo.set_healthy false)).

Fixpoint health_check_from (i : nat) (items : list (string * SessionInfo.t)) : M unit :=
  match items with
  | [] => ret tt
  | (server_name, _) :: rest =>
      health_check_body i server_name ;;
      health_check_from (S i) rest
  end.

Definition health_check_all : M unit :=
  items <- gets server_sessions ;;
  health_check_from 0 items.

(** *** [get_all_tools] *)

Definition json_of_option_str (o : option string) : json :=
  match o with Some s => JStr s | None => JNull end.

Definition tool_def (tool : Tool.t) : json :=
  JObj [("name", JStr (Tool.name tool));
        ("description", json_of_option_str (Tool.description tool));
        ("input_schema", Tool.inputSchema tool)].

Fixpoint all_tools_of (items : list (string * SessionInfo.t)) : list json :=
  match items with
  | [] => []
  | (_, session_info) :: rest =>
      if SessionInfo.healthy session_info
      then map tool_def (SessionInfo.tools session_info) ++ all_tools_of rest
      else all_tools_of rest
  end.

Definition get_all_tools (st : State) : list json := all_tools_of (server_sessions st).

(** *** [execute_tool] *)

(** The text of [result.content], item by item. *)
Fixpoint content_text (contents : list Content) : string :=
  match contents with
  | [] => ""
  | TextContent text :: rest => text +:+ content_text rest
  | OtherContent str :: rest => str +:+ content_text rest
  end.

Definition session_call_tool (s : ClientSession) (tool_name : string)
    (tool_input : json) : M (list Content) :=
  fun st =>
    let r := call_tool world (trace st) s tool_name tool_input in
    (r, set_trace (fun tr => tr ++ [EvCallTool s tool_name tool_input r]) st).

(** What [execute_tool] makes of a result that came back. *)
Definition parse_result (contents : list Content) : json :=
  match contents with
  | [] => JObj [("success", JBool true); ("result", JStr "No content")]
  | _ =>
      let text := content_text contents in
      match json_loads text with
      | Some v => v
      | None => JObj [("success", JBool true); ("result", JStr text)]
      end
  end.

Definition tool_names (session_info : SessionInfo.t) : list string :=
  map Tool.name (SessionInfo.tools session_info).

Definition advertises (tool_name : string) (session_info : SessionInfo.t) : bool :=
  existsb (String.eqb tool_name) (tool_names session_info).

Fixpoint execute_tool_from (items : list (string * SessionInfo.t))
    (tool_name : string) (tool_input : json) (request_id : string) : M json :=
  match items with
  | [] =>
      ret (JObj [("error",
                  JStr ("Tool " +:+ tool_name +:+ " not found on any healthy server"))])
  | (_, session_info) :: rest =>
      if negb (SessionInfo.healthy session_info)
      then execute_tool_from rest tool_name tool_input request_id
      else if advertises tool_name session_info then
        try_except
          (result <- session_call_tool (SessionInfo.session session_info)
                       tool_name tool_input ;;
           ret (parse_result result))
          (fun e =>
             log ERROR ("❌ [" +:+ request_id +:+ "] Tool execution failed: "
                        +:+ tool_name +:+ " - " +:+ exn_text e) ;;
             ret (JObj [("error", JStr ("Tool execution failed: " +:+ exn_text e))]))
      else execute_tool_from rest tool_name tool_input request_id
  end.

Definition execute_tool (tool_name : string) (tool_input : json)
    (request_id : string) : M json :=
  items <- gets server_sessions ;;
  execute_tool_from items tool_name tool_input request_id.

Definition get_healthy_server_count (st : State) : Z :=
  Z.of_nat (length (List.filter (fun kv => SessionInfo.healthy (snd kv))
                      (server_sessions st))).

(** ** [metrics.py] *)

(** [self.metrics.append(metric)] *)
Definition add_metric (metric : RequestMetrics.t) : M unit :=
  modify (set_metrics (fun l => l ++ [metric])).

(** [m.end_time - m.start_time for m in self.metrics if m.end_time]: an
    [end_time] that is [None] or zero is skipped. *)
Fixpoint durations (l : list RequestMetrics.t) : list spec_float :=
  match l with
  | [] => []
  | m :: rest =>
      match RequestMetrics.end_time m with
      | Some t =>
          if Float.truthy t
          then Float.sub t (RequestMetrics.start_time m) :: durations rest
          else durations rest
      | None => durations rest
      end
  end.

(** [sum(...)] of the durations: the [int] zero when there is none. *)
Definition sum_durations (l : list RequestMetrics.t) : spec_float :=
  match durations l with
  | [] => Float.of_Z 0
  | ds => float_sum world ds
  end.

(** [a / b] on lengths of lists (exactly representable as floats). *)
Definition true_div (a b : Z) : spec_float := Float.div (Float.of_Z a) (Float.of_Z b).

(** [get_summary] on the list [self.metrics]. *)
Definition get_summary (l : list RequestMetrics.t) : json :=
  match l with
  | [] => JObj [("message", JStr "No metrics available")]
  | _ =>
      let total := Z.of_nat (length l) in
      let successful := Z.of_nat (length (List.filter RequestMetrics.success l)) in
      let failed := total - successful in
      let avg_duration :=
        if 0 <? total then Float.div (sum_durations l) (Float.of_Z total)
        else Float.of_Z 0 in
      JObj [("total_requests", JInt total);
            ("successful", JInt successful);
            ("failed", JInt failed);
            ("success_rate",
             JStr (if 0 <? total
                   then Float.format_f 1 (Float.mul (true_div successful total)
                                                    (Float.of_Z 100)) +:+ "%"
                   else "0%"));
            ("avg_duration_seconds", JStr (Float.format_f 2 avg_duration))]
  end.

(** ** [app.py] *)

Definition system_message : string :=
"You are an AI assistant with access to MCP (Model Context Protocol) tools.

You have access to database operations and other tools provided by MCP servers.
Always explain your actions clearly and handle errors gracefully.

This environment has proper monitoring and error handling.".

(** [self.anthropic_client.messages.create(...)] *)
Definition create (req : MessagesRequest) : M Response :=
  fun st =>
    let r := messages_create world (trace st) req in
    (r, set_trace (fun tr => tr ++ [EvCreate req r]) st).

(** [self.conversation_history.append(msg)] *)
Definition append_history (msg : Message) : M unit :=
  modify (set_conversation_history (fun h => h ++ [msg])).

(** [content[0].text] *)
Definition first_text (content : list ContentBlock) : PyExn + string :=
  match content with
  | [] => inl (error "IndexError" "list index out of range")
  | TextBlock text :: _ => inr text
  | ToolUseBlock _ _ _ :: _ =>
      inl (error "AttributeError" "'ToolUseBlock' object has no attribute 'text'")
  | OtherBlock _ :: _ =>
      inl (error "AttributeError" "object has no attribute 'text'")
  end.

(** The loop over [response.content] that fills [tool_results]; of each
    result dict the two entries that vary are kept. *)
Fixpoint run_tools (request_id : string) (blocks : list ContentBlock)
    : M (list ToolResult) :=
  match blocks with
  | [] => ret []
  | ToolUseBlock tool_id tool_name tool_input :: rest =>
      log INFO ("🎯 [" +:+ request_id +:+ "] Executing tool: " +:+ tool_name) ;;
      tool_result <- execute_tool tool_name tool_input request_id ;;
      results <- run_tools request_id rest ;;
      ret ({| tool_use_id := tool_id; result_text := json_dumps tool_result |} :: results)
  | _ :: rest => run_tools request_id rest
  end.

Definition no_tools_text : string :=
  "❌ No MCP tools currently available. Please check server status.".

(** The part of [_execute_chat] after the first model call. *)
Definition finish_exchange (request_id : string) (response : Response) : M string :=
  if String.eqb (stop_reason response) "tool_use" then
    log INFO ("🛠️ [" +:+ request_id +:+ "] Claude requested tool use") ;;
    tool_results <- run_tools request_id (response_content response) ;;
    append_history {| role := "assistant";
                      content := Blocks (response_content response) |} ;;
    append_history {| role := "user"; content := ToolResults tool_results |} ;;
    history <- gets conversation_history ;;
    final_response <- create {| model := "claude-sonnet-4-5"; max_tokens := 4000;
                                system := system_message; messages := history;
                                req_tools := None |} ;;
    append_history {| role := "assistant";
                      content := Blocks (response_content final_response) |} ;;
    lift (first_text (response_content final_response))
  else
    append_history {| role := "assistant";
                      content := Blocks (response_content response) |} ;;
    lift (first_text (response_content response)).

Definition _execute_chat (user_message request_id : string) : M string :=
  append_history {| role := "user"; content := UserText user_message |} ;;
  all_tools <- gets get_all_tools ;;
  match all_tools with
  | [] =>
      log WARNING ("⚠️ [" +:+ request_id +:+ "] No healthy MCP servers available") ;;
      ret no_tools_text
  | _ =>
      log INFO ("🔧 [" +:+ request_id +:+ "] Using "
                +:+ Str.of_int (Z.of_nat (length all_tools))
                +:+ " tools from MCP servers") ;;
      history <- gets conversation_history ;;
      response <- create {| model := "claude-sonnet-4-5"; max_tokens := 4000;
                            system := system_message; messages := history;
                            req_tools := Some all_tools |} ;;
      finish_exchange request_id response
  end.

(** How one pass through the body of the retry loop ends. *)
Inductive Flow := Return (response : string) | Continue.

(** [metrics.end_time = time.time(); self.metrics_collector.add_metric(metrics)]
    after [metrics.error_type = error_type] *)
Definition record_failure (request_metrics : RequestMetrics.t) (error_type : string)
    : M unit :=
  t <- now ;;
  add_metric (RequestMetrics.set_end_time t
                (RequestMetrics.set_error_type error_type request_metrics)).

(** The body of [for attempt in range(max_retries)]. *)
Definition chat_attempt (user_message : string) (max_retries : Z)
    (request_id : string) (request_metrics : RequestMetrics.t) (attempt : Z) : M Flow :=
  try_except
    (response <- _execute_chat user_message request_id ;;
     t <- now ;;
     add_metric (RequestMetrics.set_success true
                   (RequestMetrics.set_end_time t request_metrics)) ;;
     let elapsed := Float.sub t (RequestMetrics.start_time request_metrics) in
     log INFO ("✅ [" +:+ request_id +:+ "] Request completed in "
               +:+ Float.format_f 2 elapsed +:+ "s") ;;
     ret (Return response))
    (fun e =>
       match exn_type e with
       | APITimeoutError =>
           log WARNING ("⏱️ [" +:+ request_id +:+ "] Timeout on attempt "
                        +:+ Str.of_int (attempt + 1) +:+ "/"
                        +:+ Str.of_int max_retries) ;;
           if attempt =? max_retries - 1 then
             record_failure request_metrics "timeout" ;;
             ret (Return ("❌ Request timed out after " +:+ Str.of_int max_retries
                          +:+ " attempts"))
           else
             sleep (2 ^ attempt) ;;       (* Exponential backoff *)
             ret Continue
       | RateLimitError =>
           log WARNING ("🚦 [" +:+ request_id +:+ "] Rate limit hit, waiting...") ;;
           if attempt =? max_retries - 1 then
             record_failure request_metrics "rate_limit" ;;
             ret (Return "❌ Rate limit exceeded. Please try again later.")
           else
             sleep (5 * (attempt + 1)) ;;
             ret Continue
       | OtherError _ =>
           log ERROR ("❌ [" +:+ request_id +:+ "] Error: " +:+ exn_text e) ;;
           record_failure request_metrics (type_name_of e) ;;
           ret (Return ("❌ Error: " +:+ exn_text e))
       end).

(** The loop; falling off its end is the implicit [return None]. *)
Fixpoint chat_attempts (user_message : string) (max_retries : Z)
    (request_id : string) (request_metrics : RequestMetrics.t) (attempts : list Z)
    : M (option string) :=
  match attempts with
  | [] => ret None
  | attempt :: rest =>
      flow <- chat_attempt user_message max_retries request_id request_metrics attempt ;;
      match flow with
      | Return response => ret (Some response)
      | Continue =>
          chat_attempts user_message max_retries request_id request_metrics rest
      end
  end.

(** [range(n)] *)
Definition range (n : Z) : list Z := map Z.of_nat (seq 0 (Z.to_nat n)).

Definition chat_with_claude (user_message : string) (max_retries : Z)
    : M (option string) :=
  t <- now ;;
  millis <- lift (Float.to_int (Float.mul t (Float.of_Z 1000))) ;;
  let request_id := "req_" +:+ Str.of_int millis in
  start_time <- now ;;
  let request_metrics := RequestMetrics.new request_id start_time in
  log INFO ("📨 [" +:+ request_id +:+ "] Processing request") ;;
  chat_attempts user_message max_retries request_id request_metrics (range max_retries).

(** [get_metrics_summary]: the summary with two more keys. *)
Definition get_metrics_summary (st : State) : json :=
  match get_summary (metrics st) with
  | JObj summary =>
      JObj (dict_set "total_servers" (JInt (Z.of_nat (length (server_sessions st))))
              (dict_set "healthy_servers" (JInt (get_healthy_server_count st)) summary))
  | v => v
  end.

(** [clear_conversation] *)
Definition clear_conversation : M unit :=
  modify (set_conversation_history (fun _ => [])) ;;
  log INFO "🗑️ Conversation history cleared".

End Program.

(** * Specification vocabulary *)

(** ** Reading a trace *)

Definition sleeps (evs : list Event) : list Z :=
  omap (fun e => match e with EvSleep n => Some n | _ => None end) evs.

Definition times (evs : list Event) : list spec_float :=
  omap (fun e => match e with EvTime t => Some t | _ => None end) evs.

(** The requests sent to the model, oldest first. *)
Definition create_requests (evs : list Event) : list MessagesRequest :=
  omap (fun e => match e with EvCreate req _ => Some req | _ => None end) evs.

(** The backends the manager tried to bring up, oldest first. *)
Definition connect_requests (evs : list Event) : list StdioServerParameters :=
  omap (fun e => match e with EvConnect p _ => Some p | _ => None end) evs.

(** No backend and no model was contacted. *)
Definition local_event (e : Event) : bool :=
  match e with
  | EvLog _ _ | EvTime _ | EvSleep _ => true
  | _ => false
  end.

(** The value and the final state of a computation. *)
Definition result {A} (m : M A) (st : State) : PyExn + A := fst (m st).
Definition final {A} (m : M A) (st : State) : State := snd (m st).

(** ** Frames: what a computation leaves alone *)

(** [m] always leaves the state in relation [R] to the one it started in. *)
Definition frame {A} (R : State -> State -> Prop) (m : M A) : Prop :=
  forall st, R st (final m st).

(** Nothing but the trace changed, and the trace grew. *)
Definition trace_only (st st' : State) : Prop :=
  exists evs, st' = set_trace (fun tr => tr ++ evs) st.

(** What an exchange with the model may change: the history and the trace,
    both by appending. *)
Definition exchange (st st' : State) : Prop :=
  server_configs st' = server_configs st
  /\ server_sessions st' = server_sessions st
  /\ metrics st' = metrics st
  /\ files st' = files st
  /\ (exists h, conversation_history st' = conversation_history st ++ h)
  /\ (exists evs, trace st' = trace st ++ evs).

(** ** The session manager *)

(** The descriptor [_create_default_configuration] synthesizes. *)
Definition default_descriptor : MCPServerConfig.t :=
  {| MCPServerConfig.name := "sqlite-database";
     MCPServerConfig.script_path := "mcp_sandbox.server";
     MCPServerConfig.enabled := true;
     MCPServerConfig.timeout := 30;
     MCPServerConfig.max_retries := 3;
     MCPServerConfig.health_check_interval := 60;
     MCPServerConfig.metadata :=
       [("description", JStr "SQLite database MCP server"); ("version", JStr "1.0.0")] |}.

(** The session [initialize_server] registers for a backend that came up
    at time [t]. *)
Definition the_session (backend : Backend) (t : spec_float) : SessionInfo.t :=
  {| SessionInfo.session := backend_session backend;
     SessionInfo.stdio := backend_stdio backend;
     SessionInfo.tools := backend_tools backend;
     SessionInfo.healthy := true;
     SessionInfo.last_check := t |}.

(** [s] is the session of a backend that came up for [c] at some moment
    after [tr0]; it is healthy. *)
Definition launched (world : World) (tr0 : list Event) (c : MCPServerConfig.t)
    (s : SessionInfo.t) : Prop :=
  exists evs backend,
    connect world (tr0 ++ evs) (server_params world c) = inr backend
    /\ SessionInfo.session s = backend_session backend
    /\ SessionInfo.stdio s = backend_stdio backend
    /\ SessionInfo.tools s = backend_tools backend
    /\ SessionInfo.healthy s = true.

(** The backend of [c] failed to come up at some moment after [tr0]. *)
Definition launch_failed (world : World) (tr0 : list Event) (c : MCPServerConfig.t)
    : Prop :=
  exists evs e, connect world (tr0 ++ evs) (server_params world c) = inl e.

(** A descriptor changes only by being disabled, and only when it was
    enabled and its own launch failed. *)
Definition descriptor_after (world : World) (tr0 : list Event)
    (c c' : MCPServerConfig.t) : Prop :=
  c' = c
  \/ (MCPServerConfig.enabled c = true
      /\ c' = MCPServerConfig.set_enabled false c /\ launch_failed world tr0 c).

(** An enabled descriptor ends up disabled, or unchanged with a healthy
    session under its name: it was processed whatever happened to the
    descriptors before it. *)
Definition processed (sessions' : list (string * SessionInfo.t))
    (c c' : MCPServerConfig.t) : Prop :=
  MCPServerConfig.enabled c = true ->
  c' = MCPServerConfig.set_enabled false c
  \/ (c' = c /\ exists s, dict_get (MCPServerConfig.name c) sessions' = Some s
                          /\ SessionInfo.healthy s = true).

(** How the registry [sessions'] relates to [sessions] after the manager
    went through [configs]: it grew by at most one session per enabled
    descriptor; a session in it was there before, unchanged, or was launched
    for an enabled descriptor of that name; and a name that had a session
    still has one. *)
Definition registry_after (world : World) (tr0 : list Event)
    (configs : list MCPServerConfig.t)
    (sessions sessions' : list (string * SessionInfo.t)) : Prop :=
  (length sessions' <=
     length sessions + length (List.filter MCPServerConfig.enabled configs))%nat
  /\ (forall k s', dict_get k sessions' = Some s' ->
        dict_get k sessions = Some s'
        \/ exists c, In c configs /\ MCPServerConfig.enabled c = true
                     /\ MCPServerConfig.name c = k /\ launched world tr0 c s')
  /\ (forall k s, dict_get k sessions = Some s ->
        exists s', dict_get k sessions' = Some s'
                   /\ (s' = s \/ SessionInfo.healthy s' = true)).

(** [kv'] is [kv] after a health check: the same backend under the same
    name, marked healthy. *)
Definition refreshed (kv kv' : string * SessionInfo.t) : Prop :=
  fst kv' = fst kv
  /\ SessionInfo.session (snd kv') = SessionInfo.session (snd kv)
  /\ SessionInfo.stdio (snd kv') = SessionInfo.stdio (snd kv)
  /\ SessionInfo.tools (snd kv') = SessionInfo.tools (snd kv)
  /\ SessionInfo.healthy (snd kv') = true.

(** No healthy session among [items] lists [tool_name]. *)
Definition unadvertised (tool_name : string) (items : list (string * SessionInfo.t))
    : Prop :=
  forall k s, In (k, s) items -> SessionInfo.healthy s = true ->
              ~ In tool_name (tool_names s).

(** The two error results of [execute_tool]. *)
Definition not_found (tool_name : string) : json :=
  JObj [("error", JStr ("Tool " +:+ tool_name +:+ " not found on any healthy server"))].

Definition execution_failed (e : PyExn) : json :=
  JObj [("error", JStr ("Tool execution failed: " +:+ exn_text e))].

(** The text of the payload in [test_execute_tool_success]: an object with
    the keys [success] and [result]. *)
Definition test_payload : string :=
  "{" +:+ Json.dq +:+ "success" +:+ Json.dq +:+ ": true, "
      +:+ Json.dq +:+ "result" +:+ Json.dq +:+ ": "
      +:+ Json.dq +:+ "test" +:+ Json.dq +:+ "}".

(** ** The chat wrapper *)

Definition user_turn (text : string) : Message :=
  {| role := "user"; content := UserText text |}.

(** The request of the first model call of an exchange started in [st]. *)
Definition first_request (user_message : string) (st : State) : MessagesRequest :=
  {| model := "claude-sonnet-4-5"; max_tokens := 4000; system := system_message;
     messages := conversation_history st ++ [user_turn user_message];
     req_tools := Some (get_all_tools st) |}.

(** The state in which that call is made, what the model answers, and the
    state right after the call. *)
Definition before_call (user_message request_id : string) (st : State) : State :=
  set_trace (fun tr => tr ++
      [EvLog INFO ("🔧 [" +:+ request_id +:+ "] Using "
                   +:+ Str.of_int (Z.of_nat (length (get_all_tools st)))
                   +:+ " tools from MCP servers")])
    (set_conversation_history (fun h => h ++ [user_turn user_message]) st).

Definition first_answer (world : World) (user_message request_id : string) (st : State)
    : PyExn + Response :=
  messages_create world (trace (before_call user_message request_id st))
    (first_request user_message st).

Definition after_call (world : World) (user_message request_id : string) (st : State)
    : State :=
  set_trace (fun tr => tr ++
      [EvCreate (first_request user_message st)
                (first_answer world user_message request_id st)])
    (before_call user_message request_id st).

(** [int(time.time() * 1000)] can be taken at every moment: the clock
    never shows an infinity or a NaN, nor a time whose milliseconds
    overflow. *)
Definition clock_in_range (world : World) : Prop :=
  forall tr, exists millis,
    Float.to_int (Float.mul (time_time world tr) (Float.of_Z 1000)) = inr millis.

(** The request id and the metric that [chat_with_claude] makes up when it
    is entered in [st], and the state in which its loop starts. *)
Definition request_id_in (world : World) (st : State) : string :=
  "req_" +:+ Str.of_int
    match Float.to_int (Float.mul (time_time world (trace st)) (Float.of_Z 1000)) with
    | inr millis => millis
    | inl _ => 0
    end.

Definition start_time_in (world : World) (st : State) : spec_float :=
  time_time world (trace st ++ [EvTime (time_time world (trace st))]).

Definition request_metrics_in (world : World) (st : State) : RequestMetrics.t :=
  RequestMetrics.new (request_id_in world st) (start_time_in world st).

Definition started (world : World) (st : State) : State :=
  set_trace (fun tr => tr ++
      [EvTime (time_time world (trace st)); EvTime (start_time_in world st);
       EvLog INFO ("📨 [" +:+ request_id_in world st +:+ "] Processing request")]) st.

(** The two failures that are retried. *)
Inductive Retryable := TimedOut | RateLimited.

Definition retry_class (k : Retryable) : ExnType :=
  match k with TimedOut => APITimeoutError | RateLimited => RateLimitError end.

(** The pause after failed attempt number [attempt] (counted from 0). *)
Definition backoff (k : Retryable) (attempt : Z) : Z :=
  match k with TimedOut => 2 ^ attempt | RateLimited => 5 * (attempt + 1) end.

(** What comes back when the last attempt failed too. *)
Definition exhausted_text (k : Retryable) (max_retries : Z) : string :=
  match k with
  | TimedOut => "❌ Request timed out after " +:+ Str.of_int max_retries +:+ " attempts"
  | RateLimited => "❌ Rate limit exceeded. Please try again later."
  end.

Definition error_label (k : Retryable) : string :=
  match k with TimedOut => "timeout" | RateLimited => "rate_limit" end.

Definition warning_text (k : Retryable) (request_id : string) (attempt max_retries : Z)
    : string :=
  match k with
  | TimedOut => "⏱️ [" +:+ request_id +:+ "] Timeout on attempt "
                +:+ Str.of_int (attempt + 1) +:+ "/" +:+ Str.of_int max_retries
  | RateLimited => "🚦 [" +:+ request_id +:+ "] Rate limit hit, waiting..."
  end.

(** Every call of the model raises an exception of the class of [k]. *)
Definition model_always_raises (world : World) (k : Retryable) : Prop :=
  forall tr req, exists e,
    messages_create world tr req = inl e /\ exn_type e = retry_class k.

(** The metric of a request that failed with [label] at time [t]. *)
Definition failed_metric (request_metrics : RequestMetrics.t) (label : string)
    (t : spec_float) : RequestMetrics.t :=
  RequestMetrics.set_end_time t (RequestMetrics.set_error_type label request_metrics).

(** A metric whose end time and outcome are set: a success without an
    error type, or a failure with one. *)
Definition finalized (m : RequestMetrics.t) : Prop :=
  is_Some (RequestMetrics.end_time m)
  /\ (RequestMetrics.success m = true /\ RequestMetrics.error_type m = None
      \/ RequestMetrics.success m = false /\ is_Some (RequestMetrics.error_type m)).

(** ** Sample worlds and states *)

Module Sample.

(** A world with a fixed clock, whose model and backends always give the
  same answers. *)
Definition world (answer : PyExn + Response) (tool_answer : PyExn + list Content)
  (launch : PyExn + Backend) : World :=
{| time_time := fun _ => Float.of_Z 1700000000;
   os_environ := [];
   connect := fun _ _ => launch;
   call_tool := fun _ _ _ _ => tool_answer;
   messages_create := fun _ _ => answer;
   float_of_literal := fun _ => S754_zero false;
   float_repr := fun _ => "0.0";
   float_sum := fun l => fold_left Float.add l (S754_zero false) |}.

Definition timeout : PyExn :=
{| exn_type := APITimeoutError; exn_text := "Request timed out." |}.
Definition broken : PyExn :=
{| exn_type := OtherError "RuntimeError"; exn_text := "backend went away" |}.

Definition hello : Response :=
{| stop_reason := "end_turn"; response_content := [TextBlock "Hello."] |}.

Definition quiet : World := world (inr hello) (inr [TextContent test_payload]) (inl broken).
Definition timing_out : World := world (inl timeout) (inr []) (inl broken).
Definition failing : World := world (inl broken) (inl broken) (inl broken).

Definition tool : Tool.t :=
{| Tool.name := "test_tool"; Tool.description := Some "A test tool";
   Tool.inputSchema := JObj [("type", JStr "object")] |}.

Definition session (healthy : bool) : SessionInfo.t :=
{| SessionInfo.session := 1%N; SessionInfo.stdio := 1%N; SessionInfo.tools := [tool];
   SessionInfo.healthy := healthy; SessionInfo.last_check := Float.of_Z 0 |}.

(** A client with one healthy backend, and one without any. *)
Definition connected : State :=
set_server_sessions (fun _ => [("test-server", session true)]) (init_state [] ∅).
Definition alone : State := init_state [] ∅.

(** The three metrics of [test_metrics_collector_summary]. *)
Definition metric (id : string) (start stop : Z) (ok : bool) : RequestMetrics.t :=
{| RequestMetrics.request_id := id;
   RequestMetrics.start_time := Float.of_Z start;
   RequestMetrics.end_time := Some (Float.of_Z stop);
   RequestMetrics.success := ok;
   RequestMetrics.error_type := if ok then None else Some "timeout";
   RequestMetrics.tools_called := [];
   RequestMetrics.token_usage := None |}.

End Sample.

(** * The rest of the client: [MetricsCollector.clear] and [MCPClient.initialize] *)

Module MetricsCollector.

(** [self.metrics.clear()] *)
Definition clear : M unit := modify (set_metrics (fun _ => [])).

End MetricsCollector.

Section Client.

Context (world : World).

(** [MCPClient.initialize]; [config_path] is [self.config_path]. *)
Definition initialize (config_path : string) : M bool :=
  log INFO "🚀 Initializing MCP client" ;;
  try_except
    (load_configuration world config_path ;;
     initialize_servers world ;;
     health_check_all world ;;
     server_count <- gets (fun st => Z.of_nat (length (server_sessions st))) ;;
     log INFO ("✅ MCP client ready with " +:+ Str.of_int server_count +:+ " servers") ;;
     ret true)
    (fun e =>
       log ERROR ("❌ Failed to initialize: " +:+ exn_text e) ;;
       ret false).

End Client.

(** ** More vocabulary *)

(** The backend calls among the events, oldest first. *)
Definition tool_calls (evs : list Event) : list (ClientSession * string * json) :=
  omap (fun e => match e with EvCallTool s n a _ => Some (s, n, a) | _ => None end) evs.

(** The ids of the [tool_use] blocks of a response, in order. *)
Definition tool_use_ids (blocks : list ContentBlock) : list string :=
  omap (fun b => match b with ToolUseBlock id _ _ => Some id | _ => None end) blocks.

Definition assistant_turn (blocks : list ContentBlock) : Message :=
  {| role := "assistant"; content := Blocks blocks |}.

Definition tool_results_turn (results : list ToolResult) : Message :=
  {| role := "user"; content := ToolResults results |}.

(** The request of the second model call of an exchange: no tools. *)
Definition second_request (history : list Message) : MessagesRequest :=
  {| model := "claude-sonnet-4-5"; max_tokens := 4000; system := system_message;
     messages := history; req_tools := None |}.

(** Every launch fails, whenever it is tried. *)
Definition no_backend_comes_up (world : World) : Prop :=
  forall tr params, exists e, connect world tr params = inl e.


(** The entry [k] of a summary. *)
Definition summary_field (k : string) (summary : json) : option json :=
  match summary with JObj d => dict_get k d | _ => None end.

(** How many of the metrics are successes. *)
Definition successes (l : list RequestMetrics.t) : Z :=
  Z.of_nat (length (List.filter RequestMetrics.success l)).

(** ** More sample worlds *)

Module Example.


Definition no_blocks : Response := {| stop_reason := "end_turn"; response_content := [] |}.


(** A model whose answer is empty. *)
Definition speechless : World :=
  Sample.world (inr no_blocks) (inr []) (inl Sample.broken).

End Example.

(** * The console: the constructor and [cleanup] of the client, [chat.py],
      and the two runs of [main.py]

    The code below prints, reads lines and leaves the context managers of
    the backends.  None of that is an [Event], so the client's [State] is
    wrapped in a [Process] that also holds the standard streams and the
    exits made so far; the computations of the client run inside it. *)

(** ** More string methods *)

(** The newline character. *)
Definition nl : string := String "010"%char "".

Module Text.

(** [s * n] *)
Fixpoint times (s : string) (n : nat) : string :=
  match n with O => "" | S n => s +:+ times s n end.

(** [s.startswith(p)] *)
Definition startswith (p s : string) : bool :=
  match Str.strip_prefix p s with Some _ => true | None => false end.

(** [c.isspace()] for a character of one byte: tab to carriage return, the
    four separators, and the space. *)
Definition is_space (c : ascii) : bool :=
  let n := Json.code c in
  ((9 <=? n) && (n <=? 13) || (28 <=? n) && (n <=? 32))%N.

(** The white space of two bytes, U+0085 and U+00A0, and of three bytes:
    U+1680, U+2000 to U+200A, U+2028, U+2029, U+202F, U+205F and U+3000. *)
Definition is_space2 (c1 c2 : ascii) : bool :=
  ((Json.code c1 =? 194) && ((Json.code c2 =? 133) || (Json.code c2 =? 160)))%N.

Definition is_space3 (c1 c2 c3 : ascii) : bool :=
  let '(n1, n2, n3) := (Json.code c1, Json.code c2, Json.code c3) in
  ((n1 =? 225) && (n2 =? 154) && (n3 =? 128)
   || (n1 =? 226) && (n2 =? 128)
      && ((128 <=? n3) && (n3 <=? 138) || (n3 =? 168) || (n3 =? 169) || (n3 =? 175))
   || (n1 =? 226) && (n2 =? 129) && (n3 =? 159)
   || (n1 =? 227) && (n2 =? 128) && (n3 =? 128))%N.

(** Dropping white space from the front of a list of bytes; [sp2] and
    [sp3] tell the white space of two and three bytes. *)
Fixpoint drop_space (sp2 : ascii -> ascii -> bool) (sp3 : ascii -> ascii -> ascii -> bool)
    (l : list ascii) : list ascii :=
  match l with
  | c1 :: r1 =>
      if is_space c1 then drop_space sp2 sp3 r1
      else
        match r1 with
        | c2 :: r2 =>
            if sp2 c1 c2 then drop_space sp2 sp3 r2
            else
              match r2 with
              | c3 :: r3 => if sp3 c1 c2 c3 then drop_space sp2 sp3 r3 else l
              | [] => l
              end
        | [] => l
        end
  | [] => l
  end.

(** [s.strip()]: white space goes from both ends; at the end the bytes of a
    character are met last byte first. *)
Definition strip (s : string) : string :=
  let front := drop_space is_space2 is_space3 (list_ascii_of_string s) in
  let back := drop_space (fun c2 c1 => is_space2 c1 c2)
                (fun c3 c2 c1 => is_space3 c1 c2 c3) (rev front) in
  string_of_list_ascii (rev back).

Definition is_ascii (s : string) : bool :=
  forallb (fun c => (Json.code c <? 128)%N) (list_ascii_of_string s).

(** [s.lower()] on an ASCII string: the letters A to Z. *)
Definition lower_char (c : ascii) : ascii :=
  let n := Json.code c in
  if ((65 <=? n) && (n <=? 90))%N then ascii_of_N (n + 32) else c.

Fixpoint lower_ascii (s : string) : string :=
  match s with
  | EmptyString => EmptyString
  | String c r => String (lower_char c) (lower_ascii r)
  end.

End Text.

(** ** The process *)

(** What [input()] finds on standard input: a line, without its newline,
    or a Ctrl-C typed at the prompt.  After the last item the input is at
    its end. *)
Inductive Input := Line (text : string) | CtrlC.

(** The exits from the context managers of a backend, with the exception
    each raised, if any. *)
Inductive Exit :=
| ExitSession (s : ClientSession) (r : option PyExn)
| ExitStdio (s : StdioClient) (r : option PyExn).

(** More oracles.  Those that act see the trace and the exits so far. *)
Record Runtime := {
  (** [anthropic.Anthropic(api_key=...)]: what it raises, if anything *)
  new_anthropic : list Event -> string -> option PyExn;
  (** [session.__aexit__(None, None, None)] *)
  session_aexit : list Event -> list Exit -> ClientSession -> option PyExn;
  (** [stdio.__aexit__(None, None, None)] *)
  stdio_aexit : list Event -> list Exit -> StdioClient -> option PyExn;
  (** [s.lower()] on a string that is not ASCII *)
  lower_unicode : string -> string;
  (** [str(v)] of a value that is neither a [str] nor an [int] *)
  str_of : json -> string
}.

Record Process := {
  (** the [MCPClient], with its manager and collector, and the world *)
  client : State;
  (** [MCPClient.config_path] *)
  config_path : string;
  (** [MCPChat.running] *)
  running : bool;
  (** what is still to be read, and every chunk written, oldest first *)
  stdin : list Input;
  stdout : list string;
  (** the exits made so far, oldest first *)
  exits : list Exit
}.

Definition set_client (f : State -> State) (p : Process) : Process :=
  {| client := f (client p); config_path := config_path p; running := running p;
     stdin := stdin p; stdout := stdout p; exits := exits p |}.

Definition set_config_path (path : string) (p : Process) : Process :=
  {| client := client p; config_path := path; running := running p;
     stdin := stdin p; stdout := stdout p; exits := exits p |}.

Definition set_running (b : bool) (p : Process) : Process :=
  {| client := client p; config_path := config_path p; running := b;
     stdin := stdin p; stdout := stdout p; exits := exits p |}.

Definition set_stdin (l : list Input) (p : Process) : Process :=
  {| client := client p; config_path := config_path p; running := running p;
     stdin := l; stdout := stdout p; exits := exits p |}.

Definition set_stdout (f : list string -> list string) (p : Process) : Process :=
  {| client := client p; config_path := config_path p; running := running p;
     stdin := stdin p; stdout := f (stdout p); exits := exits p |}.

Definition set_exits (f : list Exit -> list Exit) (p : Process) : Process :=
  {| client := client p; config_path := config_path p; running := running p;
     stdin := stdin p; stdout := stdout p; exits := f (exits p) |}.

(** What can be raised in the console: an [Exception], or the
    [KeyboardInterrupt] of a Ctrl-C, which [except Exception] lets through. *)
Inductive Raised := KeyboardInterrupt | Exn (e : PyExn).

Module Console.

Definition P (A : Type) : Type := Process -> (Raised + A) * Process.

Definition ret {A} (a : A) : P A := fun p => (inr a, p).
Definition raise {A} (r : Raised) : P A := fun p => (inl r, p).

Definition bind {A B} (m : P A) (k : A -> P B) : P B :=
  fun p =>
    match m p with
    | (inr a, p') => k a p'
    | (inl r, p') => (inl r, p')
    end.

(** [try: m  except ...: h r], for the handlers [h] of a [try] statement. *)
Definition catch {A} (m : P A) (h : Raised -> P A) : P A :=
  fun p =>
    match m p with
    | (inr a, p') => (inr a, p')
    | (inl r, p') => h r p'
    end.

(** [try: m  except Exception as e: h e] *)
Definition try_except {A} (m : P A) (h : PyExn -> P A) : P A :=
  catch m (fun r => match r with Exn e => h e | KeyboardInterrupt => raise r end).

(** [try: m  finally: f] *)
Definition try_finally {A} (m : P A) (f : P unit) : P A :=
  fun p =>
    match m p with
    | (r, p') =>
        match f p' with
        | (inr _, p'') => (r, p'')
        | (inl r', p'') => (inl r', p'')
        end
    end.

Definition gets {A} (f : Process -> A) : P A := fun p => (inr (f p), p).
Definition modify (f : Process -> Process) : P unit := fun p => (inr tt, f p).

(** A computation of the client, run on the client of the process. *)
Definition call {A} (m : M A) : P A :=
  fun p =>
    match m (client p) with
    | (inr a, st) => (inr a, set_client (fun _ => st) p)
    | (inl e, st) => (inl (Exn e), set_client (fun _ => st) p)
    end.

(** [print(text)] and [print()] *)
Definition print (text : string) : P unit :=
  modify (set_stdout (fun out => out ++ [text +:+ nl])).

(** [input(prompt)] *)
Definition input (prompt : string) : P string :=
  fun p =>
    let p1 := set_stdout (fun out => out ++ [prompt]) p in
    match stdin p with
    | Line text :: rest => (inr text, set_stdin rest p1)
    | CtrlC :: rest => (inl KeyboardInterrupt, set_stdin rest p1)
    | [] => (inl (Exn {| exn_type := OtherError "EOFError";
                         exn_text := "EOF when reading a line" |}), p1)
    end.

End Console.

Declare Scope console_scope.
Delimit Scope console_scope with console.
Notation "x <- m ;; k" := (Console.bind m (fun x => k))
  (at level 100, m at next level, k at level 200, right associativity) : console_scope.
Notation "m ;; k" := (Console.bind m (fun _ => k))
  (at level 100, k at level 200, right associativity) : console_scope.

(** ** The program of the console *)

Section ConsoleProgram.

Context (world : World) (runtime : Runtime).

Local Open Scope console_scope.

(** [self.logger.info(...)] and the like, from the console. *)
Definition console_log (level : LogLevel) (msg : string) : Console.P unit :=
  Console.call (log level msg).

(** [s.lower()] *)
Definition lower (s : string) : string :=
  if Text.is_ascii s then Text.lower_ascii s else lower_unicode runtime s.

(** [str(v)], as an f-string shows a value. *)
Definition format_value (v : json) : string :=
  match v with
  | JStr s => s
  | JInt n => Str.of_int n
  | _ => str_of runtime v
  end.

(** An f-string shows a response that is [None] as "None". *)
Definition format_response (response : option string) : string :=
  match response with Some text => text | None => "None" end.

(** *** [app.py]: the constructor of [MCPClient]

    The client starts with an empty history, a fresh manager and a fresh
    collector.  As everywhere, directories are not part of [files], so
    the [mkdir] of the log directory leaves them as they are. *)
Definition MCPClient_init (path : option string) : Console.P unit :=
  Console.modify (set_client (fun st => init_state (trace st) (files st))) ;;
  Console.modify (set_config_path
    (match path with
     | Some (String c s) => String c s
     | _ => "config/mcp.json"
     end)) ;;
  match dict_get "ANTHROPIC_API_KEY" (os_environ world) with
  | Some (String c s) =>
      let api_key := String c s in
      Console.try_except
        (Console.call (fun st =>
           match new_anthropic runtime (trace st) api_key with
           | Some e => (inl e, st)
           | None => (inr tt, st)
           end) ;;
         console_log INFO "✅ Anthropic client initialized")
        (fun e =>
           console_log ERROR ("❌ Failed to initialize Anthropic client: " +:+ exn_text e) ;;
           Console.raise (Exn e))
  | _ =>
      Console.raise
        (Exn (error "ValueError"
                "ANTHROPIC_API_KEY not found. Set it in .envrc or environment."))
  end.

(** *** [session.py]: [MCPSessionManager.cleanup] *)

Definition session_exit (s : ClientSession) : Console.P unit :=
  fun p =>
    let r := session_aexit runtime (trace (client p)) (exits p) s in
    (match r with Some e => inl (Exn e) | None => inr tt end,
     set_exits (fun l => l ++ [ExitSession s r]) p).

Definition stdio_exit (s : StdioClient) : Console.P unit :=
  fun p =>
    let r := stdio_aexit runtime (trace (client p)) (exits p) s in
    (match r with Some e => inl (Exn e) | None => inr tt end,
     set_exits (fun l => l ++ [ExitStdio s r]) p).

(** The body of the loop.  Every session dict of the registry holds a
    session and a stdio client, and both are objects that count as true,
    so neither [if] skips its exit. *)
Definition cleanup_body (server_name : string) (session_info : SessionInfo.t)
    : Console.P unit :=
  Console.try_except
    (session_exit (SessionInfo.session session_info) ;;
     stdio_exit (SessionInfo.stdio session_info) ;;
     console_log INFO ("✅ Closed connection to " +:+ server_name))
    (fun e =>
       console_log ERROR ("⚠️ Error closing " +:+ server_name +:+ ": " +:+ exn_text e)).

Fixpoint cleanup_from (items : list (string * SessionInfo.t)) : Console.P unit :=
  match items with
  | [] => Console.ret tt
  | (server_name, session_info) :: rest =>
      cleanup_body server_name session_info ;;
      cleanup_from rest
  end.

Definition cleanup : Console.P unit :=
  console_log INFO "🧹 Cleaning up MCP connections" ;;
  items <- Console.gets (fun p => server_sessions (client p)) ;;
  cleanup_from items.

(** *** [app.py]: [MCPClient.cleanup] *)
Definition client_cleanup : Console.P unit := cleanup.

(** *** [chat.py] *)

(** [MCPChat.__init__] *)
Definition MCPChat_init (path : option string) : Console.P unit :=
  MCPClient_init path ;;
  Console.modify (set_running true).

(** [MCPChat.start] *)
Definition start : Console.P bool :=
  Console.print "🚀 MCP Chat System" ;;
  Console.print (Text.times "=" 50) ;;
  path <- Console.gets config_path ;;
  ok <- Console.call (initialize world path) ;;
  if ok then
    Console.print "✅ System initialized successfully" ;;
    servers <- Console.gets (fun p => Z.of_nat (length (server_sessions (client p)))) ;;
    Console.print ("✅ MCP servers: " +:+ Str.of_int servers) ;;
    Console.print "✅ Error handling and retry logic active" ;;
    Console.print "✅ Metrics collection enabled" ;;
    Console.print "" ;;
    Console.ret true
  else
    Console.print "❌ Failed to initialize system" ;;
    Console.ret false.

(** The loop over [metrics.items()]. *)
Fixpoint print_items (items : list (string * json)) : Console.P unit :=
  match items with
  | [] => Console.ret tt
  | (key, value) :: rest =>
      Console.print ("   " +:+ key +:+ ": " +:+ format_value value) ;;
      print_items rest
  end.

(** [command.lower().strip()] *)
Definition normalize (command : string) : string := Text.strip (lower command).

(** [MCPChat.handle_command] *)
Definition handle_command (command : string) : Console.P unit :=
  let cmd := normalize command in
  if String.eqb cmd "/quit" || String.eqb cmd "/exit" then
    Console.modify (set_running false) ;;
    client_cleanup ;;
    Console.print "👋 Goodbye!"
  else if String.eqb cmd "/clear" then
    Console.call clear_conversation ;;
    Console.print ("🗑️ Conversation cleared" +:+ nl)
  else if String.eqb cmd "/metrics" then
    summary <- Console.gets (fun p => get_metrics_summary world (client p)) ;;
    Console.print (nl +:+ "📊 System Metrics:") ;;
    match summary with
    | JObj items => print_items items
    | _ =>
        Console.raise
          (Exn (error "AttributeError"
                  ("'" +:+ type_name summary +:+ "' object has no attribute 'items'")))
    end ;;
    Console.print ""
  else if String.eqb cmd "/help" then
    Console.print (nl +:+ "🔧 Available Commands:") ;;
    Console.print "  /clear    - Clear conversation" ;;
    Console.print "  /metrics  - Show system metrics" ;;
    Console.print "  /help     - Show this help" ;;
    Console.print "  /quit     - Exit chat" ;;
    Console.print ""
  else
    Console.print ("❓ Unknown command: " +:+ command +:+ nl).

(** How one pass through the body of the [while] loop ends. *)
Inductive Step := Next | Break.

(** The [try] block of the loop of [run_chat]. *)
Definition chat_turn : Console.P Step :=
  line <- Console.input "🧑‍💻 You: " ;;
  let user_input := Text.strip line in
  if String.eqb user_input "" then Console.ret Next     (* continue *)
  else if Text.startswith "/" user_input then
    handle_command user_input ;;
    Console.ret Next                                      (* continue *)
  else
    response <- Console.call (chat_with_claude world user_input 3) ;;
    Console.print (nl +:+ "🤖 Claude: " +:+ format_response response +:+ nl) ;;
    Console.ret Next.

(** The body of the loop, with its three handlers. *)
Definition chat_step : Console.P Step :=
  Console.catch chat_turn
    (fun r =>
       match r with
       | KeyboardInterrupt =>
           Console.print (nl +:+ "🛑 Use '/quit' to exit gracefully") ;;
           Console.ret Next
       | Exn e =>
           if String.eqb (type_name_of e) "EOFError" then Console.ret Break
           else
             console_log ERROR ("Error in chat: " +:+ exn_text e) ;;
             Console.print (nl +:+ "❌ Error: " +:+ exn_text e +:+ nl) ;;
             Console.ret Next
       end).

(** [while self.running: ...], for at most [fuel] passes; [None] when the
    passes did not suffice. *)
Fixpoint chat_loop (fuel : nat) : Console.P (option unit) :=
  match fuel with
  | O => Console.ret None
  | S fuel =>
      still_running <- Console.gets running ;;
      if still_running then
        step <- chat_step ;;
        match step with
        | Next => chat_loop fuel
        | Break => Console.ret (Some tt)
        end
      else Console.ret (Some tt)
  end.

(** [MCPChat.run_chat].  Every pass reads one item of the input unless the
    input is at its end, which ends the loop: one pass more than there are
    items always suffices. *)
Definition run_chat : Console.P (option unit) :=
  Console.print "💬 MCP Chat Ready!" ;;
  Console.print "Type '/help' for commands or '/quit' to exit." ;;
  Console.print "" ;;
  items <- Console.gets stdin ;;
  chat_loop (S (length items)).

(** [main] of [chat.py] *)
Definition chat_main : Console.P unit :=
  MCPChat_init None ;;
  Console.try_finally
    (Console.try_except
       (ok <- start ;;
        if ok then (_ <- run_chat ;; Console.ret tt) else Console.ret tt)
       (fun e =>
          console_log ERROR ("Fatal error: " +:+ exn_text e) ;;
          Console.print ("❌ Fatal error: " +:+ exn_text e)))
    (Console.print "👋 Thanks for using MCP Chat!").

(** *** [main.py] *)

Definition demo_queries : list string :=
  ["What tables are in my database?";
   "Show me all users in the database";
   "What's the average age of users?";
   "Search for users with email containing 'test'";
   "Add a new user named Demo User with email demo4@example.com and age 28";
   "Show me users created today"].

(** The loop over [enumerate(demo_queries, 1)], from number [i] on. *)
Fixpoint demo_from (i : Z) (queries : list string) : Console.P unit :=
  match queries with
  | [] => Console.ret tt
  | query :: rest =>
      Console.print (nl +:+ "🎯 Demo Query " +:+ Str.of_int i +:+ ": " +:+ query) ;;
      Console.print (Text.times "-" 40) ;;
      Console.try_except
        (response <- Console.call (chat_with_claude world query 3) ;;
         Console.print ("🤖 Claude: " +:+ format_response response))
        (fun e => Console.print ("❌ Error: " +:+ exn_text e)) ;;
      Console.print "" ;;
      demo_from (i + 1) rest
  end.

(** [run_demo] *)
Definition run_demo : Console.P unit :=
  Console.print "🚀 Claude + MCP Server Demo" ;;
  Console.print (Text.times "=" 50) ;;
  MCPClient_init None ;;
  path <- Console.gets config_path ;;
  _ <- Console.call (initialize world path) ;;
  Console.try_finally
    (demo_from 1 demo_queries ;;
     Console.print "✨ Demo complete! Claude successfully used MCP tools." ;;
     Console.print "💡 MCP client with monitoring and error handling." ;;
     summary <- Console.gets (fun p => get_metrics_summary world (client p)) ;;
     Console.print ("� Metrics: " +:+ str_of runtime summary) ;;
     Console.print (nl +:+ "🎯 Try interactive mode: python main.py --chat"))
    client_cleanup.

(** [run_interactive].  An [MCPChat] has no attribute [cleanup], so the
    guarded call in the [finally] block is never made. *)
Definition run_interactive : Console.P unit :=
  MCPChat_init None ;;
  Console.try_finally
    (Console.try_except
       (ok <- start ;;
        if ok then (_ <- run_chat ;; Console.ret tt) else Console.ret tt)
       (fun e => Console.print ("❌ Error: " +:+ exn_text e)))
    (Console.print "👋 Thanks for using MCP Chat!").

End ConsoleProgram.

(** ** Vocabulary of the console *)

(** Only log lines. *)
Definition is_log (e : Event) : bool :=
  match e with EvLog _ _ => true | _ => false end.

(** What [cleanup] does for one session of the registry: it leaves the
    session, and, only if that did not raise, the stdio client. *)
Definition closes (server : string * SessionInfo.t) (chunk : list Exit) : Prop :=
  (exists e, chunk = [ExitSession (SessionInfo.session (snd server)) (Some e)])
  \/ (exists r, chunk = [ExitSession (SessionInfo.session (snd server)) None;
                         ExitStdio (SessionInfo.stdio (snd server)) r]).

(** The sessions left among the exits, oldest first. *)
Definition left_sessions (xs : list Exit) : list ClientSession :=
  omap (fun x => match x with ExitSession s _ => Some s | ExitStdio _ _ => None end) xs.

(** The commands that end the chat. *)
Definition is_quit (runtime : Runtime) (command : string) : bool :=
  String.eqb (normalize runtime command) "/quit"
  || String.eqb (normalize runtime command) "/exit".

(** The commands [handle_command] knows. *)
Definition known_commands : list string := ["/quit"; "/exit"; "/clear"; "/metrics"; "/help"].

(** How [run_chat] takes an item of the input: as nothing (a blank line or
    a Ctrl-C), as a command, or as a message for the model. *)
Definition is_command (i : Input) : bool :=
  match i with
  | Line text => Text.startswith "/" (Text.strip text)
  | CtrlC => false
  end.

Definition is_message (i : Input) : bool :=
  match i with
  | Line text =>
      negb (String.eqb (Text.strip text) "") && negb (Text.startswith "/" (Text.strip text))
  | CtrlC => false
  end.

(** A line that ends the chat. *)
Definition quits (runtime : Runtime) (i : Input) : bool :=
  match i with
  | Line text => is_command i && is_quit runtime (Text.strip text)
  | CtrlC => false
  end.

(** The prompt of [run_chat] and the chunks it writes in answer. *)
Definition prompt : string := "🧑‍💻 You: ".

(** A process about to start, with its input, in a world that has seen
    [tr] and holds the files [fs]. *)
Definition new_process (tr : list Event) (fs : gmap string string) (input : list Input)
    : Process :=
  {| client := init_state tr fs; config_path := ""; running := false;
     stdin := input; stdout := []; exits := [] |}.

(** The API key is set, and not empty. *)
Definition has_api_key (world : World) : Prop :=
  exists c s, dict_get "ANTHROPIC_API_KEY" (os_environ world) = Some (String c s).

(** ** Sample runtimes and processes *)

Module Desk.

(** A runtime in which nothing raises. *)
Definition calm : Runtime :=
  {| new_anthropic := fun _ _ => None;
     session_aexit := fun _ _ _ => None;
     stdio_aexit := fun _ _ _ => None;
     lower_unicode := fun s => s;
     str_of := fun _ => "{...}" |}.

(** A runtime in which leaving a session always raises. *)
Definition stuck : Runtime :=
  {| new_anthropic := fun _ _ => None;
     session_aexit := fun _ _ _ => Some Sample.broken;
     stdio_aexit := fun _ _ _ => None;
     lower_unicode := fun s => s;
     str_of := fun _ => "{...}" |}.

(** A chat over the client [Sample.connected] that is running, with the
    lines [input] still to be typed. *)
Definition chatting (input : list Input) : Process :=
  {| client := Sample.connected; config_path := "config/mcp.json"; running := true;
     stdin := input; stdout := []; exits := [] |}.

(** A world like [Sample.quiet] whose environment holds an API key. *)
Definition keyed : World :=
  {| time_time := time_time Sample.quiet;
     os_environ := [("ANTHROPIC_API_KEY", "test-api-key-12345")];
     connect := connect Sample.quiet;
     call_tool := call_tool Sample.quiet;
     messages_create := messages_create Sample.quiet;
     float_of_literal := float_of_literal Sample.quiet;
     float_repr := float_repr Sample.quiet;
     float_sum := float_sum Sample.quiet |}.

End Desk.

(** What a command may do to the client: log, and clear the history. *)
Definition command_frame (st st' : State) : Prop :=
  server_configs st' = server_configs st
  /\ server_sessions st' = server_sessions st
  /\ metrics st' = metrics st
  /\ files st' = files st
  /\ (conversation_history st' = conversation_history st \/ conversation_history st' = [])
  /\ exists evs, trace st' = trace st ++ evs /\ forallb is_log evs = true.

(** The line [/metrics] prints for an entry of the summary. *)
Definition metrics_line (runtime : Runtime) (entry : string * json) : string :=
  "   " +:+ fst entry +:+ ": " +:+ format_value runtime (snd entry) +:+ nl.

(** What the pass of the loop of [run_chat] that took the item [i] made of
    the process: the item is gone from the input; only a line that quits
    stops the chat and closes the backends; a message leaves one metric
    (if the clock can be read); anything else leaves the metrics alone and
    does not reach the model. *)
Definition turn_taken (world : World) (runtime : Runtime) (i : Input) (p p' : Process)
    : Prop :=
  stdin p = i :: stdin p'
  /\ config_path p' = config_path p
  /\ server_sessions (client p') = server_sessions (client p)
  /\ (exists out, stdout p' = stdout p ++ out)
  /\ (if quits runtime i
      then running p' = false
           /\ exists chunks, exits p' = exits p ++ concat chunks
                /\ Forall2 closes (server_sessions (client p)) chunks
      else running p' = running p /\ exits p' = exits p)
  /\ (if is_message i
      then clock_in_range world ->
           exists metric, metrics (client p') = metrics (client p) ++ [metric]
                          /\ finalized metric
      else metrics (client p') = metrics (client p)
           /\ create_requests (trace (client p')) = create_requests (trace (client p))).

(** What [run_chat] prints before its loop. *)
Definition greeting : list string :=
  ["💬 MCP Chat Ready!" +:+ nl; "Type '/help' for commands or '/quit' to exit." +:+ nl; nl].

(** The exception of a client made without an API key. *)
Definition missing_key : PyExn :=
  error "ValueError" "ANTHROPIC_API_KEY not found. Set it in .envrc or environment.".

(** The process as the constructor of the client leaves it when it finds
    no API key: an empty client for the default configuration. *)
Definition unkeyed (p : Process) : Process :=
  set_config_path "config/mcp.json"
    (set_client (fun st => init_state (trace st) (files st)) p).

(** The constructor of the Anthropic client never raises. *)
Definition anthropic_comes_up (runtime : Runtime) : Prop :=
  forall tr api_key, new_anthropic runtime tr api_key = None.

(** ** Tactics for the console *)

(** Runs the primitives of the console on an explicit process. *)
Ltac run_console :=
  cbv [Console.bind Console.ret Console.raise Console.catch Console.try_except
       Console.try_finally Console.gets Console.modify Console.print Console.call
       console_log log emit modify
       set_client set_config_path set_running set_stdin set_stdout set_exits
       client config_path running stdin stdout exits
       set_trace trace server_sessions server_configs conversation_history metrics files];
  rewrite <- ?app_assoc; cbn [app].

(** * Tactics *)

(** Runs the state-passing primitives on an explicit state. *)
Ltac run_state :=
  cbv [bind try_except ret raise lift gets modify emit log sleep now add_metric
       record_failure append_history failed_metric
       set_server_configs set_server_sessions set_conversation_history set_metrics
       set_trace set_files
       server_configs server_sessions conversation_history metrics trace files];
  rewrite <- ?app_assoc; cbn [app].

(** Closes a goal about the sessions or metrics of a state built from [st1]
    by the setters, given what [st1] holds. *)
Ltac by_frame Hss Hms :=
  cbn [metrics server_sessions set_metrics set_trace]; rewrite ?Hss, ?Hms; reflexivity.

(** * Properties *)

(** ** Dictionaries *)

Section DictFacts.
Context {V : Type}.
Implicit Types (d : list (string * V)).

Lemma dict_set_fresh k (v : V) d :
  dict_get k d = None -> dict_set k v d = d ++ [(k, v)].
Proof.
  induction d as [|[k' v'] d IH]; simpl; [done|].
  destruct (String.eqb k k'); [done|]. intros H. by rewrite IH.
Qed.

Lemma dict_get_set_eq k (v : V) d : dict_get k (dict_set k v d) = Some v.
Proof.
  induction d as [|[k' v'] d IH]; simpl.
  - by rewrite String.eqb_refl.
  - destruct (String.eqb k k') eqn:Hk; simpl; rewrite ?String.eqb_refl, ?Hk; done.
Qed.

Lemma dict_get_set_ne k k' (v : V) d :
  k' <> k -> dict_get k' (dict_set k v d) = dict_get k' d.
Proof.
  intros Hne. induction d as [|[k1 v1] d IH]; simpl.
  - by apply String.eqb_neq in Hne as ->.
  - destruct (String.eqb k k1) eqn:Hk; simpl.
    + apply String.eqb_eq in Hk as <-. by apply String.eqb_neq in Hne as ->.
    + by rewrite IH.
Qed.

Lemma dict_set_length k (v : V) d : (length (dict_set k v d) <= S (length d))%nat.
Proof.
  induction d as [|[k' v'] d IH]; simpl; [lia|].
  destruct (String.eqb k k'); simpl; lia.
Qed.

End DictFacts.

(** ** Frames *)

Lemma set_trace_nil st : set_trace (fun tr => tr ++ []) st = st.
Proof. destruct st; unfold set_trace; simpl. by rewrite app_nil_r. Qed.

Lemma set_trace_app evs1 evs2 st :
  set_trace (fun tr => tr ++ evs2) (set_trace (fun tr => tr ++ evs1) st)
  = set_trace (fun tr => tr ++ (evs1 ++ evs2)) st.
Proof. destruct st; unfold set_trace; simpl. by rewrite app_assoc. Qed.

Section Frames.
Variable R : State -> State -> Prop.
Hypothesis R_refl : forall st, R st st.
Hypothesis R_trans : forall st1 st2 st3, R st1 st2 -> R st2 st3 -> R st1 st3.

Lemma frame_ret {A} (a : A) : frame R (ret a).
Proof. intros st. apply R_refl. Qed.

Lemma frame_lift {A} (r : PyExn + A) : frame R (lift r).
Proof. intros st. apply R_refl. Qed.

Lemma frame_gets {A} (f : State -> A) : frame R (gets f).
Proof. intros st. apply R_refl. Qed.

Lemma frame_bind {A B} (m : M A) (k : A -> M B) :
  frame R m -> (forall a, frame R (k a)) -> frame R (bind m k).
Proof.
  intros Hm Hk st. specialize (Hm st). unfold final, bind in *.
  destruct (m st) as [[e|a] st1]; simpl in *; [done|].
  eapply R_trans; [exact Hm|]. apply (Hk a st1).
Qed.

Lemma frame_try_except {A} (m : M A) (h : PyExn -> M A) :
  frame R m -> (forall e, frame R (h e)) -> frame R (try_except m h).
Proof.
  intros Hm Hh st. specialize (Hm st). unfold final, try_except in *.
  destruct (m st) as [[e|a] st1]; simpl in *; [|done].
  eapply R_trans; [exact Hm|]. apply (Hh e st1).
Qed.

End Frames.

Lemma frame_weaken {A} (R R' : State -> State -> Prop) (m : M A) :
  (forall st st', R st st' -> R' st st') -> frame R m -> frame R' m.
Proof. intros HR Hm st. apply HR, Hm. Qed.

Lemma trace_only_refl st : trace_only st st.
Proof. exists []. by rewrite set_trace_nil. Qed.

Lemma trace_only_trans st1 st2 st3 :
  trace_only st1 st2 -> trace_only st2 st3 -> trace_only st1 st3.
Proof.
  intros [evs1 ->] [evs2 ->]. exists (evs1 ++ evs2). by rewrite set_trace_app.
Qed.

Lemma exchange_refl st : exchange st st.
Proof. repeat split; try done; exists []; by rewrite app_nil_r. Qed.

Lemma exchange_trans st1 st2 st3 :
  exchange st1 st2 -> exchange st2 st3 -> exchange st1 st3.
Proof.
  intros (Hc & Hs & Hm & Hf & [h Hh] & [evs He])
    (Hc' & Hs' & Hm' & Hf' & [h' Hh'] & [evs' He']).
  repeat split; try congruence.
  - exists (h ++ h'). by rewrite Hh', Hh, app_assoc.
  - exists (evs ++ evs'). by rewrite He', He, app_assoc.
Qed.

Lemma trace_only_exchange st st' : trace_only st st' -> exchange st st'.
Proof.
  intros [evs ->]. destruct st; repeat split; simpl; try done.
  - exists []. by rewrite app_nil_r.
  - by exists evs.
Qed.

(** The combinators at the two relations used below. *)

Lemma trace_only_bind {A B} (m : M A) (k : A -> M B) :
  frame trace_only m -> (forall a, frame trace_only (k a)) -> frame trace_only (bind m k).
Proof. apply frame_bind, trace_only_trans. Qed.

Lemma trace_only_try_except {A} (m : M A) (h : PyExn -> M A) :
  frame trace_only m -> (forall e, frame trace_only (h e)) ->
  frame trace_only (try_except m h).
Proof. apply frame_try_except, trace_only_trans. Qed.

Lemma trace_only_ret {A} (a : A) : frame trace_only (ret a).
Proof. apply frame_ret, trace_only_refl. Qed.

Lemma trace_only_gets {A} (f : State -> A) : frame trace_only (gets f).
Proof. apply frame_gets, trace_only_refl. Qed.

Lemma exchange_bind {A B} (m : M A) (k : A -> M B) :
  frame exchange m -> (forall a, frame exchange (k a)) -> frame exchange (bind m k).
Proof. apply frame_bind, exchange_trans. Qed.

Lemma exchange_lift {A} (r : PyExn + A) : frame exchange (lift r).
Proof. apply frame_lift, exchange_refl. Qed.

Lemma exchange_gets {A} (f : State -> A) : frame exchange (gets f).
Proof. apply frame_gets, exchange_refl. Qed.

(** A computation that touches the trace only fits into an exchange. *)
Lemma exchange_of_trace_only {A} (m : M A) : frame trace_only m -> frame exchange m.
Proof. apply frame_weaken, trace_only_exchange. Qed.

Create HintDb frames.

#[local] Hint Resolve trace_only_bind trace_only_try_except trace_only_ret trace_only_gets
  exchange_bind exchange_lift exchange_gets : frames.

(** ** The decoder does not run out of fuel *)

Module JsonFacts.
Import Json.

Lemma skip_ws_le s : (String.length (skip_ws s) <= String.length s)%nat.
Proof. induction s as [|c s IH]; simpl; [lia|]. destruct (is_ws c); simpl; lia. Qed.

Lemma strip_prefix_shrinks p : forall s r,
  Str.strip_prefix p s = Some r ->
  (String.length r + String.length p = String.length s)%nat.
Proof.
  induction p as [|a p IH]; intros s r; simpl.
  - intros [= ->]. lia.
  - destruct s as [|b s]; [done|]. destruct (Ascii.eqb a b); [|done].
    intros H. apply IH in H. simpl. lia.
Qed.

Lemma span_digits_length s :
  (String.length (fst (span_digits s)) + String.length (snd (span_digits s))
   = String.length s)%nat.
Proof.
  induction s as [|c s IH]; simpl; [done|].
  destruct (is_digit c); simpl; [|done].
  destruct (span_digits s) as [ds rest]; simpl in *. lia.
Qed.

Lemma scan_pieces_shrinks : forall s ps r,
  scan_pieces s = Some (ps, r) -> (String.length r < String.length s)%nat.
Proof.
  intros s. remember (String.length s) as n eqn:Hn. revert s Hn.
  induction n as [n IH] using lt_wf_ind. intros s Hn ps r.
  destruct s as [|c s]; [done|]. simpl in Hn. cbn [scan_pieces]. cbv zeta.
  assert (Hrec : forall s' ps' r', (String.length s' <= String.length s)%nat ->
            scan_pieces s' = Some (ps', r') -> (String.length r' < n)%nat).
  { intros s' ps' r' Hle H. eapply Nat.lt_trans; [eapply (IH (String.length s')); eauto; lia|lia]. }
  repeat case_match; intros; simplify_eq; simpl in *; try lia;
    try (eapply Hrec; [|eassumption]; simpl; lia).
Qed.

Lemma scanstring_shrinks s v r :
  scanstring s = Some (v, r) -> (String.length r < String.length s)%nat.
Proof.
  unfold scanstring. destruct (scan_pieces s) as [[ps rest]|] eqn:H; [|done].
  intros [= _ <-]. by eapply scan_pieces_shrinks.
Qed.


Lemma opt_minus_le s : (String.length (snd (opt_minus s)) <= String.length s)%nat.
Proof. destruct s as [|c s]; simpl; [lia|]. destruct (code c =? 45)%N; simpl; lia. Qed.

Lemma int_part_shrinks s ds r :
  int_part s = Some (ds, r) -> (String.length r < String.length s)%nat.
Proof.
  destruct s as [|c s]; [done|]. unfold int_part.
  destruct (code c =? 48)%N; [intros [= _ <-]; simpl; lia|].
  destruct (is_digit c) eqn:Hd; [|done]. intros H.
  pose proof (span_digits_length (String c s)) as Hlen.
  destruct (span_digits (String c s)) as [ds' r'] eqn:Hspan.
  injection H as -> ->. cbn [fst snd] in Hlen.
  simpl in Hspan. rewrite Hd in Hspan. destruct (span_digits s); simplify_eq.
  simpl in *. lia.
Qed.

Lemma opt_frac_le s : (String.length (snd (opt_frac s)) <= String.length s)%nat.
Proof.
  destruct s as [|c s]; simpl; [lia|]. destruct (code c =? 46)%N; simpl; [|lia].
  pose proof (span_digits_length s) as Hlen.
  destruct (span_digits s) as [[|d fd] r]; simpl in *; lia.
Qed.

Lemma opt_sign_le s : (String.length (snd (opt_sign s)) <= String.length s)%nat.
Proof.
  destruct s as [|c s]; simpl; [lia|].
  destruct ((code c =? 43)%N || (code c =? 45)%N); simpl; lia.
Qed.

Lemma opt_exp_le s : (String.length (snd (opt_exp s)) <= String.length s)%nat.
Proof.
  destruct s as [|c s]; simpl; [lia|].
  destruct ((code c =? 101)%N || (code c =? 69)%N); simpl; [|lia].
  pose proof (opt_sign_le s) as Hsign. destruct (opt_sign s) as [sg r1]. simpl in Hsign.
  pose proof (span_digits_length r1) as Hlen.
  destruct (span_digits r1) as [[|d ed] r2]; simpl in *; lia.
Qed.

Section Decoder.
Variable float_of_literal : string -> spec_float.

Lemma match_number_shrinks s v r :
  match_number float_of_literal s = Some (v, r) ->
  (String.length r < String.length s)%nat.
Proof.
  unfold match_number.
  pose proof (opt_minus_le s) as H1. destruct (opt_minus s) as [sign s1]. simpl in H1.
  destruct (int_part s1) as [[ds s2]|] eqn:Hint; [|done].
  apply int_part_shrinks in Hint.
  pose proof (opt_frac_le s2) as H3. destruct (opt_frac s2) as [frac s3]. simpl in H3.
  pose proof (opt_exp_le s3) as H4. destruct (opt_exp s3) as [exp s4]. simpl in H4.
  destruct frac, exp; intros [= _ <-]; lia.
Qed.

Lemma match_constant_shrinks s v r :
  match_constant s = Some (v, r) -> (String.length r < String.length s)%nat.
Proof.
  unfold match_constant. intros H.
  repeat case_match; simplify_eq;
    match goal with
    | Hp : Str.strip_prefix _ _ = Some _ |- _ =>
        apply strip_prefix_shrinks in Hp; simpl in Hp; lia
    end.
Qed.

(** What the scanning functions leave is shorter than what they were
    given. *)
Lemma scan_shrinks n :
  (forall s v r, scan_once float_of_literal n s = Some (v, r) ->
     (String.length r < String.length s)%nat)
  /\ (forall acc s v r, scan_items float_of_literal n acc s = Some (v, r) ->
        (String.length r < String.length s)%nat)
  /\ (forall acc s v r, scan_members float_of_literal n acc s = Some (v, r) ->
        (String.length r < String.length s)%nat).
Proof.
  induction n as [|n (IHonce & IHitems & IHmembers)]; [by repeat split|].
  split; [|split].
  - intros s v r. destruct s as [|c r0]; [done|]. cbn [scan_once]. cbv zeta.
    intros H. repeat case_match; simplify_eq;
      repeat match goal with
      | H : scanstring _ = Some _ |- _ => apply scanstring_shrinks in H
      | H : scan_items _ _ _ _ = Some _ |- _ => apply IHitems in H
      | H : scan_members _ _ _ _ = Some _ |- _ => apply IHmembers in H
      | H : match_number _ _ = Some _ |- _ => apply match_number_shrinks in H
      | H : match_constant _ = Some _ |- _ => apply match_constant_shrinks in H
      | H : Str.strip_prefix _ _ = Some _ |- _ => apply strip_prefix_shrinks in H
      | H : skip_ws ?x = _ |- _ =>
          let L := fresh in pose proof (skip_ws_le x) as L; rewrite H in L; clear H
      end; simpl in *; lia.
  - intros acc s v r. cbn [scan_items]. intros H.
    repeat case_match; simplify_eq;
      repeat match goal with
      | H : scan_once _ _ _ = Some _ |- _ => apply IHonce in H
      | H : scan_items _ _ _ (skip_ws ?x) = Some _ |- _ =>
          apply IHitems in H; pose proof (skip_ws_le x)
      | H : skip_ws ?x = _ |- _ =>
          let L := fresh in pose proof (skip_ws_le x) as L; rewrite H in L; clear H
      end; simpl in *; lia.
  - intros acc s v r. cbn [scan_members]. intros H.
    repeat case_match; simplify_eq;
      repeat match goal with
      | H : scanstring _ = Some _ |- _ => apply scanstring_shrinks in H
      | H : scan_once _ _ (skip_ws ?x) = Some _ |- _ =>
          apply IHonce in H; pose proof (skip_ws_le x)
      | H : scan_members _ _ _ (skip_ws ?x) = Some _ |- _ =>
          apply IHmembers in H; pose proof (skip_ws_le x)
      | H : skip_ws ?x = _ |- _ =>
          let L := fresh in pose proof (skip_ws_le x) as L; rewrite H in L; clear H
      end; simpl in *; lia.
Qed.

(** With two units of fuel per character and one more, fuel plays no
    part: any larger amount gives the same result. *)
Lemma scan_stable n :
  (forall s n', (2 * String.length s + 1 <= n)%nat -> (n <= n')%nat ->
     scan_once float_of_literal n s = scan_once float_of_literal n' s)
  /\ (forall acc s n', (2 * String.length s + 2 <= n)%nat -> (n <= n')%nat ->
        scan_items float_of_literal n acc s = scan_items float_of_literal n' acc s)
  /\ (forall acc s n', (2 * String.length s + 2 <= n)%nat -> (n <= n')%nat ->
        scan_members float_of_literal n acc s = scan_members float_of_literal n' acc s).
Proof.
  induction n as [|n (IHonce & IHitems & IHmembers)].
  { repeat split; intros; lia. }
  destruct (scan_shrinks n) as (Sonce & _ & _).
  split; [|split].
  - intros s [|n'] Hn Hle; [lia|]. destruct s as [|c r0]; [done|].
    cbn [scan_once]. cbv zeta. simpl in Hn.
    pose proof (skip_ws_le r0) as Hws.
    destruct (code c =? 34)%N; [done|].
    destruct (code c =? 123)%N.
    { destruct (skip_ws r0) as [|c1 r1]; [done|]. destruct (code c1 =? 125)%N; [done|].
      apply IHmembers; simpl in *; lia. }
    destruct (code c =? 91)%N; [|done].
    destruct (skip_ws r0) as [|c1 r1]; [done|]. destruct (code c1 =? 93)%N; [done|].
    apply IHitems; simpl in *; lia.
  - intros acc s [|n'] Hn Hle; [lia|]. cbn [scan_items].
    rewrite <- (IHonce s n') by lia.
    destruct (scan_once float_of_literal n s) as [[v r]|] eqn:Hv; [|done].
    apply Sonce in Hv. pose proof (skip_ws_le r) as Hws.
    destruct (skip_ws r) as [|c r1]; [done|]. destruct (code c =? 93)%N; [done|].
    destruct (code c =? 44)%N; [|done].
    pose proof (skip_ws_le r1). apply IHitems; simpl in *; lia.
  - intros acc s [|n'] Hn Hle; [lia|]. cbn [scan_members].
    destruct s as [|q r]; [done|]. destruct (code q =? 34)%N; [|done].
    destruct (scanstring r) as [[key r1]|] eqn:Hkey; [|done].
    apply scanstring_shrinks in Hkey. pose proof (skip_ws_le r1) as Hws.
    destruct (skip_ws r1) as [|c r2]; [done|]. destruct (code c =? 58)%N; [|done].
    pose proof (skip_ws_le r2) as Hws2. simpl in Hn, Hws.
    rewrite <- (IHonce (skip_ws r2) n') by lia.
    destruct (scan_once float_of_literal n (skip_ws r2)) as [[v r3]|] eqn:Hv; [|done].
    apply Sonce in Hv. pose proof (skip_ws_le r3) as Hws3.
    destruct (skip_ws r3) as [|c' r4]; [done|]. destruct (code c' =? 125)%N; [done|].
    destruct (code c' =? 44)%N; [|done].
    pose proof (skip_ws_le r4). apply IHmembers; simpl in *; lia.
Qed.

(** [loads] gives its scanner fuel enough: with any more it decodes the
    same. *)
Lemma loads_fuel_enough s n :
  (2 * String.length s + 2 <= n)%nat ->
  scan_once float_of_literal n (skip_ws s)
  = scan_once float_of_literal (2 * String.length s + 2) (skip_ws s).
Proof.
  intros Hn. symmetry. apply scan_stable; [|done].
  pose proof (skip_ws_le s). lia.
Qed.

End Decoder.

End JsonFacts.

Section Proofs.
Context (world : World).

Lemma frame_emit e : frame trace_only (emit e).
Proof. intros st. by exists [e]. Qed.

Lemma frame_now : frame trace_only (now world).
Proof. intros st. by exists [EvTime (time_time world (trace st))]. Qed.

Lemma frame_create req : frame trace_only (create world req).
Proof. intros st. by eexists [_]. Qed.

Lemma frame_session_call_tool s n a : frame trace_only (session_call_tool world s n a).
Proof. intros st. by eexists [_]. Qed.

#[local] Hint Resolve frame_emit frame_now frame_create frame_session_call_tool : frames.

Lemma frame_execute_tool tool_name tool_input request_id :
  frame trace_only (execute_tool world tool_name tool_input request_id).
Proof.
  apply trace_only_bind; [auto with frames|]. intros items.
  induction items as [|[k s] rest IH]; simpl; [auto with frames|].
  destruct (negb (SessionInfo.healthy s)); [done|].
  destruct (advertises tool_name s); [|done].
  unfold log. auto 10 with frames.
Qed.

Lemma frame_run_tools request_id blocks :
  frame trace_only (run_tools world request_id blocks).
Proof.
  induction blocks as [|b rest IH]; simpl; [auto with frames|].
  destruct b; try done.
  unfold log. auto 10 using frame_execute_tool with frames.
Qed.

Lemma frame_append_history msg : frame exchange (append_history msg).
Proof.
  intros st. destruct st; repeat split; simpl; try done.
  - by exists [msg].
  - exists []. by rewrite app_nil_r.
Qed.

Lemma exchange_emit e : frame exchange (emit e).
Proof. apply exchange_of_trace_only, frame_emit. Qed.

Lemma exchange_create req : frame exchange (create world req).
Proof. apply exchange_of_trace_only, frame_create. Qed.

Lemma exchange_run_tools request_id blocks :
  frame exchange (run_tools world request_id blocks).
Proof. apply exchange_of_trace_only, frame_run_tools. Qed.

#[local] Hint Resolve frame_append_history exchange_emit exchange_create
  exchange_run_tools : frames.

Lemma frame_finish_exchange request_id response :
  frame exchange (finish_exchange world request_id response).
Proof.
  unfold finish_exchange, log.
  destruct (String.eqb (stop_reason response) "tool_use"); auto 20 with frames.
Qed.

(** ** The tool catalog *)

Lemma all_tools_of_app l1 l2 :
  all_tools_of (l1 ++ l2) = all_tools_of l1 ++ all_tools_of l2.
Proof.
  induction l1 as [|[k s] l1 IH]; simpl; [done|].
  destruct (SessionInfo.healthy s); rewrite IH; [by rewrite app_assoc|done].
Qed.

(** C2: [get_all_tools] returns exactly the tools of the healthy sessions:
    it is the concatenation, in the order of the registry, of the tool
    definitions of the sessions whose [healthy] flag is set; so a definition
    is listed if and only if a healthy session holds the tool, each as the
    record of the tool's name, description and input schema; and a session
    registered under a new name contributes its tools after all the earlier
    ones. *)
Theorem get_all_tools_healthy_in_order (st : State) :
  get_all_tools st =
    concat (map (fun kv => map tool_def (SessionInfo.tools (snd kv)))
              (List.filter (fun kv => SessionInfo.healthy (snd kv)) (server_sessions st)))
  /\ (forall td, In td (get_all_tools st) <->
        exists k s tool, In (k, s) (server_sessions st) /\ SessionInfo.healthy s = true
                         /\ In tool (SessionInfo.tools s) /\ td = tool_def tool)
  /\ (forall tool, tool_def tool =
        JObj [("name", JStr (Tool.name tool));
              ("description", json_of_option_str (Tool.description tool));
              ("input_schema", Tool.inputSchema tool)])
  /\ (forall name s, dict_get name (server_sessions st) = None ->
        get_all_tools (set_server_sessions (dict_set name s) st) =
          get_all_tools st ++
          (if SessionInfo.healthy s then map tool_def (SessionInfo.tools s) else [])).
Proof.
  unfold get_all_tools. destruct st as [cfgs sessions h ms tr fs]; simpl.
  split; [|split; [|split]].
  - induction sessions as [|[k s] l IH]; simpl; [done|].
    destruct (SessionInfo.healthy s); simpl; by rewrite IH.
  - intros td. split.
    + induction sessions as [|[k s] l IH]; simpl; [done|].
      destruct (SessionInfo.healthy s) eqn:Hh.
      * rewrite in_app_iff, in_map_iff. intros [(tool & <- & Hin)|Hin].
        -- exists k, s, tool. auto.
        -- destruct (IH Hin) as (k' & s' & tool & ? & ? & ? & ?).
           exists k', s', tool. auto.
      * intros Hin. destruct (IH Hin) as (k' & s' & tool & ? & ? & ? & ?).
        exists k', s', tool. auto.
    + intros (k & s & tool & Hin & Hh & Ht & ->).
      induction sessions as [|[k' s'] l IH]; simpl in *; [done|].
      destruct Hin as [Heq|Hin].
      * inversion Heq; subst. rewrite Hh. apply in_app_iff. left. by apply in_map.
      * destruct (SessionInfo.healthy s'); [apply in_app_iff; right|]; auto.
  - reflexivity.
  - intros name s Hfresh. rewrite (dict_set_fresh _ _ _ Hfresh), all_tools_of_app.
    simpl. destruct (SessionInfo.healthy s); by rewrite ?app_nil_r.
Qed.

(** ** Routing a tool call *)

Lemma advertises_In tool_name s :
  advertises tool_name s = true <-> In tool_name (tool_names s).
Proof.
  unfold advertises. rewrite existsb_exists. split.
  - intros (x & Hin & Heq). apply String.eqb_eq in Heq. by subst.
  - intros Hin. exists tool_name. split; [done|apply String.eqb_refl].
Qed.

(** The scan passes over the sessions that are unhealthy or do not list
    the tool. *)
Lemma execute_tool_from_skip l1 rest tool_name tool_input request_id :
  unadvertised tool_name l1 ->
  execute_tool_from world (l1 ++ rest) tool_name tool_input request_id =
  execute_tool_from world rest tool_name tool_input request_id.
Proof.
  induction l1 as [|[k s] l1 IH]; intros Hun; simpl; [done|].
  assert (Hrest : unadvertised tool_name l1).
  { intros k' s' Hin. apply (Hun k' s'). by right. }
  destruct (SessionInfo.healthy s) eqn:Hh; simpl; [|by apply IH].
  destruct (advertises tool_name s) eqn:Ha; [|by apply IH].
  apply advertises_In in Ha. destruct (Hun k s); auto. by left.
Qed.

(** What [execute_tool] does once the scan stops at a healthy session that
    lists the tool. *)
Lemma execute_tool_at l1 k s l2 tool_name tool_input request_id st :
  server_sessions st = l1 ++ (k, s) :: l2 ->
  unadvertised tool_name l1 ->
  SessionInfo.healthy s = true ->
  In tool_name (tool_names s) ->
  execute_tool world tool_name tool_input request_id st =
    let r := call_tool world (trace st) (SessionInfo.session s) tool_name tool_input in
    let called := EvCallTool (SessionInfo.session s) tool_name tool_input r in
    match r with
    | inr contents =>
        (inr (parse_result world contents), set_trace (fun tr => tr ++ [called]) st)
    | inl e =>
        (inr (execution_failed e),
         set_trace (fun tr => tr ++ [called;
           EvLog ERROR ("❌ [" +:+ request_id +:+ "] Tool execution failed: "
                        +:+ tool_name +:+ " - " +:+ exn_text e)]) st)
    end.
Proof.
  intros Hs Hun Hh Ha. apply advertises_In in Ha.
  unfold execute_tool, bind at 1, gets. rewrite Hs, execute_tool_from_skip by done.
  simpl. rewrite Hh, Ha. simpl.
  unfold try_except, bind, session_call_tool.
  destruct (call_tool world (trace st) (SessionInfo.session s) tool_name tool_input);
    simpl; [|done].
  destruct st; unfold set_trace; simpl. by rewrite <- app_assoc.
Qed.

(** C3: when no healthy session lists the tool, whatever the registry
    holds, [execute_tool] returns the not-found error dict and changes
    nothing; and when the first healthy session that lists it raises in
    [call_tool], [execute_tool] returns (does not raise) the
    execution-failed error dict carrying the text of the exception. *)
Theorem execute_tool_error_results (st : State) (tool_name : string) (tool_input : json)
    (request_id : string) :
  (unadvertised tool_name (server_sessions st) ->
     execute_tool world tool_name tool_input request_id st = (inr (not_found tool_name), st))
  /\ (forall l1 k s l2 e,
        server_sessions st = l1 ++ (k, s) :: l2 ->
        unadvertised tool_name l1 ->
        SessionInfo.healthy s = true ->
        In tool_name (tool_names s) ->
        call_tool world (trace st) (SessionInfo.session s) tool_name tool_input = inl e ->
        result (execute_tool world tool_name tool_input request_id) st
          = inr (execution_failed e)).
Proof.
  split.
  - intros Hun. unfold execute_tool, bind, gets.
    rewrite <- (app_nil_r (server_sessions st)), execute_tool_from_skip by done.
    reflexivity.
  - intros l1 k s l2 e Hs Hun Hh Ha Hcall. unfold result.
    rewrite (execute_tool_at l1 k s l2) by done. cbv zeta. by rewrite Hcall.
Qed.


(** ** The configuration file *)


Lemma load_configuration_absent (st : State) (path : string) :
  files st !! path = None ->
  load_configuration world path st =
    (inr tt,
     {| server_configs := [default_descriptor]; server_sessions := server_sessions st;
        conversation_history := conversation_history st; metrics := metrics st;
        trace := trace st ++ [EvLog INFO "📁 Creating default configuration";
                              EvLog INFO ("✅ Created default config at " +:+ path)];
        files := <[path := json_dumps world default_config]> (files st) |}).
Proof.
  intros Hnone. unfold load_configuration, bind at 1, gets. rewrite Hnone.
  destruct st; cbv -[json_dumps default_config insert String.append app].
  by rewrite <- app_assoc.
Qed.



(** ** Health checks *)

(** The [try] block of a health check never raises. *)
Lemma health_check_never_raises i server_name st :
  health_check world i server_name st =
    let t := time_time world (trace st) in
    (inr tt,
     set_trace (fun tr => tr ++
         [EvTime t; EvLog DEBUG ("✅ Health check passed: " +:+ server_name)])
       (set_server_sessions
          (alter (fun kv => (fst kv, SessionInfo.set_last_check t
                                       (SessionInfo.set_healthy true (snd kv)))) i)
          st)).
Proof.
  destruct st as [cfgs sessions h ms tr fs].
  unfold health_check, update_session, now, log, emit, bind, modify, set_trace,
    set_server_sessions; simpl.
  rewrite <- app_assoc. simpl. do 2 f_equal.
  rewrite list_alter_alter_eq. done.
Qed.

Lemma health_check_from_spec items : forall pre st,
  server_sessions st = pre ++ items ->
  exists items' evs,
    health_check_from world (length pre) items st =
      (inr tt, set_trace (fun tr => tr ++ evs)
                 (set_server_sessions (fun _ => pre ++ items') st))
    /\ Forall2 refreshed items items'
    /\ map (fun kv => SessionInfo.last_check (snd kv)) items' = times evs
    /\ forallb local_event evs = true.
Proof.
  induction items as [|[k s] rest IH]; intros pre st Hs.
  - exists [], []. split; [|by repeat constructor].
    destruct st as [cfgs sessions h ms tr fs]; simpl in *. subst.
    unfold ret, set_trace, set_server_sessions; simpl. by rewrite !app_nil_r.
  - simpl. unfold bind at 1, health_check_body, try_except.
    rewrite health_check_never_raises. cbv zeta.
    set (t := time_time world (trace st)).
    set (s' := SessionInfo.set_last_check t (SessionInfo.set_healthy true s)).
    set (st1 := set_trace _ _).
    assert (Hs1 : server_sessions st1 = (pre ++ [(k, s')]) ++ rest).
    { subst st1. destruct st; simpl in *. rewrite Hs.
      replace (length pre) with (length pre + 0)%nat by lia.
      rewrite alter_app_r. simpl. by rewrite <- app_assoc. }
    destruct (IH _ _ Hs1) as (items' & evs & Hrun & Hall & Htimes & Hlocal).
    replace (S (length pre)) with (length (pre ++ [(k, s')]))
      by (rewrite length_app; simpl; lia).
    rewrite Hrun.
    exists ((k, s') :: items'),
      ([EvTime t; EvLog DEBUG ("✅ Health check passed: " +:+ k)] ++ evs).
    split; [|split; [|split]].
    + subst st1. destruct st; unfold set_trace, set_server_sessions; simpl.
      by rewrite <- !app_assoc.
    + constructor; [|done]. by repeat split.
    + simpl. by rewrite Htimes.
    + done.
Qed.

(** C9: [health_check_all] never raises and, for every state, leaves
    every session of the registry under its name with the same backend and
    tools, [healthy] set to true and [last_check] set to a clock reading
    taken during the pass.  It contacts no backend: all it does to the
    outside is read the clock and log.  The [try] block cannot raise, so with
    the [except] branch the body does what it does without it; in
    particular a session that was unhealthy is healthy after one pass. *)
Theorem health_check_all_restores_every_session (st : State) :
  exists sessions' evs,
    health_check_all world st =
      (inr tt, set_trace (fun tr => tr ++ evs) (set_server_sessions (fun _ => sessions') st))
    /\ Forall2 refreshed (server_sessions st) sessions'
    /\ map (fun kv => SessionInfo.last_check (snd kv)) sessions' = times evs
    /\ forallb local_event evs = true
    /\ (forall i server_name st0,
          health_check_body world i server_name st0 = health_check world i server_name st0
          /\ result (health_check world i server_name) st0 = inr tt)
    /\ (forall k s, In (k, s) (server_sessions st) -> SessionInfo.healthy s = false ->
          exists s', In (k, s') sessions' /\ SessionInfo.healthy s' = true).
Proof.
  destruct (health_check_from_spec (server_sessions st) [] st eq_refl)
    as (sessions' & evs & Hrun & Hall & Htimes & Hlocal).
  exists sessions', evs. split; [|split; [|split; [|split; [|split]]]].
  - exact Hrun.
  - exact Hall.
  - exact Htimes.
  - exact Hlocal.
  - intros i server_name st0. unfold health_check_body, try_except, result.
    by rewrite !health_check_never_raises.
  - intros k s Hin _. apply list_elem_of_In, list_elem_of_lookup in Hin.
    destruct Hin as [i Hi].
    destruct (Forall2_lookup_l _ _ _ _ _ Hall Hi) as ([k' s'] & Hi' & Hk & _ & _ & _ & Hh).
    simpl in *. subst k'. exists s'. split; [|done].
    apply list_elem_of_In, list_elem_of_lookup. by exists i.
Qed.

(** ** Bringing the backends up *)

Lemma launched_earlier tr0 evs c s :
  launched world (tr0 ++ evs) c s -> launched world tr0 c s.
Proof.
  intros (evs0 & backend & H & ?). exists (evs ++ evs0), backend.
  by rewrite app_assoc.
Qed.

Lemma launch_failed_earlier tr0 evs c :
  launch_failed world (tr0 ++ evs) c -> launch_failed world tr0 c.
Proof. intros (evs0 & e & H). exists (evs ++ evs0), e. by rewrite app_assoc. Qed.

Lemma descriptor_after_earlier tr0 evs c c' :
  descriptor_after world (tr0 ++ evs) c c' -> descriptor_after world tr0 c c'.
Proof.
  intros [->|(? & ? & ?)]; [by left|right].
  eauto using launch_failed_earlier.
Qed.

Lemma registry_after_refl tr0 sessions : registry_after world tr0 [] sessions sessions.
Proof.
  split; [simpl; lia|]. split; [by left|]. intros k s Hk. exists s. auto.
Qed.

Lemma registry_after_skip tr0 c configs sessions sessions' :
  MCPServerConfig.enabled c = false ->
  registry_after world tr0 configs sessions sessions' ->
  registry_after world tr0 (c :: configs) sessions sessions'.
Proof.
  intros Hen (Hlen & Hfrom & Hkeep). split; [|split; [|done]].
  - simpl. by rewrite Hen.
  - intros k s' Hk. destruct (Hfrom k s' Hk) as [?|(c' & ? & ?)]; [by left|right].
    exists c'. split; [by right|done].
Qed.

Lemma registry_after_failed tr0 evs c configs sessions sessions' :
  registry_after world (tr0 ++ evs) configs sessions sessions' ->
  registry_after world tr0 (c :: configs) sessions sessions'.
Proof.
  intros (Hlen & Hfrom & Hkeep). split; [|split; [|done]].
  - simpl. destruct (MCPServerConfig.enabled c); simpl; lia.
  - intros k s' Hk. destruct (Hfrom k s' Hk) as [?|(c' & ? & ? & ? & ?)]; [by left|right].
    exists c'. split; [by right|]. eauto using launched_earlier.
Qed.

Lemma registry_after_launched tr0 evs c s configs sessions sessions' :
  MCPServerConfig.enabled c = true ->
  launched world tr0 c s ->
  registry_after world (tr0 ++ evs) configs
    (dict_set (MCPServerConfig.name c) s sessions) sessions' ->
  registry_after world tr0 (c :: configs) sessions sessions'
  /\ exists s', dict_get (MCPServerConfig.name c) sessions' = Some s'
                /\ SessionInfo.healthy s' = true.
Proof.
  intros Hen Hs (Hlen & Hfrom & Hkeep).
  assert (Hhealthy : SessionInfo.healthy s = true)
    by (by destruct Hs as (? & ? & ? & ? & ? & ? & ?)).
  split; [split; [|split]|].
  - simpl. rewrite Hen. simpl.
    pose proof (dict_set_length (MCPServerConfig.name c) s sessions). lia.
  - intros k s' Hk. destruct (Hfrom k s' Hk) as [Hset|(c' & ? & ? & ? & ?)].
    + destruct (String.eqb_spec k (MCPServerConfig.name c)) as [->|Hne].
      * rewrite dict_get_set_eq in Hset. inversion Hset; subst s'.
        right. exists c. split; [by left|done].
      * rewrite dict_get_set_ne in Hset by done. by left.
    + right. exists c'. split; [by right|]. eauto using launched_earlier.
  - intros k s0 Hk. destruct (String.eqb_spec k (MCPServerConfig.name c)) as [->|Hne].
    + destruct (Hkeep _ _ (dict_get_set_eq (MCPServerConfig.name c) s sessions))
        as (s' & Hs' & [Heq|Hh]); exists s'; subst; auto.
    + apply (Hkeep k s0). by rewrite dict_get_set_ne.
  - destruct (Hkeep _ _ (dict_get_set_eq (MCPServerConfig.name c) s sessions))
      as (s' & Hs' & [Heq|Hh]); exists s'; subst; auto.
Qed.

(** The three ways through the body of the loop: the descriptor is skipped,
    its backend comes up and is registered, or the launch fails and the
    descriptor is disabled.  The body itself never raises. *)
Lemma initialize_servers_body_cases i c st :
  (MCPServerConfig.enabled c = false
   /\ initialize_servers_body world i c st = (inr tt, st))
  \/ (MCPServerConfig.enabled c = true /\ exists evs,
        connect_requests evs = [server_params world c]
        /\ ((exists backend t evs0,
               connect world (trace st ++ evs0) (server_params world c) = inr backend
               /\ initialize_servers_body world i c st =
                    (inr tt, set_trace (fun tr => tr ++ evs)
                       (set_server_sessions
                          (dict_set (MCPServerConfig.name c) (the_session backend t)) st)))
            \/ (exists e evs0,
                  connect world (trace st ++ evs0) (server_params world c) = inl e
                  /\ initialize_servers_body world i c st =
                       (inr tt, set_trace (fun tr => tr ++ evs)
                          (set_server_configs
                             (alter (MCPServerConfig.set_enabled false) i) st))))).
Proof.
  unfold initialize_servers_body.
  destruct (MCPServerConfig.enabled c) eqn:Hen; cbn [negb]; [right|by left].
  split; [done|].
  destruct st as [cfgs sessions h ms tr fs].
  unfold initialize_server, connect_backend. run_state.
  destruct (connect world _ (server_params world c)) as [e|backend] eqn:Hconnect;
    rewrite <- ?app_assoc; cbn [app].
  - eexists. split; [|right; exists e; eexists; split; [exact Hconnect|reflexivity]].
    reflexivity.
  - eexists. split; [|left; exists backend; eexists _, _; split; [exact Hconnect|reflexivity]].
    reflexivity.
Qed.

Lemma initialize_servers_from_spec configs : forall pre st,
  server_configs st = pre ++ configs ->
  exists configs' sessions' evs,
    initialize_servers_from world (length pre) configs st =
      (inr tt,
       set_trace (fun tr => tr ++ evs)
         (set_server_sessions (fun _ => sessions')
            (set_server_configs (fun _ => pre ++ configs') st)))
    /\ Forall2 (descriptor_after world (trace st)) configs configs'
    /\ Forall2 (processed sessions') configs configs'
    /\ connect_requests evs
         = map (server_params world) (List.filter MCPServerConfig.enabled configs)
    /\ registry_after world (trace st) configs (server_sessions st) sessions'.
Proof.
  induction configs as [|c rest IH]; intros pre st Hcfgs.
  - exists [], (server_sessions st), []. split; [|split; [|split; [|split]]];
      try done; [|apply registry_after_refl].
    destruct st as [cfgs sessions h ms tr fs]; simpl in *. subst cfgs.
    unfold ret. run_state. by rewrite !app_nil_r.
  - cbn [initialize_servers_from]. unfold bind.
    destruct (initialize_servers_body_cases (length pre) c st)
      as [[Hen ->]|(Hen & evs1 & Hreq & [(backend & t & evs0 & Hconnect & ->)
                                       |(e & evs0 & Hconnect & ->)])].
    + (* disabled: skipped *)
      destruct (IH (pre ++ [c]) st)
        as (rest' & sessions' & evs & Hrun & Hd & Hp & Hreqs & Hreg).
      { by rewrite Hcfgs, <- app_assoc. }
      replace (S (length pre)) with (length (pre ++ [c]))
        by (rewrite length_app; simpl; lia).
      rewrite Hrun. exists (c :: rest'), sessions', evs.
      split; [by rewrite <- app_assoc|]. split; [constructor; [by left|done]|].
      split; [constructor; [intros ?; congruence|done]|].
      split; [simpl; by rewrite Hen|]. by apply registry_after_skip.
    + (* enabled, and the backend came up *)
      set (s := the_session backend t).
      set (st1 := set_trace _ _).
      assert (Hs : launched world (trace st) c s)
        by (exists evs0, backend; by repeat split).
      destruct (IH (pre ++ [c]) st1)
        as (rest' & sessions' & evs & Hrun & Hd & Hp & Hreqs & Hreg).
      { subst st1. destruct st; simpl in *. by rewrite Hcfgs, <- app_assoc. }
      replace (S (length pre)) with (length (pre ++ [c]))
        by (rewrite length_app; simpl; lia).
      rewrite Hrun.
      assert (Htr1 : trace st1 = trace st ++ evs1) by (by destruct st).
      assert (Hss1 : server_sessions st1
                     = dict_set (MCPServerConfig.name c) s (server_sessions st))
        by (by destruct st).
      rewrite Htr1 in Hd, Hreg. rewrite Hss1 in Hreg.
      destruct (registry_after_launched _ _ _ _ _ _ _ Hen Hs Hreg) as [Hreg' Hmine].
      exists (c :: rest'), sessions', (evs1 ++ evs).
      split; [|split; [|split; [|split]]].
      * subst st1. destruct st as [cfgs sessions h ms tr fs]. by run_state.
      * constructor; [by left|].
        eapply Forall2_impl; [exact Hd|]. eauto using descriptor_after_earlier.
      * constructor; [|done]. intros _. right. by split.
      * unfold connect_requests in *. rewrite omap_app, Hreq, Hreqs. simpl. by rewrite Hen.
      * done.
    + (* enabled, and the launch failed *)
      set (c0 := MCPServerConfig.set_enabled false c).
      set (st1 := set_trace _ _).
      assert (Hf : launch_failed world (trace st) c) by (by exists evs0, e).
      destruct (IH (pre ++ [c0]) st1)
        as (rest' & sessions' & evs & Hrun & Hd & Hp & Hreqs & Hreg).
      { subst st1. destruct st as [cfgs sessions h ms tr fs]; simpl in *. subst cfgs.
        replace (length pre) with (length pre + 0)%nat by lia.
        rewrite alter_app_r. simpl. by rewrite <- app_assoc. }
      replace (S (length pre)) with (length (pre ++ [c0]))
        by (rewrite length_app; simpl; lia).
      rewrite Hrun.
      assert (Htr1 : trace st1 = trace st ++ evs1) by (by destruct st).
      assert (Hss1 : server_sessions st1 = server_sessions st) by (by destruct st).
      rewrite Htr1 in Hd, Hreg. rewrite Hss1 in Hreg.
      exists (c0 :: rest'), sessions', (evs1 ++ evs).
      split; [|split; [|split; [|split]]].
      * subst st1. destruct st as [cfgs sessions h ms tr fs]. by run_state.
      * constructor; [by right|].
        eapply Forall2_impl; [exact Hd|]. eauto using descriptor_after_earlier.
      * constructor; [|done]. intros _. by left.
      * unfold connect_requests in *. rewrite omap_app, Hreq, Hreqs. simpl. by rewrite Hen.
      * by eapply registry_after_failed.
Qed.

(** C1: for every list of descriptors and every registry,
    [initialize_servers] never raises and ends with descriptors [configs']
    and sessions [sessions'] such that: a session of [sessions'] was there
    before or is the healthy session of a backend that came up for an
    enabled descriptor of its name; [sessions'] has at most as many more
    sessions than before as there are enabled descriptors; a descriptor
    changes only by being disabled, and only when it was enabled and its own
    launch failed; and every enabled descriptor is processed, whatever
    happened to the others: a launch is attempted for each of them, in order,
    and each ends up disabled or with a healthy session under its name. *)
Theorem initialize_servers_launches_enabled_backends (st : State) :
  exists configs' sessions' evs,
    initialize_servers world st =
      (inr tt,
       set_trace (fun tr => tr ++ evs)
         (set_server_sessions (fun _ => sessions')
            (set_server_configs (fun _ => configs') st)))
    /\ registry_after world (trace st) (server_configs st) (server_sessions st) sessions'
    /\ Forall2 (descriptor_after world (trace st)) (server_configs st) configs'
    /\ Forall2 (processed sessions') (server_configs st) configs'
    /\ connect_requests evs
         = map (server_params world)
             (List.filter MCPServerConfig.enabled (server_configs st)).
Proof.
  destruct (initialize_servers_from_spec (server_configs st) [] st eq_refl)
    as (configs' & sessions' & evs & Hrun & Hd & Hp & Hreqs & Hreg).
  exists configs', sessions', evs. split; [exact Hrun|].
  split; [exact Hreg|]. split; [exact Hd|]. split; [exact Hp|exact Hreqs].
Qed.

(** ** The metrics summary *)

(** C7: the summary of the empty log is the no-data dict; the summary
    depends on nothing but the log; and after three metrics are recorded into
    an empty log, two of them successful, the summary reports three requests,
    two successful, one failed and a success rate of 66.7 percent. *)
Theorem get_summary_sentinel_and_two_of_three :
  get_summary world [] = JObj [("message", JStr "No metrics available")]
  /\ (forall st1 st2, metrics st1 = metrics st2 ->
        get_summary world (metrics st1) = get_summary world (metrics st2))
  /\ (forall st m1 m2 m3,
        metrics st = [] ->
        length (List.filter RequestMetrics.success [m1; m2; m3]) = 2%nat ->
        let st' := final (add_metric m1 ;; add_metric m2 ;; add_metric m3) st in
        metrics st' = [m1; m2; m3]
        /\ exists summary,
             get_summary world (metrics st') = JObj summary
             /\ dict_get "total_requests" summary = Some (JInt 3)
             /\ dict_get "successful" summary = Some (JInt 2)
             /\ dict_get "failed" summary = Some (JInt 1)
             /\ dict_get "success_rate" summary = Some (JStr "66.7%")).
Proof.
  split; [reflexivity|]. split; [by intros st1 st2 ->|].
  intros st m1 m2 m3 Hempty Hcount.
  destruct st as [cfgs sessions h ms tr fs]; simpl in Hempty; subst ms.
  cbv [final add_metric bind modify set_metrics metrics snd fst app].
  split; [reflexivity|].
  eexists. split; [reflexivity|].
  cbn [length List.filter] in *.
  destruct (RequestMetrics.success m1), (RequestMetrics.success m2),
    (RequestMetrics.success m3); simpl in Hcount; try discriminate;
    repeat split; vm_compute; reflexivity.
Qed.

(** ** One exchange with the model *)

Lemma execute_chat_no_tools user_message request_id st :
  get_all_tools st = [] ->
  _execute_chat world user_message request_id st =
    (inr no_tools_text,
     set_trace (fun tr => tr ++
         [EvLog WARNING ("⚠️ [" +:+ request_id +:+ "] No healthy MCP servers available")])
       (set_conversation_history (fun h => h ++ [user_turn user_message]) st)).
Proof.
  intros Hnone. unfold _execute_chat, bind at 1, append_history, modify.
  unfold bind at 1, gets.
  replace (get_all_tools (set_conversation_history _ st)) with (get_all_tools st)
    by (by destruct st).
  rewrite Hnone. reflexivity.
Qed.

Lemma execute_chat_with_tools user_message request_id st :
  get_all_tools st <> [] ->
  _execute_chat world user_message request_id st =
    match first_answer world user_message request_id st with
    | inl e => (inl e, after_call world user_message request_id st)
    | inr response =>
        finish_exchange world request_id response
          (after_call world user_message request_id st)
    end.
Proof.
  intros Hsome. unfold _execute_chat, bind at 1, append_history, modify.
  unfold bind at 1, gets.
  replace (get_all_tools (set_conversation_history _ st)) with (get_all_tools st)
    by (by destruct st).
  unfold after_call, first_answer, before_call, first_request.
  destruct (get_all_tools st) as [|td tds] eqn:Htools; [done|].
  unfold bind, log, emit, modify, gets, create.
  destruct st as [cfgs sessions h ms tr fs]; simpl.
  destruct (messages_create world _ _); reflexivity.
Qed.

(** A failed first call leaves the exchange right after that call. *)
Lemma execute_chat_call_raised user_message request_id st e :
  get_all_tools st <> [] ->
  first_answer world user_message request_id st = inl e ->
  _execute_chat world user_message request_id st =
    (inl e, after_call world user_message request_id st).
Proof. intros Hsome He. rewrite execute_chat_with_tools by done. by rewrite He. Qed.

Lemma frame_execute_chat user_message request_id :
  frame exchange (_execute_chat world user_message request_id).
Proof.
  intros st. unfold final.
  destruct (get_all_tools st) as [|td tds] eqn:Htools.
  - rewrite execute_chat_no_tools by done. simpl.
    destruct st; repeat split; simpl; try done; by eexists.
  - rewrite execute_chat_with_tools by (by rewrite Htools).
    assert (Hafter : exchange st (after_call world user_message request_id st)).
    { destruct st; repeat split; simpl; try done; [by eexists|].
      rewrite <- app_assoc. by eexists. }
    destruct (first_answer world user_message request_id st) as [e|response]; [done|].
    eapply exchange_trans; [exact Hafter|]. apply frame_finish_exchange.
Qed.

(** C10: when the catalog is empty, [_execute_chat] returns the fixed text
    without calling the model, and yet the history has grown by the user
    turn; the first model call of any later exchange that starts from that
    history (with a backend back) sends it along, before the new message. *)
Theorem execute_chat_records_user_turn_without_backends
    (st : State) (user_message request_id : string) :
  get_all_tools st = [] ->
  let st' := final (_execute_chat world user_message request_id) st in
  result (_execute_chat world user_message request_id) st = inr no_tools_text
  /\ conversation_history st' = conversation_history st ++ [user_turn user_message]
  /\ create_requests (trace st') = create_requests (trace st)
  /\ (forall st2 next_message next_id,
        conversation_history st2 = conversation_history st' ->
        get_all_tools st2 <> [] ->
        exists req rest,
          create_requests (trace (final (_execute_chat world next_message next_id) st2))
            = create_requests (trace st2) ++ req :: rest
          /\ messages req = conversation_history st ++
                            [user_turn user_message; user_turn next_message]).
Proof.
  intros Hnone st'. subst st'. unfold result, final.
  rewrite execute_chat_no_tools by done. cbn [fst snd].
  split; [done|]. split; [by destruct st|]. split.
  { destruct st; simpl. unfold create_requests. by rewrite omap_app, app_nil_r. }
  intros st2 next_message next_id Hh Hsome.
  rewrite execute_chat_with_tools by done.
  exists (first_request next_message st2).
  assert (Hfin : exists evs,
    trace (match first_answer world next_message next_id st2 with
           | inl e => (inl e, after_call world next_message next_id st2)
           | inr response =>
               finish_exchange world next_id response
                 (after_call world next_message next_id st2)
           end).2 = trace (after_call world next_message next_id st2) ++ evs).
  { destruct (first_answer world next_message next_id st2) as [e|response].
    - exists []. by rewrite app_nil_r.
    - apply (frame_finish_exchange next_id response
               (after_call world next_message next_id st2)). }
  destruct Hfin as [evs ->].
  exists (create_requests evs). split.
  - destruct st2 as [c2 s2 h2 m2 t2 f2]; simpl. unfold create_requests.
    rewrite !omap_app. simpl. by rewrite app_nil_r, <- app_assoc.
  - simpl. rewrite Hh. destruct st as [c1 s1 h1 m1 t1 f1]; simpl. by rewrite <- app_assoc.
Qed.

(** ** The retry loop *)

(** What one pass through the loop does when the exchange raised an
    exception that is retried: on the last pass it logs the failure and
    returns, otherwise it sleeps and continues. *)
Lemma chat_attempt_retryable k user_message max_retries request_id request_metrics
    attempt st e st1 :
  _execute_chat world user_message request_id st = (inl e, st1) ->
  exn_type e = retry_class k ->
  chat_attempt world user_message max_retries request_id request_metrics attempt st =
    let warned := EvLog WARNING (warning_text k request_id attempt max_retries) in
    if attempt =? max_retries - 1 then
      let t := time_time world (trace st1 ++ [warned]) in
      (inr (Return (exhausted_text k max_retries)),
       set_metrics (fun l => l ++ [failed_metric request_metrics (error_label k) t])
         (set_trace (fun tr => tr ++ [warned; EvTime t]) st1))
    else
      (inr Continue, set_trace (fun tr => tr ++ [warned; EvSleep (backoff k attempt)]) st1).
Proof.
  intros Hrun Hclass. unfold chat_attempt, try_except, bind at 1. rewrite Hrun.
  rewrite Hclass. cbv zeta.
  destruct st1 as [cfgs sessions h ms tr fs].
  destruct k; cbn [retry_class]; destruct (attempt =? max_retries - 1);
    run_state; reflexivity.
Qed.

(** Any other exception ends the loop at once. *)
Lemma chat_attempt_other user_message max_retries request_id request_metrics
    attempt st e st1 type_name :
  _execute_chat world user_message request_id st = (inl e, st1) ->
  exn_type e = OtherError type_name ->
  chat_attempt world user_message max_retries request_id request_metrics attempt st =
    let logged := EvLog ERROR ("❌ [" +:+ request_id +:+ "] Error: " +:+ exn_text e) in
    let t := time_time world (trace st1 ++ [logged]) in
    (inr (Return ("❌ Error: " +:+ exn_text e)),
     set_metrics (fun l => l ++ [failed_metric request_metrics type_name t])
       (set_trace (fun tr => tr ++ [logged; EvTime t]) st1)).
Proof.
  intros Hrun Hclass. unfold chat_attempt, try_except, bind at 1. rewrite Hrun.
  unfold type_name_of. rewrite Hclass. cbv zeta.
  destruct st1 as [cfgs sessions h ms tr fs]. run_state; reflexivity.
Qed.

Lemma chat_attempt_returned user_message max_retries request_id request_metrics
    attempt st response st1 :
  _execute_chat world user_message request_id st = (inr response, st1) ->
  chat_attempt world user_message max_retries request_id request_metrics attempt st =
    let t := time_time world (trace st1) in
    let done := RequestMetrics.set_success true
                  (RequestMetrics.set_end_time t request_metrics) in
    let elapsed := Float.sub t (RequestMetrics.start_time request_metrics) in
    (inr (Return response),
     set_metrics (fun l => l ++ [done])
       (set_trace (fun tr => tr ++
          [EvTime t;
           EvLog INFO ("✅ [" +:+ request_id +:+ "] Request completed in "
                       +:+ Float.format_f 2 elapsed +:+ "s")]) st1)).
Proof.
  intros Hrun. unfold chat_attempt, try_except, bind at 1. rewrite Hrun.
  destruct st1 as [cfgs sessions h ms tr fs]. run_state; reflexivity.
Qed.

(** The loop from attempt [a] on, [S m] attempts before the budget is
    used up, when every model call raises a retried exception. *)
Lemma retry_loop k user_message max_retries request_id request_metrics :
  model_always_raises world k ->
  forall (m a : nat) (st : State),
    Z.of_nat a + Z.of_nat (S m) = max_retries ->
    get_all_tools st <> [] ->
    exists st' evs t,
      chat_attempts world user_message max_retries request_id request_metrics
        (map Z.of_nat (seq a (S m))) st
        = (inr (Some (exhausted_text k max_retries)), st')
      /\ trace st' = trace st ++ evs
      /\ length (create_requests evs) = S m
      /\ sleeps evs = map (backoff k) (map Z.of_nat (seq a m))
      /\ times evs = [t]
      /\ metrics st' = metrics st ++ [failed_metric request_metrics (error_label k) t]
      /\ server_sessions st' = server_sessions st
      /\ conversation_history st'
           = conversation_history st ++ replicate (S m) (user_turn user_message).
Proof.
  intros Hfail. induction m as [|m IH]; intros a st Hsum Hsome.
  - destruct (Hfail (trace (before_call user_message request_id st))
                (first_request user_message st)) as (e & He & Hclass).
    cbn [seq map chat_attempts]. unfold bind at 1.
    rewrite (chat_attempt_retryable k _ _ _ _ _ _ e _
               (execute_chat_call_raised _ _ _ _ Hsome He) Hclass).
    cbv zeta. replace (Z.of_nat a =? max_retries - 1) with true
      by (symmetry; apply Z.eqb_eq; lia).
    clear He. destruct st as [cfgs sessions h ms tr fs]. unfold after_call, before_call.
    run_state. eexists _, _, _. split; [reflexivity|].
    cbn [trace metrics server_sessions conversation_history].
    split; [reflexivity|]. repeat split; reflexivity.
  - destruct (Hfail (trace (before_call user_message request_id st))
                (first_request user_message st)) as (e & He & Hclass).
    remember (S m) as m1. cbn [seq map chat_attempts]. unfold bind at 1.
    rewrite (chat_attempt_retryable k _ _ _ _ _ _ e _
               (execute_chat_call_raised _ _ _ _ Hsome He) Hclass).
    cbv zeta. replace (Z.of_nat a =? max_retries - 1) with false
      by (symmetry; apply Z.eqb_neq; lia).
    set (st1 := set_trace _ _).
    assert (Hsome1 : get_all_tools st1 <> []) by (by destruct st).
    destruct (IH (S a) st1 ltac:(lia) Hsome1)
      as (st' & evs & t & Hrun & Htr & Hcalls & Hsleeps & Htimes & Hms & Hss & Hh).
    subst m1. rewrite Hrun. clear Hrun He Hsome1. exists st'. subst st1.
    destruct st as [cfgs sessions h ms tr fs]. unfold after_call, before_call in *.
    revert Htr Hms Hss Hh. run_state. intros Htr Hms Hss Hh.
    eexists _, t. split; [reflexivity|]. rewrite Htr, Hms, Hss, Hh.
    split; [reflexivity|].
    unfold create_requests, sleeps, times in *. cbn [omap list_omap length] in *.
    rewrite Hcalls, Hsleeps, Htimes. repeat split; reflexivity.
Qed.


(** Once the clock has been read, [chat_with_claude] is its loop. *)
Lemma chat_with_claude_started user_message max_retries st :
  clock_in_range world ->
  chat_with_claude world user_message max_retries st =
    chat_attempts world user_message max_retries (request_id_in world st)
      (request_metrics_in world st) (range max_retries) (started world st).
Proof.
  intros Hclock. destruct (Hclock (trace st)) as [millis Hmillis].
  unfold chat_with_claude, started, request_metrics_in, start_time_in, request_id_in.
  unfold bind at 1, now. unfold bind at 1, lift. cbn [trace set_trace].
  rewrite Hmillis. destruct st as [cfgs sessions h ms tr fs]. run_state. reflexivity.
Qed.


(** ** One metric per request *)

(** One pass of the retry loop either returns, having logged one finalized
    metric, or continues, having logged none; the last pass returns. *)
Lemma chat_attempt_outcome user_message max_retries request_id start_time attempt st :
  let request_metrics := RequestMetrics.new request_id start_time in
  let run := chat_attempt world user_message max_retries request_id request_metrics
               attempt st in
  server_sessions run.2 = server_sessions st
  /\ ((exists text m, run.1 = inr (Return text)
                      /\ metrics run.2 = metrics st ++ [m] /\ finalized m)
      \/ (run.1 = inr Continue /\ metrics run.2 = metrics st
          /\ attempt <> max_retries - 1)).
Proof.
  intros request_metrics run. subst run.
  destruct (_execute_chat world user_message request_id st) as [[e|response] st1] eqn:Hrun;
    pose proof (frame_execute_chat user_message request_id st) as Hframe;
    unfold final in Hframe; rewrite Hrun in Hframe;
    destruct Hframe as (_ & Hss & Hms & _); simpl in Hss, Hms.
  - destruct (exn_type e) as [| |type_name] eqn:Hclass.
    + rewrite (chat_attempt_retryable TimedOut _ _ _ _ _ _ e st1 Hrun Hclass).
      cbv zeta. destruct (Z.eqb_spec attempt (max_retries - 1)); cbn [fst snd].
      * split; [by_frame Hss Hms|]. left. eexists _, _. split; [done|].
        split; [by_frame Hss Hms|].
        split; [by eexists|]. right. split; [done|by eexists].
      * split; [by_frame Hss Hms|]. right. split; [done|].
        split; [|done]. by_frame Hss Hms.
    + rewrite (chat_attempt_retryable RateLimited _ _ _ _ _ _ e st1 Hrun Hclass).
      cbv zeta. destruct (Z.eqb_spec attempt (max_retries - 1)); cbn [fst snd].
      * split; [by_frame Hss Hms|]. left. eexists _, _. split; [done|].
        split; [by_frame Hss Hms|].
        split; [by eexists|]. right. split; [done|by eexists].
      * split; [by_frame Hss Hms|]. right. split; [done|].
        split; [|done]. by_frame Hss Hms.
    + rewrite (chat_attempt_other _ _ _ _ _ _ e st1 type_name Hrun Hclass).
      cbv zeta. cbn [fst snd]. split; [by_frame Hss Hms|]. left. eexists _, _.
      split; [done|]. split; [by_frame Hss Hms|].
      split; [by eexists|]. right. split; [done|by eexists].
  - rewrite (chat_attempt_returned _ _ _ _ _ _ response st1 Hrun).
    cbv zeta. cbn [fst snd]. split; [by_frame Hss Hms|]. left. eexists _, _.
    split; [done|]. split; [by_frame Hss Hms|].
    split; [by eexists|]. by left.
Qed.

Lemma chat_attempts_one_metric user_message max_retries request_id start_time :
  forall (m a : nat) (st : State),
    Z.of_nat a + Z.of_nat (S m) = max_retries ->
    exists text metric st',
      chat_attempts world user_message max_retries request_id
        (RequestMetrics.new request_id start_time)
        (map Z.of_nat (seq a (S m))) st = (inr (Some text), st')
      /\ metrics st' = metrics st ++ [metric] /\ finalized metric.
Proof.
  assert (Hstep : forall a st,
    exists r st1,
      chat_attempt world user_message max_retries request_id
        (RequestMetrics.new request_id start_time) (Z.of_nat a) st = (r, st1)
      /\ ((exists text metric, r = inr (Return text)
                               /\ metrics st1 = metrics st ++ [metric] /\ finalized metric)
          \/ (r = inr Continue /\ metrics st1 = metrics st
              /\ Z.of_nat a <> max_retries - 1))).
  { intros a st.
    pose proof (chat_attempt_outcome user_message max_retries request_id start_time
                  (Z.of_nat a) st) as H. cbv zeta in H.
    destruct (chat_attempt world user_message max_retries request_id
                (RequestMetrics.new request_id start_time) (Z.of_nat a) st) as [r st1].
    exists r, st1. split; [done|]. exact (proj2 H). }
  induction m as [|m IH]; intros a st Hsum.
  - cbn [seq map chat_attempts]. unfold bind.
    destruct (Hstep a st)
      as (r & st1 & -> & [(text & metric & -> & Hms & Hfin)|(-> & Hms & Hne)]); [|lia].
    by exists text, metric, st1.
  - remember (S m) as m1. cbn [seq map chat_attempts]. unfold bind.
    destruct (Hstep a st)
      as (r & st1 & -> & [(text & metric & -> & Hms & Hfin)|(-> & Hms & Hne)]).
    + by exists text, metric, st1.
    + subst m1.
      destruct (IH (S a) st1 ltac:(lia)) as (text & metric & st' & Hrun & Hms' & Hfin).
      exists text, metric, st'. by rewrite <- Hms.
Qed.

(** With a budget of at least one attempt every request ends as a text and
    as exactly one finalized metric, whatever the model and the backends
    do. *)
Lemma chat_with_claude_records_one_metric (st : State) (user_message : string)
    (max_retries : Z) :
  clock_in_range world ->
  1 <= max_retries ->
  exists text metric,
    result (chat_with_claude world user_message max_retries) st = inr (Some text)
    /\ metrics (final (chat_with_claude world user_message max_retries) st)
         = metrics st ++ [metric]
    /\ finalized metric.
Proof.
  intros Hclock Hpos. unfold result, final. rewrite chat_with_claude_started by done.
  destruct (Z.to_nat max_retries) as [|m] eqn:Hm; [lia|].
  unfold range. rewrite Hm.
  destruct (chat_attempts_one_metric user_message max_retries (request_id_in world st)
              (start_time_in world st) m 0%nat (started world st) ltac:(lia))
    as (text & metric & st' & Hrun & Hms & Hfin).
  exists text, metric. unfold request_metrics_in. rewrite Hrun. cbn [fst snd].
  split; [done|]. split; [|done]. rewrite Hms. by destruct st.
Qed.

(** Without a healthy backend (and with a budget of at least one attempt)
    the model is not called, the fixed text comes back, and the request is
    logged as a success: no exception was involved. *)
Lemma chat_with_claude_no_backend (st : State) (user_message : string) (max_retries : Z) :
  clock_in_range world ->
  1 <= max_retries ->
  get_all_tools st = [] ->
  let st' := final (chat_with_claude world user_message max_retries) st in
  result (chat_with_claude world user_message max_retries) st = inr (Some no_tools_text)
  /\ create_requests (trace st') = create_requests (trace st)
  /\ exists metric,
       metrics st' = metrics st ++ [metric]
       /\ RequestMetrics.success metric = true
       /\ RequestMetrics.error_type metric = None
       /\ is_Some (RequestMetrics.end_time metric).
Proof.
  intros Hclock Hpos Hnone st'. subst st'. unfold result, final.
  rewrite chat_with_claude_started by done.
  destruct (Z.to_nat max_retries) as [|m] eqn:Hm; [lia|].
  unfold range. rewrite Hm. cbn [seq map chat_attempts]. unfold bind.
  assert (Hnone' : get_all_tools (started world st) = []) by (by destruct st).
  rewrite (chat_attempt_returned _ _ _ _ _ _ _ _
             (execute_chat_no_tools _ _ _ Hnone')).
  cbv zeta. cbn [fst snd]. split; [done|].
  destruct st as [cfgs sessions h ms tr fs]. unfold started. run_state.
  cbn [fst snd trace metrics]. split.
  - unfold create_requests. rewrite omap_app. cbn. by rewrite app_nil_r.
  - eexists. split; [reflexivity|]. by repeat split.
Qed.

(** C6, at the input where the code departs from it: with a budget of no
    attempt ([max_retries] zero or negative) the loop body never runs;
    [chat_with_claude] reads the clock, logs, falls off the loop and returns
    [None], no text, and the metrics log is as it was: the request leaves no
    metric. *)
Theorem chat_with_claude_without_budget (st : State) (user_message : string)
    (max_retries : Z) :
  clock_in_range world ->
  max_retries <= 0 ->
  chat_with_claude world user_message max_retries st = (inr None, started world st)
  /\ metrics (final (chat_with_claude world user_message max_retries) st) = metrics st.
Proof.
  intros Hclock Hneg. unfold final. rewrite chat_with_claude_started by done.
  unfold range. replace (Z.to_nat max_retries) with 0%nat by lia.
  split; [done|]. by destruct st.
Qed.

End Proofs.

(** * The theorems at sample inputs *)

Lemma sample_clock_in_range answer tool_answer launch :
  clock_in_range (Sample.world answer tool_answer launch).
Proof. intros tr. eexists. vm_compute. reflexivity. Qed.

Lemma sample_unadvertised tool_name : unadvertised tool_name [].
Proof. intros k s []. Qed.

(** A second healthy backend, registered later, lists its tools last. *)
Lemma get_all_tools_healthy_in_order_witness :
  get_all_tools
    (set_server_sessions (dict_set "second" (Sample.session true)) Sample.connected)
  = get_all_tools Sample.connected ++ [tool_def Sample.tool].
Proof.
  destruct (get_all_tools_healthy_in_order Sample.connected) as (_ & _ & _ & H).
  exact (H "second" (Sample.session true) eq_refl).
Defined.

(** [test_execute_tool_not_found], and a backend that raises. *)
Lemma execute_tool_error_results_witness :
  execute_tool Sample.quiet "nonexistent_tool" (JObj []) "req-123" Sample.alone
    = (inr (not_found "nonexistent_tool"), Sample.alone)
  /\ result (execute_tool Sample.failing "test_tool" (JObj []) "req-123") Sample.connected
       = inr (execution_failed Sample.broken).
Proof.
  split.
  - apply (proj1 (execute_tool_error_results Sample.quiet Sample.alone
                    "nonexistent_tool" (JObj []) "req-123")).
    apply sample_unadvertised.
  - apply (proj2 (execute_tool_error_results Sample.failing Sample.connected
                    "test_tool" (JObj []) "req-123")
             [] "test-server" (Sample.session true) []).
    + reflexivity.
    + apply sample_unadvertised.
    + reflexivity.
    + simpl. by left.
    + reflexivity.
Defined.



(** A request with a budget of no attempt. *)
Lemma chat_with_claude_without_budget_witness :
  chat_with_claude Sample.quiet "hello" 0 Sample.connected
    = (inr None, started Sample.quiet Sample.connected)
  /\ metrics (final (chat_with_claude Sample.quiet "hello" 0) Sample.connected) = [].
Proof.
  apply (chat_with_claude_without_budget Sample.quiet Sample.connected "hello" 0).
  - apply sample_clock_in_range.
  - lia.
Defined.

(** [test_metrics_collector_summary] *)
Lemma get_summary_sentinel_and_two_of_three_witness :
  exists summary,
    get_summary Sample.quiet
      [Sample.metric "req-1" 100 105 true; Sample.metric "req-2" 200 203 true;
       Sample.metric "req-3" 300 302 false] = JObj summary
    /\ dict_get "total_requests" summary = Some (JInt 3)
    /\ dict_get "successful" summary = Some (JInt 2)
    /\ dict_get "failed" summary = Some (JInt 1)
    /\ dict_get "success_rate" summary = Some (JStr "66.7%").
Proof.
  destruct (get_summary_sentinel_and_two_of_three Sample.quiet) as (_ & _ & H).
  exact (proj2 (H Sample.alone (Sample.metric "req-1" 100 105 true)
                  (Sample.metric "req-2" 200 203 true)
                  (Sample.metric "req-3" 300 302 false) eq_refl eq_refl)).
Defined.


(** A message sent while no backend is up. *)
Lemma execute_chat_records_user_turn_witness :
  result (_execute_chat Sample.quiet "hello" "req_1") Sample.alone = inr no_tools_text
  /\ conversation_history (final (_execute_chat Sample.quiet "hello" "req_1") Sample.alone)
       = [user_turn "hello"].
Proof.
  destruct (execute_chat_records_user_turn_without_backends Sample.quiet Sample.alone
              "hello" "req_1" eq_refl) as (H1 & H2 & _).
  split; [exact H1|exact H2].
Defined.

(** * Further properties of the session manager *)

Section SessionManagerFacts.

Context (world : World).

(** ** Health checks and the catalog *)

Lemma refreshed_all_healthy items items' :
  Forall2 refreshed items items' ->
  List.filter (fun kv => SessionInfo.healthy (snd kv)) items' = items'
  /\ all_tools_of items' =
       concat (map (fun kv => map tool_def (SessionInfo.tools (snd kv))) items).
Proof.
  induction 1 as [|[k s] [k' s'] items items' (_ & _ & _ & Htools & Hh) _ [IH1 IH2]];
    [done|].
  simpl in *. rewrite Hh, IH1, IH2, Htools. done.
Qed.

(** X1: once [health_check_all] has run, [get_healthy_server_count] is the
    number of registered sessions, no session was added or dropped, and
    [get_all_tools] lists the tools of every session that was registered,
    those of the sessions that were marked unhealthy included. *)
Theorem health_check_all_revives_catalog (st : State) :
  let st' := final (health_check_all world) st in
  get_healthy_server_count st' = Z.of_nat (length (server_sessions st'))
  /\ length (server_sessions st') = length (server_sessions st)
  /\ get_all_tools st' =
       concat (map (fun kv => map tool_def (SessionInfo.tools (snd kv)))
                 (server_sessions st)).
Proof.
  destruct (health_check_from_spec world (server_sessions st) [] st eq_refl)
    as (sessions' & evs & Hrun & Hall & _ & _).
  unfold final, health_check_all, bind, gets. cbn [fst snd].
  change (length (@nil (string * SessionInfo.t))) with 0%nat in Hrun.
  rewrite Hrun. cbn [snd].
  destruct (refreshed_all_healthy _ _ Hall) as [Hfilter Htools].
  unfold get_healthy_server_count, get_all_tools.
  destruct st as [cfgs sessions h ms tr fs]; cbn in *.
  rewrite Hfilter, Htools. split; [done|]. split; [|done].
  symmetry. eapply Forall2_length, Hall.
Qed.

(** ** [execute_tool] *)

Lemma tool_calls_app evs1 evs2 :
  tool_calls (evs1 ++ evs2) = tool_calls evs1 ++ tool_calls evs2.
Proof. unfold tool_calls. apply omap_app. Qed.

Lemma create_requests_app evs1 evs2 :
  create_requests (evs1 ++ evs2) = create_requests evs1 ++ create_requests evs2.
Proof. unfold create_requests. apply omap_app. Qed.

Lemma sleeps_app evs1 evs2 : sleeps (evs1 ++ evs2) = sleeps evs1 ++ sleeps evs2.
Proof. unfold sleeps. apply omap_app. Qed.

Lemma execute_tool_from_total items tool_name tool_input request_id st :
  exists v evs,
    execute_tool_from world items tool_name tool_input request_id st
      = (inr v, set_trace (fun tr => tr ++ evs) st)
    /\ (length (tool_calls evs) <= 1)%nat
    /\ (forall s n a, In (s, n, a) (tool_calls evs) ->
          n = tool_name /\ a = tool_input
          /\ exists k si, In (k, si) items /\ SessionInfo.healthy si = true
                          /\ SessionInfo.session si = s
                          /\ In tool_name (tool_names si))
    /\ create_requests evs = []
    /\ sleeps evs = [].
Proof.
  induction items as [|[k si] rest IH]; simpl.
  - exists (not_found tool_name), []. split; [|by repeat split; simpl; try lia].
    unfold ret, not_found. by rewrite set_trace_nil.
  - destruct (SessionInfo.healthy si) eqn:Hh; cbn [negb].
    + destruct (advertises tool_name si) eqn:Hadv.
      * apply advertises_In in Hadv.
        destruct st as [cfgs sessions h ms tr fs].
        unfold session_call_tool. run_state.
        destruct (call_tool world tr (SessionInfo.session si) tool_name tool_input)
          as [e|contents] eqn:Hcall; rewrite <- ?app_assoc; cbn [app].
        -- eexists _, [_; _]. split; [reflexivity|]. cbn. split; [lia|]. split; [|done].
           intros s n a [[= <- <- <-]|[]]. repeat split. exists k, si. auto.
        -- eexists _, [_]. split; [reflexivity|]. cbn. split; [lia|]. split; [|done].
           intros s n a [[= <- <- <-]|[]]. repeat split. exists k, si. auto.
      * destruct IH as (v & evs & Hrun & Hlen & Hcalls & Hcreate & Hquiet).
        exists v, evs. repeat split; try done.
        all: destruct (Hcalls _ _ _ H) as (? & ? & k' & si' & ? & ?); try done.
        exists k', si'. auto.
    + destruct IH as (v & evs & Hrun & Hlen & Hcalls & Hcreate & Hquiet).
      exists v, evs. repeat split; try done.
      all: destruct (Hcalls _ _ _ H) as (? & ? & k' & si' & ? & ?); try done.
      exists k', si'. auto.
Qed.

(** X2: [execute_tool] never raises and changes nothing but the trace.  It
    calls at most one backend, and only a healthy session that lists the
    tool, with the name and the arguments it was given; it never calls the
    model. *)
Theorem execute_tool_calls_at_most_one_backend (st : State) (tool_name : string)
    (tool_input : json) (request_id : string) :
  exists v evs,
    execute_tool world tool_name tool_input request_id st
      = (inr v, set_trace (fun tr => tr ++ evs) st)
    /\ (length (tool_calls evs) <= 1)%nat
    /\ (forall s n a, In (s, n, a) (tool_calls evs) ->
          n = tool_name /\ a = tool_input
          /\ exists k si, In (k, si) (server_sessions st)
                          /\ SessionInfo.healthy si = true
                          /\ SessionInfo.session si = s
                          /\ In tool_name (tool_names si))
    /\ create_requests evs = [].
Proof.
  unfold execute_tool, bind, gets.
  destruct (execute_tool_from_total (server_sessions st) tool_name tool_input request_id st)
    as (v & evs & Hrun & Hlen & Hcalls & Hcreate & _).
  by exists v, evs.
Qed.

(** X3: the two ways a backend can answer with nothing.  An empty content
    list gives the fixed result "No content"; a content list that is not
    empty but whose text is empty is not JSON, so it comes back wrapped, as
    the empty string. *)
Theorem execute_tool_without_text (st : State) (tool_name : string) (tool_input : json)
    (request_id : string) l1 k s l2 (contents : list Content) :
  server_sessions st = l1 ++ (k, s) :: l2 ->
  unadvertised tool_name l1 ->
  SessionInfo.healthy s = true ->
  In tool_name (tool_names s) ->
  call_tool world (trace st) (SessionInfo.session s) tool_name tool_input = inr contents ->
  content_text contents = "" ->
  result (execute_tool world tool_name tool_input request_id) st =
    inr (JObj [("success", JBool true);
               ("result", JStr (match contents with [] => "No content" | _ => "" end))]).
Proof.
  intros Hs Hun Hh Hin Hcall Htext. unfold result.
  rewrite (execute_tool_at world l1 k s l2) by done.
  cbv zeta. rewrite Hcall. cbn [fst]. unfold parse_result.
  destruct contents as [|c rest]; [done|].
  rewrite Htext. reflexivity.
Qed.

End SessionManagerFacts.

Lemma execute_tool_without_text_witness :
  result (execute_tool (Sample.world (inr Sample.hello) (inr []) (inl Sample.broken))
            "test_tool" (JObj []) "req-1") Sample.connected
    = inr (JObj [("success", JBool true); ("result", JStr "No content")])
  /\ result (execute_tool
               (Sample.world (inr Sample.hello) (inr [TextContent ""]) (inl Sample.broken))
               "test_tool" (JObj []) "req-1") Sample.connected
       = inr (JObj [("success", JBool true); ("result", JStr "")]).
Proof.
  split.
  - apply (execute_tool_without_text _ Sample.connected "test_tool" (JObj []) "req-1"
             [] "test-server" (Sample.session true) [] []);
      [reflexivity|apply sample_unadvertised|reflexivity|by left|reflexivity|reflexivity].
  - apply (execute_tool_without_text _ Sample.connected "test_tool" (JObj []) "req-1"
             [] "test-server" (Sample.session true) [] [TextContent ""]);
      [reflexivity|apply sample_unadvertised|reflexivity|by left|reflexivity|reflexivity].
Defined.

(** * Further properties of configuration loading and start-up *)

Section ConfigurationFacts.

Context (world : World).

(** ** Descriptors *)







(** ** [load_configuration] on a file that exists *)

Lemma load_configuration_reads (st : State) (path text : string) :
  files st !! path = Some text ->
  load_configuration world path st =
    let st1 := set_trace (fun tr => tr ++ [EvLog INFO ("📁 Loading config from " +:+ path)])
                 st in
    match json_load world text with
    | inl e => (inl e, st1)
    | inr config_data =>
        match get_servers config_data with
        | inl e => (inl e, st1)
        | inr servers =>
            match iterate servers with
            | inl e => (inl e, st1)
            | inr items =>
                match configs_of items with
                | inl e => (inl e, st1)
                | inr cfgs => (inr tt, set_server_configs (fun _ => cfgs) st1)
                end
            end
        end
    end.
Proof.
  intros Hfile. unfold load_configuration, bind at 1, gets. rewrite Hfile.
  destruct st as [cfgs0 sessions h ms tr fs]. run_state.
  destruct (json_load world text) as [e|config_data]; [done|].
  destruct (get_servers config_data) as [e|servers]; [done|].
  destruct (iterate servers) as [e|items]; [done|].
  by destruct (configs_of items) as [e|cfgs].
Qed.

Lemma load_configuration_outcome (st : State) (path text : string) :
  files st !! path = Some text ->
  let st1 := set_trace (fun tr => tr ++ [EvLog INFO ("📁 Loading config from " +:+ path)])
               st in
  (exists e, load_configuration world path st = (inl e, st1))
  \/ (exists cfgs, load_configuration world path st
                     = (inr tt, set_server_configs (fun _ => cfgs) st1)).
Proof.
  intros Hfile. rewrite (load_configuration_reads _ _ _ Hfile). cbv zeta.
  destruct (json_load world text) as [e|config_data]; [by left; eexists|].
  destruct (get_servers config_data) as [e|servers]; [by left; eexists|].
  destruct (iterate servers) as [e|items]; [by left; eexists|].
  destruct (configs_of items) as [e|cfgs]; [by left; eexists|by right; eexists].
Qed.


(** ** [initialize_servers] when no backend comes up *)

Lemma set_enabled_false_disabled c :
  MCPServerConfig.enabled c = false -> MCPServerConfig.set_enabled false c = c.
Proof. destruct c; simpl. by intros ->. Qed.

Lemma initialize_servers_from_disabled configs i st :
  Forall (fun c => MCPServerConfig.enabled c = false) configs ->
  initialize_servers_from world i configs st = (inr tt, st).
Proof.
  intros Hall. revert i. induction Hall as [|c configs Hc _ IH]; intros i; [done|].
  simpl. unfold bind, initialize_servers_body. rewrite Hc. simpl. apply IH.
Qed.

Lemma initialize_servers_from_all_fail configs :
  no_backend_comes_up world ->
  forall pre st,
    server_configs st = pre ++ configs ->
    exists evs,
      initialize_servers_from world (length pre) configs st =
        (inr tt,
         set_trace (fun tr => tr ++ evs)
           (set_server_configs
              (fun _ => pre ++ map (MCPServerConfig.set_enabled false) configs) st))
      /\ connect_requests evs
           = map (server_params world) (List.filter MCPServerConfig.enabled configs).
Proof.
  intros Hfail. induction configs as [|c configs IH]; intros pre st Hcfgs.
  - exists []. split; [|done]. simpl. unfold ret.
    destruct st; simpl in *. subst. unfold set_trace, set_server_configs; simpl.
    by rewrite !app_nil_r.
  - simpl. unfold bind at 1.
    destruct (initialize_servers_body_cases world (length pre) c st)
      as [[Hoff Hrun]|[Hon (evs & Hreq & [(backend & t & evs0 & Hup & _)|(e & evs0 & _ & Hrun)])]].
    + rewrite Hrun.
      destruct (IH (pre ++ [c]) st) as (evs & Hrest & Hreq).
      { by rewrite <- app_assoc. }
      rewrite length_app, Nat.add_1_r in Hrest. rewrite Hrest.
      exists evs. rewrite Hoff. split; [|done].
      by rewrite set_enabled_false_disabled, <- app_assoc.
    + destruct (Hfail (trace st ++ evs0) (server_params world c)) as [e He]. congruence.
    + rewrite Hrun. set (st1 := set_trace _ _).
      destruct (IH (pre ++ [MCPServerConfig.set_enabled false c]) st1) as (evs' & Hrest & Hreq').
      { subst st1. destruct st; simpl in *. rewrite Hcfgs.
        replace (length pre) with (length pre + 0)%nat by lia.
        rewrite alter_app_r. simpl. by rewrite <- app_assoc. }
      rewrite length_app, Nat.add_1_r in Hrest. rewrite Hrest.
      exists (evs ++ evs'). rewrite Hon. split.
      * subst st1. destruct st; unfold set_trace, set_server_configs; simpl.
        by rewrite <- !app_assoc.
      * unfold connect_requests in *. rewrite omap_app, Hreq, Hreq'. done.
Qed.

(** X6: when no backend comes up, [initialize_servers] still returns
    normally after trying every enabled descriptor once: no session is
    registered, every descriptor ends up disabled (and is otherwise
    unchanged), and running [initialize_servers] again does nothing at all. *)
Theorem initialize_servers_without_backends (st : State) :
  no_backend_comes_up world ->
  let st' := final (initialize_servers world) st in
  result (initialize_servers world) st = inr tt
  /\ server_sessions st' = server_sessions st
  /\ server_configs st' = map (MCPServerConfig.set_enabled false) (server_configs st)
  /\ connect_requests (trace st')
       = connect_requests (trace st)
         ++ map (server_params world)
              (List.filter MCPServerConfig.enabled (server_configs st))
  /\ initialize_servers world st' = (inr tt, st').
Proof.
  intros Hfail.
  destruct (initialize_servers_from_all_fail (server_configs st) Hfail [] st eq_refl)
    as (evs & Hrun & Hreq).
  change (length (@nil MCPServerConfig.t)) with 0%nat in Hrun.
  assert (Hinit : initialize_servers world st =
            (inr tt, set_trace (fun tr => tr ++ evs)
                       (set_server_configs
                          (fun _ => map (MCPServerConfig.set_enabled false)
                                      (server_configs st)) st))).
  { unfold initialize_servers, bind, gets. exact Hrun. }
  unfold final, result. rewrite Hinit. cbn [fst snd].
  destruct st as [cfgs sessions h ms tr fs].
  cbn [trace server_sessions server_configs set_trace set_server_configs] in *.
  split; [done|]. split; [done|]. split; [done|]. split.
  - unfold connect_requests in *. by rewrite omap_app, Hreq.
  - unfold initialize_servers, bind, gets. apply initialize_servers_from_disabled.
    cbn. apply Forall_forall. intros c Hin.
    apply list_elem_of_In, in_map_iff in Hin. by destruct Hin as (c0 & <- & _).
Qed.

End ConfigurationFacts.

Lemma sample_no_backend answer tool_answer :
  no_backend_comes_up (Sample.world answer tool_answer (inl Sample.broken)).
Proof. intros tr params. by exists Sample.broken. Qed.


Lemma initialize_servers_without_backends_witness :
  let st := set_server_configs (fun _ => [default_descriptor]) Sample.alone in
  let st' := final (initialize_servers Sample.quiet) st in
  result (initialize_servers Sample.quiet) st = inr tt
  /\ server_sessions st' = []
  /\ server_configs st' = [MCPServerConfig.set_enabled false default_descriptor]
  /\ connect_requests (trace st') = [server_params Sample.quiet default_descriptor]
  /\ initialize_servers Sample.quiet st' = (inr tt, st').
Proof.
  apply (initialize_servers_without_backends Sample.quiet
           (set_server_configs (fun _ => [default_descriptor]) Sample.alone)).
  apply sample_no_backend.
Defined.

(** * Further properties of [MCPClient.initialize] *)

Section InitializeFacts.

Context (world : World).


Lemma connect_requests_app evs1 evs2 :
  connect_requests (evs1 ++ evs2) = connect_requests evs1 ++ connect_requests evs2.
Proof. unfold connect_requests. apply omap_app. Qed.




End InitializeFacts.

(** * Further properties of an exchange with the model *)

Section ExchangeFacts.

Context (world : World).

Lemma run_tools_spec request_id blocks : forall st,
  exists results evs,
    run_tools world request_id blocks st = (inr results, set_trace (fun tr => tr ++ evs) st)
    /\ map tool_use_id results = tool_use_ids blocks
    /\ create_requests evs = []
    /\ sleeps evs = []
    /\ (length (tool_calls evs) <= length (tool_use_ids blocks))%nat.
Proof.
  induction blocks as [|b blocks IH]; intros st.
  - exists [], []. cbn. unfold ret. by rewrite set_trace_nil.
  - destruct b as [text|tool_id tool_name tool_input|type]; cbn [run_tools tool_use_ids omap];
      try apply IH.
    unfold bind at 1, log, emit, modify. unfold bind at 1, execute_tool.
    unfold bind at 1, gets.
    set (st1 := set_trace _ st).
    destruct (execute_tool_from_total world (server_sessions st1) tool_name tool_input
                request_id st1) as (v & evs1 & -> & Hlen & _ & Hcreate & Hquiet).
    unfold bind. destruct (IH (set_trace (fun tr => tr ++ evs1) st1))
      as (results & evs2 & -> & Hids & Hcreate2 & Hquiet2 & Hlen2).
    unfold ret.
    exists ({| tool_use_id := tool_id; result_text := json_dumps world v |} :: results),
      (EvLog INFO ("🎯 [" +:+ request_id +:+ "] Executing tool: " +:+ tool_name)
         :: evs1 ++ evs2).
    split; [|split; [|split; [|split]]].
    + subst st1. destruct st; unfold set_trace; cbn. by rewrite <- !app_assoc.
    + cbn. by rewrite Hids.
    + cbn. by rewrite create_requests_app, Hcreate, Hcreate2.
    + cbn. by rewrite sleeps_app, Hquiet, Hquiet2.
    + cbn. rewrite tool_calls_app, length_app. fold (tool_use_ids blocks). lia.
Qed.

(** The exchange after a first answer that asks for tools. *)
Lemma finish_exchange_tool_use request_id response st :
  stop_reason response = "tool_use" ->
  exists results evs,
    let st1 :=
      set_conversation_history
        (fun h => h ++ [assistant_turn (response_content response);
                        tool_results_turn results])
        (set_trace (fun tr => tr ++
           EvLog INFO ("🛠️ [" +:+ request_id +:+ "] Claude requested tool use") :: evs) st) in
    let request := second_request (conversation_history st1) in
    let answer := messages_create world (trace st1) request in
    let st2 := set_trace (fun tr => tr ++ [EvCreate request answer]) st1 in
    finish_exchange world request_id response st =
      match answer with
      | inl e => (inl e, st2)
      | inr final_response =>
          (first_text (response_content final_response),
           set_conversation_history
             (fun h => h ++ [assistant_turn (response_content final_response)]) st2)
      end
    /\ map tool_use_id results = tool_use_ids (response_content response)
    /\ create_requests evs = []
    /\ sleeps evs = []
    /\ (length (tool_calls evs) <= length (tool_use_ids (response_content response)))%nat.
Proof.
  intros Hstop. unfold finish_exchange. rewrite Hstop. cbn [String.eqb Ascii.eqb Bool.eqb].
  unfold bind at 1, log, emit, modify. unfold bind at 1.
  set (st0 := set_trace _ st).
  destruct (run_tools_spec request_id (response_content response) st0)
    as (results & evs & -> & Hids & Hcreate & Hquiet & Hlen).
  exists results, evs. cbv zeta. split; [|done].
  subst st0. destruct st as [cfgs sessions h ms tr fs].
  unfold append_history, create, second_request, assistant_turn, tool_results_turn.
  run_state.
  destruct (messages_create world _ _) as [e|final_response]; [reflexivity|].
  unfold lift. reflexivity.
Qed.

(** The exchange after any other first answer. *)
Lemma finish_exchange_plain request_id response st :
  stop_reason response <> "tool_use" ->
  finish_exchange world request_id response st =
    (first_text (response_content response),
     set_conversation_history
       (fun h => h ++ [assistant_turn (response_content response)]) st).
Proof.
  intros Hstop. unfold finish_exchange.
  destruct (String.eqb_spec (stop_reason response) "tool_use"); [done|].
  reflexivity.
Qed.



(** An exchange takes no pause. *)
Lemma execute_chat_never_sleeps user_message request_id st :
  sleeps (trace (final (_execute_chat world user_message request_id) st))
    = sleeps (trace st).
Proof.
  unfold final. destruct (get_all_tools st) as [|td tds] eqn:Htools.
  - rewrite execute_chat_no_tools by done. destruct st; cbn.
    rewrite sleeps_app. cbn. by rewrite app_nil_r.
  - rewrite execute_chat_with_tools by (by rewrite Htools).
    assert (Hafter : sleeps (trace (after_call world user_message request_id st))
                     = sleeps (trace st)).
    { destruct st; cbn. rewrite <- app_assoc, sleeps_app. cbn. by rewrite app_nil_r. }
    destruct (first_answer world user_message request_id st) as [e|response]; [done|].
    destruct (String.eqb_spec (stop_reason response) "tool_use") as [Hstop|Hstop].
    + destruct (finish_exchange_tool_use request_id response
                  (after_call world user_message request_id st) Hstop)
        as (results & evs & Hrun & _ & _ & Hquiet & _).
      cbv zeta in Hrun. rewrite Hrun. clear Hrun. rewrite <- Hafter.
      destruct (after_call world user_message request_id st)
        as [cfgs sessions h ms tr fs].
      destruct (messages_create world _ _); cbn;
        rewrite <- app_assoc, sleeps_app; cbn; rewrite sleeps_app, Hquiet; cbn;
        by rewrite app_nil_r.
    + rewrite finish_exchange_plain by done. rewrite <- Hafter.
      by destruct (after_call world user_message request_id st).
Qed.

End ExchangeFacts.



(** * Further properties of [chat_with_claude] *)

Section ChatFacts.

Context (world : World).

Lemma range_pos n : 1 <= n -> range n = 0 :: map Z.of_nat (seq 1 (Z.to_nat n - 1)).
Proof.
  intros Hn. unfold range. destruct (Z.to_nat n) as [|m] eqn:Hm; [lia|].
  cbn. by rewrite Nat.sub_0_r.
Qed.

(** The first pass through the loop when the exchange raises anything but
    a timeout or a rate limit. *)
Lemma chat_with_claude_other_error user_message max_retries st e st1 type_name :
  clock_in_range world ->
  1 <= max_retries ->
  _execute_chat world user_message (request_id_in world st) (started world st)
    = (inl e, st1) ->
  exn_type e = OtherError type_name ->
  chat_with_claude world user_message max_retries st =
    let logged := EvLog ERROR ("❌ [" +:+ request_id_in world st +:+ "] Error: "
                               +:+ exn_text e) in
    let t := time_time world (trace st1 ++ [logged]) in
    (inr (Some ("❌ Error: " +:+ exn_text e)),
     set_metrics (fun l => l ++ [failed_metric (request_metrics_in world st) type_name t])
       (set_trace (fun tr => tr ++ [logged; EvTime t]) st1)).
Proof.
  intros Hclock Hpos Hrun Hclass.
  rewrite chat_with_claude_started, range_pos by done.
  cbn [chat_attempts]. unfold bind.
  by rewrite (chat_attempt_other world _ _ _ _ _ _ e st1 type_name Hrun Hclass).
Qed.

(** X10: an answer without any content block is not retried.  The
    [IndexError] of [content[0]] is caught by [chat_with_claude]: the
    caller gets the error text, the request is recorded as a failure of
    type [IndexError], no pause is taken, and the history keeps both the
    user turn and the empty answer. *)
Theorem chat_with_claude_answer_without_text (st : State) (user_message : string)
    (max_retries : Z) (response : Response) :
  clock_in_range world ->
  1 <= max_retries ->
  get_all_tools st <> [] ->
  first_answer world user_message (request_id_in world st) (started world st)
    = inr response ->
  stop_reason response <> "tool_use" ->
  response_content response = [] ->
  let st' := final (chat_with_claude world user_message max_retries) st in
  result (chat_with_claude world user_message max_retries) st
    = inr (Some "❌ Error: list index out of range")
  /\ conversation_history st'
       = conversation_history st ++ [user_turn user_message; assistant_turn []]
  /\ (exists t, metrics st'
        = metrics st ++ [failed_metric (request_metrics_in world st) "IndexError" t])
  /\ sleeps (trace st') = sleeps (trace st)
  /\ length (create_requests (trace st')) = S (length (create_requests (trace st))).
Proof.
  intros Hclock Hpos Hsome Hanswer Hstop Hempty.
  assert (Hsome' : get_all_tools (started world st) <> []) by (by destruct st).
  pose proof (execute_chat_with_tools world user_message (request_id_in world st)
                (started world st) Hsome') as Hrun.
  rewrite Hanswer, finish_exchange_plain, Hempty in Hrun by done.
  cbn [first_text] in Hrun.
  unfold final, result.
  rewrite (chat_with_claude_other_error _ _ _ _ _ "IndexError" Hclock Hpos Hrun eq_refl).
  cbv zeta. cbn [fst snd exn_text error].
  split; [done|].
  destruct st as [cfgs sessions h ms tr fs].
  unfold after_call, before_call, started.
  cbn [trace conversation_history metrics set_trace set_conversation_history set_metrics].
  rewrite <- !app_assoc. cbn [app].
  split; [done|]. split; [by eexists|].
  rewrite !sleeps_app, !create_requests_app, length_app. cbn.
  split; [by rewrite app_nil_r|lia].
Qed.

(** X11: every attempt appends the user message again.  When the model
    fails with a timeout (or a rate limit) on every attempt, the history
    ends up with as many copies of the user turn as there were attempts,
    and the one metric recorded is a failure labelled [timeout] (or
    [rate_limit]) that carries the request id and start time made up on
    entry. *)
Theorem chat_with_claude_retries_repeat_user_turn (st : State) (user_message : string)
    (max_retries : Z) (k : Retryable) :
  clock_in_range world ->
  get_all_tools st <> [] ->
  1 <= max_retries ->
  model_always_raises world k ->
  let st' := final (chat_with_claude world user_message max_retries) st in
  conversation_history st'
    = conversation_history st ++ replicate (Z.to_nat max_retries) (user_turn user_message)
  /\ (exists t, metrics st'
        = metrics st ++ [failed_metric (request_metrics_in world st) (error_label k) t])
  /\ RequestMetrics.request_id (request_metrics_in world st) = request_id_in world st
  /\ server_sessions st' = server_sessions st.
Proof.
  intros Hclock Hsome Hpos Hraises. unfold final.
  rewrite chat_with_claude_started by done.
  destruct (Z.to_nat max_retries) as [|m] eqn:Hm; [lia|].
  unfold range. rewrite Hm.
  destruct (retry_loop world k user_message max_retries (request_id_in world st)
              (request_metrics_in world st) Hraises m 0%nat (started world st))
    as (st' & evs & t & Hrun & _ & _ & _ & _ & Hms & Hss & Hh); [lia|by destruct st|].
  rewrite Hrun. cbn [snd]. rewrite Hh, Hms, Hss.
  split; [by destruct st|]. split; [by exists t; destruct st|]. split; [done|by destruct st].
Qed.

(** ** What escapes *)

Lemma chat_attempts_never_raise user_message max_retries request_id start_time attempts :
  forall st, exists r st',
    chat_attempts world user_message max_retries request_id
      (RequestMetrics.new request_id start_time) attempts st = (inr r, st')
    /\ server_sessions st' = server_sessions st.
Proof.
  induction attempts as [|attempt rest IH]; intros st; [by eexists _, _|].
  cbn [chat_attempts]. unfold bind.
  pose proof (chat_attempt_outcome world user_message max_retries request_id start_time
                attempt st) as [Hss H]. cbv zeta in H, Hss.
  destruct (chat_attempt world user_message max_retries request_id
              (RequestMetrics.new request_id start_time) attempt st) as [r st1].
  cbn [fst snd] in H, Hss.
  destruct H as [(text & m & -> & _)|(-> & _)]; [by eexists _, _|].
  destruct (IH st1) as (r & st' & -> & Hss'). exists r, st'. split; [done|congruence].
Qed.

(** How [chat_with_claude] can end: with the exception of
    [int(time.time() * 1000)], raised before anything else was done, or
    with a value; the sessions are as before either way. *)
Lemma chat_with_claude_cases (st : State) (user_message : string) (max_retries : Z) :
  let t := time_time world (trace st) in
  (exists e,
     Float.to_int (Float.mul t (Float.of_Z 1000)) = inl e
     /\ chat_with_claude world user_message max_retries st
          = (inl e, set_trace (fun tr => tr ++ [EvTime t]) st))
  \/ (exists millis r st',
        Float.to_int (Float.mul t (Float.of_Z 1000)) = inr millis
        /\ chat_with_claude world user_message max_retries st = (inr r, st')
        /\ server_sessions st' = server_sessions st).
Proof.
  cbv zeta.
  destruct (Float.to_int (Float.mul (time_time world (trace st)) (Float.of_Z 1000)))
    as [e|millis] eqn:Hmillis;
    unfold chat_with_claude; unfold bind at 1, now; unfold bind at 1, lift;
    cbn [trace set_trace]; rewrite ?Hmillis; [left; by exists e|right].
  unfold bind, log, emit, modify. rewrite ?Hmillis.
  match goal with
  | |- context [chat_attempts _ _ _ ?id (RequestMetrics.new ?id ?start) ?l ?s] =>
      destruct (chat_attempts_never_raise user_message max_retries id start l s)
        as (r & st' & -> & Hss)
  end.
  exists millis, r, st'. split; [done|]. split; [done|]. rewrite Hss. by destruct st.
Qed.

(** X12: the only exception that escapes [chat_with_claude] is the one
    [int(time.time() * 1000)] raises when the clock shows an infinity or
    a NaN; it escapes before anything is logged, recorded or appended.
    In every other case a value comes back, whatever the budget, the
    model and the backends do. *)
Theorem chat_with_claude_raises_only_for_clock (st : State) (user_message : string)
    (max_retries : Z) :
  let t := time_time world (trace st) in
  match Float.to_int (Float.mul t (Float.of_Z 1000)) with
  | inl e =>
      chat_with_claude world user_message max_retries st
        = (inl e, set_trace (fun tr => tr ++ [EvTime t]) st)
  | inr _ => exists r, result (chat_with_claude world user_message max_retries) st = inr r
  end.
Proof.
  cbv zeta.
  destruct (chat_with_claude_cases st user_message max_retries)
    as [(e & -> & Hrun)|(millis & r & st' & -> & Hrun & _)]; [done|].
  exists r. unfold result. by rewrite Hrun.
Qed.

(** X13: when the first exchange goes through, its text comes back as it
    is: no pause is taken, and the one metric recorded is a success that
    carries the request id [req_] followed by the milliseconds of the
    clock on entry, and an end time. *)
Theorem chat_with_claude_first_exchange_returns (st : State) (user_message : string)
    (max_retries : Z) (text : string) :
  clock_in_range world ->
  1 <= max_retries ->
  result (_execute_chat world user_message (request_id_in world st)) (started world st)
    = inr text ->
  let st' := final (chat_with_claude world user_message max_retries) st in
  result (chat_with_claude world user_message max_retries) st = inr (Some text)
  /\ sleeps (trace st') = sleeps (trace st)
  /\ exists metric,
       metrics st' = metrics st ++ [metric]
       /\ RequestMetrics.success metric = true
       /\ RequestMetrics.error_type metric = None
       /\ is_Some (RequestMetrics.end_time metric)
       /\ RequestMetrics.start_time metric = start_time_in world st
       /\ exists millis,
            Float.to_int (Float.mul (time_time world (trace st)) (Float.of_Z 1000))
              = inr millis
            /\ RequestMetrics.request_id metric = "req_" +:+ Str.of_int millis.
Proof.
  intros Hclock Hpos Hrun. unfold final, result in *.
  rewrite chat_with_claude_started, range_pos by done.
  cbn [chat_attempts]. unfold bind.
  destruct (_execute_chat world user_message (request_id_in world st) (started world st))
    as [r st1] eqn:Hexchange.
  cbn [fst] in Hrun. subst r.
  rewrite (chat_attempt_returned world _ _ _ _ _ _ text st1 Hexchange).
  cbv zeta. unfold ret. cbn [fst snd]. split; [done|].
  pose proof (execute_chat_never_sleeps world user_message (request_id_in world st)
                (started world st)) as Hquiet.
  pose proof (frame_execute_chat world user_message (request_id_in world st)
                (started world st)) as Hframe.
  unfold final in Hframe, Hquiet. rewrite Hexchange in Hframe, Hquiet.
  destruct Hframe as (_ & _ & Hms & _). cbn [snd] in *.
  destruct (Hclock (trace st)) as [millis Hmillis].
  destruct st1 as [cfgs1 sessions1 h1 ms1 tr1 fs1], st as [cfgs sessions h ms tr fs].
  cbn [trace metrics set_trace set_metrics started] in *. subst ms1.
  split.
  - rewrite sleeps_app, Hquiet, sleeps_app. cbn. by rewrite !app_nil_r.
  - eexists. split; [reflexivity|]. cbn. repeat split; try done.
    exists millis. split; [done|]. unfold request_id_in. cbn [trace]. by rewrite Hmillis.
Qed.

End ChatFacts.

Lemma chat_with_claude_answer_without_text_witness :
  result (chat_with_claude Example.speechless "hello" 3) Sample.connected
    = inr (Some "❌ Error: list index out of range")
  /\ conversation_history (final (chat_with_claude Example.speechless "hello" 3)
                             Sample.connected)
       = [user_turn "hello"; assistant_turn []].
Proof.
  destruct (chat_with_claude_answer_without_text Example.speechless Sample.connected
              "hello" 3 Example.no_blocks) as (H1 & H2 & _);
    [apply sample_clock_in_range|lia|discriminate|reflexivity|discriminate|reflexivity|].
  split; [exact H1|exact H2].
Defined.

Lemma chat_with_claude_retries_repeat_user_turn_witness :
  conversation_history (final (chat_with_claude Sample.timing_out "hello" 3) Sample.connected)
    = [user_turn "hello"; user_turn "hello"; user_turn "hello"].
Proof.
  destruct (chat_with_claude_retries_repeat_user_turn Sample.timing_out Sample.connected
              "hello" 3 TimedOut) as (H & _);
    [apply sample_clock_in_range|discriminate|lia| |exact H].
  intros tr req. exists Sample.timeout. by split.
Defined.

Lemma chat_with_claude_first_exchange_returns_witness :
  result (chat_with_claude Sample.quiet "hello" 3) Sample.connected = inr (Some "Hello.")
  /\ sleeps (trace (final (chat_with_claude Sample.quiet "hello" 3) Sample.connected)) = [].
Proof.
  destruct (chat_with_claude_first_exchange_returns Sample.quiet Sample.connected
              "hello" 3 "Hello.") as (H1 & H2 & _);
    [apply sample_clock_in_range|lia|reflexivity|].
  split; [exact H1|exact H2].
Defined.

(** * Further properties of the metrics and of the history *)

Section MetricsFacts.

Context (world : World).

Lemma filter_length_le {A} (f : A -> bool) (l : list A) :
  (length (List.filter f l) <= length l)%nat.
Proof. induction l as [|x l IH]; simpl; [lia|]. destruct (f x); simpl; lia. Qed.

Lemma get_summary_fields (l : list RequestMetrics.t) :
  l <> [] ->
  exists rate avg,
    get_summary world l =
      JObj [("total_requests", JInt (Z.of_nat (length l)));
            ("successful", JInt (successes l));
            ("failed", JInt (Z.of_nat (length l) - successes l));
            ("success_rate", JStr rate);
            ("avg_duration_seconds", JStr avg)].
Proof. destruct l as [|m l]; [done|]. intros _. by eexists _, _. Qed.

Lemma successes_app l1 l2 : successes (l1 ++ l2) = successes l1 + successes l2.
Proof. unfold successes. rewrite List.filter_app, length_app. lia. Qed.

(** X14: the counts of [get_summary] add up.  After [add_metric] the
    summary counts one request more than there were; [successful] grows by
    one exactly when the new metric is a success; and [successful] and
    [failed] are never negative and sum to [total_requests]. *)
Theorem get_summary_counts_add_up (st : State) (m : RequestMetrics.t) :
  let summary := get_summary world (metrics (final (add_metric m) st)) in
  let total := Z.of_nat (length (metrics st)) + 1 in
  let successful := successes (metrics st) + (if RequestMetrics.success m then 1 else 0) in
  summary_field "total_requests" summary = Some (JInt total)
  /\ summary_field "successful" summary = Some (JInt successful)
  /\ summary_field "failed" summary = Some (JInt (total - successful))
  /\ 0 <= successful <= total.
Proof.
  cbv zeta. unfold final, add_metric, modify. cbn [snd].
  replace (metrics (set_metrics (fun l => l ++ [m]) st)) with (metrics st ++ [m])
    by (by destruct st).
  destruct (get_summary_fields (metrics st ++ [m])) as (rate & avg & ->);
    [by destruct (metrics st)|].
  rewrite successes_app, length_app, Nat2Z.inj_add. cbn [length].
  replace (successes [m]) with (if RequestMetrics.success m then 1 else 0)
    by (unfold successes; cbn; by destruct (RequestMetrics.success m)).
  cbn. repeat split; try done.
  - unfold successes. destruct (RequestMetrics.success m); lia.
  - unfold successes. pose proof (filter_length_le RequestMetrics.success (metrics st)).
    destruct (RequestMetrics.success m); lia.
Qed.

Lemma durations_app l1 l2 : durations (l1 ++ l2) = durations l1 ++ durations l2.
Proof.
  induction l1 as [|m l1 IH]; [done|]. cbn.
  destruct (RequestMetrics.end_time m) as [t|]; [|done].
  destruct (Float.truthy t); [|done]. by rewrite <- app_comm_cons, IH.
Qed.

(** X15: a metric without an end time, or with the end time 0.0, is left
    out of the sum of durations, yet it counts in [total_requests], by
    which the sum is divided. *)
Theorem get_summary_skips_unfinished (l : list RequestMetrics.t) (m : RequestMetrics.t) :
  RequestMetrics.end_time m = None
  \/ (exists sign, RequestMetrics.end_time m = Some (S754_zero sign)) ->
  durations (l ++ [m]) = durations l
  /\ sum_durations world (l ++ [m]) = sum_durations world l
  /\ summary_field "total_requests" (get_summary world (l ++ [m]))
       = Some (JInt (Z.of_nat (length l) + 1)).
Proof.
  intros Hend.
  assert (Hd : durations (l ++ [m]) = durations l).
  { rewrite durations_app. cbn. destruct Hend as [->|[sign ->]]; cbn; by rewrite app_nil_r. }
  split; [done|]. split; [unfold sum_durations; by rewrite Hd|].
  destruct (get_summary_fields (l ++ [m])) as (rate & avg & ->); [by destruct l|].
  cbn. rewrite length_app. cbn. do 2 f_equal. lia.
Qed.

(** X16: [MetricsCollector.clear] leaves nothing behind.  The summary is
    the sentinel again, a metric added afterwards is the only one counted,
    and the sessions, the history and the trace are not touched. *)
Theorem clear_restarts_the_summary (st : State) (m : RequestMetrics.t) :
  let st1 := final MetricsCollector.clear st in
  MetricsCollector.clear st = (inr tt, st1)
  /\ get_summary world (metrics st1) = JObj [("message", JStr "No metrics available")]
  /\ summary_field "total_requests" (get_summary world (metrics (final (add_metric m) st1)))
       = Some (JInt 1)
  /\ server_sessions st1 = server_sessions st
  /\ conversation_history st1 = conversation_history st
  /\ trace st1 = trace st.
Proof. destruct st. cbv zeta. cbn. repeat split. Qed.

Lemma healthy_count_bounds (st : State) :
  0 <= get_healthy_server_count st <= Z.of_nat (length (server_sessions st)).
Proof.
  unfold get_healthy_server_count.
  pose proof (filter_length_le (fun kv => SessionInfo.healthy (snd kv)) (server_sessions st)).
  lia.
Qed.

(** X17: [get_metrics_summary] is the summary of the collector with two
    more entries, the number of healthy sessions and the number of
    sessions, the first never above the second.  Every other entry is that
    of [get_summary]; without any metric the sentinel entry is still there. *)
Theorem get_metrics_summary_adds_server_counts (st : State) :
  exists base summary,
    get_summary world (metrics st) = JObj base
    /\ get_metrics_summary world st = JObj summary
    /\ dict_get "healthy_servers" summary = Some (JInt (get_healthy_server_count st))
    /\ dict_get "total_servers" summary
         = Some (JInt (Z.of_nat (length (server_sessions st))))
    /\ 0 <= get_healthy_server_count st <= Z.of_nat (length (server_sessions st))
    /\ (forall k, k <> "healthy_servers" -> k <> "total_servers" ->
          dict_get k summary = dict_get k base)
    /\ (metrics st = [] ->
          dict_get "message" summary = Some (JStr "No metrics available")).
Proof.
  assert (Hbase : exists base, get_summary world (metrics st) = JObj base).
  { destruct (metrics st); by eexists. }
  destruct Hbase as [base Hbase]. unfold get_metrics_summary. rewrite Hbase.
  eexists base, _. split; [done|]. split; [reflexivity|].
  assert (Hother : forall k, k <> "healthy_servers" -> k <> "total_servers" ->
            dict_get k (dict_set "total_servers"
                          (JInt (Z.of_nat (length (server_sessions st))))
                          (dict_set "healthy_servers"
                             (JInt (get_healthy_server_count st)) base))
            = dict_get k base).
  { intros k H1 H2. by rewrite !dict_get_set_ne. }
  split; [by rewrite dict_get_set_ne, dict_get_set_eq|].
  split; [by rewrite dict_get_set_eq|].
  split; [apply healthy_count_bounds|]. split; [exact Hother|].
  intros Hnone. rewrite Hother by done. rewrite Hnone in Hbase. by injection Hbase as <-.
Qed.

(** X18: [clear_conversation] empties the history and nothing else: the
    metrics, the sessions and the descriptors stay.  The first request of
    the next exchange then carries the new user message alone. *)
Theorem clear_conversation_forgets_history (st : State)
    (user_message request_id : string) :
  let st1 := final clear_conversation st in
  let st2 := final (_execute_chat world user_message request_id) st1 in
  clear_conversation st
    = (inr tt, set_trace (fun tr => tr ++ [EvLog INFO "🗑️ Conversation history cleared"])
                 (set_conversation_history (fun _ => []) st))
  /\ conversation_history st1 = []
  /\ metrics st1 = metrics st
  /\ server_sessions st1 = server_sessions st
  /\ server_configs st1 = server_configs st
  /\ (get_all_tools st <> [] ->
        exists request rest,
          create_requests (trace st2) = create_requests (trace st) ++ request :: rest
          /\ messages request = [user_turn user_message]
          /\ req_tools request = Some (get_all_tools st)).
Proof.
  cbv zeta.
  set (st1 := set_trace (fun tr => tr ++ [EvLog INFO "🗑️ Conversation history cleared"])
                (set_conversation_history (fun _ => []) st)).
  assert (Hclear : clear_conversation st = (inr tt, st1)) by (by destruct st).
  unfold final. rewrite Hclear. cbn [snd].
  split; [done|].
  split; [by destruct st|]. split; [by destruct st|]. split; [by destruct st|].
  split; [by destruct st|].
  intros Hsome.
  assert (Hsome1 : get_all_tools st1 <> []) by (by destruct st).
  rewrite execute_chat_with_tools by done.
  assert (Hafter : exists evs,
            trace (after_call world user_message request_id st1) = trace st ++ evs
            /\ create_requests evs = [first_request user_message st1]).
  { subst st1. destruct st as [cfgs sessions h ms tr fs]. eexists.
    unfold after_call, before_call.
    cbn [trace conversation_history set_trace set_conversation_history].
    rewrite <- !app_assoc. cbn [app]. split; [reflexivity|]. reflexivity. }
  destruct Hafter as (evs & Htr & Hreq).
  exists (first_request user_message st1).
  assert (Hfirst : messages (first_request user_message st1) = [user_turn user_message]
                   /\ req_tools (first_request user_message st1) = Some (get_all_tools st)).
  { subst st1. by destruct st. }
  destruct (first_answer world user_message request_id st1) as [e|response].
  - exists []. cbn [snd]. rewrite Htr, create_requests_app, Hreq. by destruct Hfirst.
  - pose proof (frame_finish_exchange world request_id response
                  (after_call world user_message request_id st1)) as Hframe.
    destruct Hframe as (_ & _ & _ & _ & _ & (evs' & Htr')). unfold final in Htr'.
    exists (create_requests evs').
    rewrite Htr', Htr, !create_requests_app, Hreq, <- app_assoc. by destruct Hfirst.
Qed.

End MetricsFacts.

Lemma get_summary_skips_unfinished_witness :
  durations [Sample.metric "req-1" 100 105 true; RequestMetrics.new "req-2" (Float.of_Z 200)]
    = durations [Sample.metric "req-1" 100 105 true]
  /\ summary_field "total_requests"
       (get_summary Sample.quiet
          [Sample.metric "req-1" 100 105 true; RequestMetrics.new "req-2" (Float.of_Z 200)])
     = Some (JInt 2).
Proof.
  destruct (get_summary_skips_unfinished Sample.quiet [Sample.metric "req-1" 100 105 true]
              (RequestMetrics.new "req-2" (Float.of_Z 200))) as (H1 & _ & H2);
    [by left|].
  split; [exact H1|exact H2].
Defined.

(** * Properties of the console *)

Lemma append_assoc (s1 s2 s3 : string) : (s1 +:+ s2) +:+ s3 = s1 +:+ s2 +:+ s3.
Proof.
  induction s1 as [|c s1 IH]; [done|].
  change (String c ((s1 +:+ s2) +:+ s3) = String c (s1 +:+ s2 +:+ s3)). by f_equal.
Qed.

Section CleanupFacts.

Context (world : World) (runtime : Runtime).

Lemma cleanup_body_spec server_name session_info p :
  exists chunk evs,
    cleanup_body runtime server_name session_info p =
      (inr tt, set_exits (fun l => l ++ chunk)
                 (set_client (set_trace (fun tr => tr ++ evs)) p))
    /\ closes (server_name, session_info) chunk
    /\ forallb is_log evs = true.
Proof.
  destruct p as [[cfgs sessions h ms tr fs] path run sin sout xs].
  unfold cleanup_body, session_exit, stdio_exit, closes. run_console.
  destruct (session_aexit runtime tr xs (SessionInfo.session session_info)) as [e|] eqn:H1.
  - eexists [_], [_]. split; [reflexivity|]. split; [left; by eexists|done].
  - destruct (stdio_aexit runtime tr _ (SessionInfo.stdio session_info)) as [e|] eqn:H2;
      rewrite <- ?app_assoc; cbn [app].
    + eexists [_; _], [_]. split; [reflexivity|]. split; [right; by eexists|done].
    + eexists [_; _], [_]. split; [reflexivity|]. split; [right; by eexists|done].
Qed.

Lemma cleanup_from_spec items : forall p,
  exists chunks evs,
    cleanup_from runtime items p =
      (inr tt, set_exits (fun l => l ++ concat chunks)
                 (set_client (set_trace (fun tr => tr ++ evs)) p))
    /\ Forall2 closes items chunks
    /\ forallb is_log evs = true.
Proof.
  induction items as [|[server_name session_info] rest IH]; intros p.
  - exists [], []. split; [|by split; [constructor|]].
    destruct p as [[cfgs sessions h ms tr fs] path run sin sout xs].
    cbn [cleanup_from concat]. run_console. by rewrite !app_nil_r.
  - cbn [cleanup_from]. unfold Console.bind at 1.
    destruct (cleanup_body_spec server_name session_info p)
      as (chunk & evs & -> & Hcloses & Hlog).
    destruct (IH (set_exits (fun l => l ++ chunk)
                    (set_client (set_trace (fun tr => tr ++ evs)) p)))
      as (chunks & evs' & -> & Hall & Hlog').
    exists (chunk :: chunks), (evs ++ evs'). split; [|split].
    + destruct p as [[cfgs sessions h ms tr fs] path run sin sout xs].
      cbn [concat]. run_console. reflexivity.
    + by constructor.
    + by rewrite forallb_app, Hlog, Hlog'.
Qed.

Lemma cleanup_spec p :
  exists chunks evs,
    cleanup runtime p =
      (inr tt, set_exits (fun l => l ++ concat chunks)
                 (set_client (set_trace (fun tr => tr ++ evs)) p))
    /\ Forall2 closes (server_sessions (client p)) chunks
    /\ forallb is_log evs = true.
Proof.
  unfold cleanup, console_log, Console.call, log, emit, modify.
  unfold Console.bind at 1. cbn [fst snd].
  unfold Console.bind at 1, Console.gets.
  set (p1 := set_client _ p).
  destruct (cleanup_from_spec (server_sessions (client p1)) p1)
    as (chunks & evs & -> & Hall & Hlog).
  exists chunks, (EvLog INFO "🧹 Cleaning up MCP connections" :: evs).
  subst p1. destruct p as [[cfgs sessions h ms tr fs] path run sin sout xs].
  run_console. split; [by rewrite <- ?app_assoc|done].
Qed.

Lemma left_sessions_app xs1 xs2 :
  left_sessions (xs1 ++ xs2) = left_sessions xs1 ++ left_sessions xs2.
Proof. unfold left_sessions. apply omap_app. Qed.

Lemma closes_left_sessions items chunks :
  Forall2 closes items chunks ->
  left_sessions (concat chunks) = map (fun kv => SessionInfo.session (snd kv)) items.
Proof.
  induction 1 as [|server chunk items chunks Hcloses _ IH]; [done|].
  cbn [concat map]. rewrite left_sessions_app, IH.
  by destruct Hcloses as [[e ->]|[r ->]].
Qed.

(** X19: [cleanup] never raises and goes through every registered session
    in registry order.  For each it leaves the session and then, only if
    that did not raise, the stdio client; a failure for one backend does
    not keep it from the next, so every session is left exactly once.
    Apart from log lines the client is as before: the sessions stay
    registered, marked as they were. *)
Theorem cleanup_leaves_every_session (p : Process) :
  exists chunks evs,
    cleanup runtime p =
      (inr tt, set_exits (fun l => l ++ concat chunks)
                 (set_client (set_trace (fun tr => tr ++ evs)) p))
    /\ Forall2 closes (server_sessions (client p)) chunks
    /\ left_sessions (concat chunks)
         = map (fun kv => SessionInfo.session (snd kv)) (server_sessions (client p))
    /\ forallb is_log evs = true.
Proof.
  destruct (cleanup_spec p) as (chunks & evs & Hrun & Hall & Hlog).
  exists chunks, evs. split; [done|]. split; [done|].
  split; [by apply closes_left_sessions|done].
Qed.

End CleanupFacts.

Section CommandFacts.

Context (world : World) (runtime : Runtime).

Lemma command_frame_refl st : command_frame st st.
Proof. repeat split; try done; [by left|]. exists []. by rewrite app_nil_r. Qed.

Lemma get_summary_is_object l : exists base, get_summary world l = JObj base
  /\ dict_get "healthy_servers" base = None /\ dict_get "total_servers" base = None.
Proof. destruct l; by eexists. Qed.

Lemma dict_get_snoc_ne {V} k k' (v : V) (d : list (string * V)) :
  k <> k' -> dict_get k (d ++ [(k', v)]) = dict_get k d.
Proof.
  intros Hne. induction d as [|[k0 v0] d IH]; cbn.
  - by destruct (String.eqb_spec k k').
  - by rewrite IH.
Qed.

Lemma get_metrics_summary_items st :
  exists base,
    get_summary world (metrics st) = JObj base
    /\ get_metrics_summary world st =
         JObj (base ++ [("healthy_servers", JInt (get_healthy_server_count st));
                        ("total_servers", JInt (Z.of_nat (length (server_sessions st))))]).
Proof.
  destruct (get_summary_is_object (metrics st)) as (base & Hbase & Hh & Ht).
  exists base. split; [done|]. unfold get_metrics_summary. rewrite Hbase.
  rewrite (dict_set_fresh "healthy_servers") by done.
  rewrite (dict_set_fresh "total_servers"), <- app_assoc; [done|].
  by rewrite dict_get_snoc_ne.
Qed.

Lemma print_items_spec items p :
  print_items runtime items p =
    (inr tt, set_stdout (fun out => out ++ map (metrics_line runtime) items) p).
Proof.
  revert p. induction items as [|[key value] rest IH]; intros p.
  - destruct p. cbn. run_console. by rewrite app_nil_r.
  - cbn [print_items map]. unfold Console.bind, Console.print, Console.modify.
    rewrite IH. destruct p. unfold metrics_line. run_console.
    cbn [fst snd]. by rewrite !append_assoc.
Qed.

Lemma handle_command_spec command p :
  exists p',
    handle_command world runtime command p = (inr tt, p')
    /\ stdin p' = stdin p
    /\ config_path p' = config_path p
    /\ command_frame (client p) (client p')
    /\ (exists out, stdout p' = stdout p ++ out)
    /\ (if is_quit runtime command
        then running p' = false
             /\ exists chunks, exits p' = exits p ++ concat chunks
                  /\ Forall2 closes (server_sessions (client p)) chunks
        else running p' = running p /\ exits p' = exits p)
    /\ (~ In (normalize runtime command) known_commands ->
          p' = set_stdout (fun out => out ++ ["❓ Unknown command: " +:+ command +:+ nl +:+ nl])
                 p).
Proof.
  unfold handle_command, is_quit, known_commands.
  set (cmd := normalize runtime command).
  destruct (String.eqb_spec cmd "/quit") as [Hq|Hq];
    [|destruct (String.eqb_spec cmd "/exit") as [He|He]]; cbn [orb].
  1,2: unfold client_cleanup, Console.bind at 1, Console.modify;
       unfold Console.bind at 1;
       destruct (cleanup_spec runtime (set_running false p))
         as (chunks & evs & -> & Hall & Hlog);
       destruct p as [[cfgs sessions h ms tr fs] path run sin sout xs];
       run_console; eexists; (split; [reflexivity|]); cbn;
       (split; [done|]); (split; [done|]);
       (split; [repeat split; try done; [by left|by exists evs]|]);
       (split; [by eexists|]); (split; [split; [done|by exists chunks]|]);
       intros Hnot; exfalso; apply Hnot; rewrite ?Hq, ?He; cbn; tauto.
  destruct (String.eqb_spec cmd "/clear") as [Hc|Hc].
  { destruct p as [[cfgs sessions h ms tr fs] path run sin sout xs].
    unfold clear_conversation. run_console. cbv [bind modify set_conversation_history].
    cbn. eexists. split; [reflexivity|]. cbn.
    split; [done|]. split; [done|].
    split; [repeat split; try done; [by right|by eexists [_]]|].
    split; [by eexists|]. split; [done|].
    intros Hnot; exfalso; apply Hnot; rewrite Hc; cbn; tauto. }
  destruct (String.eqb_spec cmd "/metrics") as [Hm|Hm].
  { destruct (get_metrics_summary_items (client p)) as (base & _ & Hitems).
    unfold Console.bind at 1, Console.gets. rewrite Hitems.
    unfold Console.bind at 1, Console.print at 1, Console.modify.
    unfold Console.bind at 1. rewrite print_items_spec.
    destruct p as [[cfgs sessions h ms tr fs] path run sin sout xs].
    run_console. eexists. split; [reflexivity|]. cbn.
    split; [done|]. split; [done|]. split; [apply command_frame_refl|].
    split; [by eexists|]. split; [done|].
    intros Hnot; exfalso; apply Hnot; rewrite Hm; cbn; tauto. }
  destruct (String.eqb_spec cmd "/help") as [Hh|Hh].
  { destruct p as [[cfgs sessions h ms tr fs] path run sin sout xs].
    run_console. eexists. split; [reflexivity|]. cbn.
    split; [done|]. split; [done|]. split; [apply command_frame_refl|].
    split; [by eexists|]. split; [done|].
    intros Hnot; exfalso; apply Hnot; rewrite Hh; cbn; tauto. }
  destruct p as [[cfgs sessions h ms tr fs] path run sin sout xs].
  run_console. eexists. split; [reflexivity|]. cbn.
  split; [done|]. split; [done|]. split; [apply command_frame_refl|].
  split; [by eexists|]. split; [done|]. intros _.
  by rewrite <- !append_assoc.
Qed.

(** X20: [handle_command] never raises and never reads the input.  It
    ends the chat and closes the backends exactly for [/quit] and [/exit],
    however they are cased and padded; any other command leaves [running]
    and the backends alone.  No command touches the metrics, the sessions,
    the descriptors or the files; the client only logs, and its history is
    as before or empty.  A command that is not known is echoed as it was
    typed, and nothing else happens. *)
Theorem handle_command_ends_chat_only_on_quit (command : string) (p : Process) :
  exists p',
    handle_command world runtime command p = (inr tt, p')
    /\ stdin p' = stdin p
    /\ config_path p' = config_path p
    /\ command_frame (client p) (client p')
    /\ (exists out, stdout p' = stdout p ++ out)
    /\ (if is_quit runtime command
        then running p' = false
             /\ exists chunks, exits p' = exits p ++ concat chunks
                  /\ Forall2 closes (server_sessions (client p)) chunks
        else running p' = running p /\ exits p' = exits p)
    /\ (~ In (normalize runtime command) known_commands ->
          p' = set_stdout (fun out => out ++ ["❓ Unknown command: " +:+ command +:+ nl +:+ nl])
                 p).
Proof.
  destruct (handle_command_spec command p) as (p' & Hrun & Hrest).
  exists p'. by split.
Qed.

(** X21: [/metrics] changes nothing but the output.  It prints the header,
    then one line for every entry of the summary in the order of
    [get_summary], then the lines for [healthy_servers] and
    [total_servers], then an empty line. *)
Theorem handle_command_prints_metrics (command : string) (p : Process) :
  normalize runtime command = "/metrics" ->
  exists base,
    get_summary world (metrics (client p)) = JObj base
    /\ handle_command world runtime command p =
         (inr tt,
          set_stdout
            (fun out =>
               out ++ [nl +:+ "📊 System Metrics:" +:+ nl]
                   ++ map (metrics_line runtime) base
                   ++ [metrics_line runtime
                         ("healthy_servers", JInt (get_healthy_server_count (client p)));
                       metrics_line runtime
                         ("total_servers",
                          JInt (Z.of_nat (length (server_sessions (client p)))));
                       nl]) p).
Proof.
  intros Hcmd. unfold handle_command. rewrite Hcmd.
  cbn [String.eqb Ascii.eqb Bool.eqb orb].
  destruct (get_metrics_summary_items (client p)) as (base & Hbase & Hitems).
  exists base. split; [done|].
  unfold Console.bind at 1, Console.gets. rewrite Hitems.
  unfold Console.bind at 1, Console.print at 1, Console.modify.
  unfold Console.bind at 1. rewrite print_items_spec.
  destruct p as [[cfgs sessions h ms tr fs] path run sin sout xs].
  run_console. rewrite map_app. cbn. by rewrite <- !app_assoc, <- !append_assoc.
Qed.

End CommandFacts.

Lemma handle_command_prints_metrics_witness :
  exists base,
    get_summary Sample.quiet (metrics (client (Desk.chatting []))) = JObj base
    /\ handle_command Sample.quiet Desk.calm " /Metrics " (Desk.chatting []) =
         (inr tt,
          set_stdout
            (fun out =>
               out ++ [nl +:+ "📊 System Metrics:" +:+ nl]
                   ++ map (metrics_line Desk.calm) base
                   ++ [metrics_line Desk.calm
                         ("healthy_servers",
                          JInt (get_healthy_server_count (client (Desk.chatting []))));
                       metrics_line Desk.calm
                         ("total_servers",
                          JInt (Z.of_nat (length (server_sessions
                                                    (client (Desk.chatting []))))));
                       nl]) (Desk.chatting [])).
Proof.
  apply (handle_command_prints_metrics Sample.quiet Desk.calm " /Metrics " (Desk.chatting [])).
  vm_compute. reflexivity.
Defined.

(** ** The loop of [run_chat] *)

Section ChatLoopFacts.

Context (world : World) (runtime : Runtime).

Lemma to_int_error x e :
  Float.to_int x = inl e -> type_name_of e <> "EOFError".
Proof. destruct x as [s|s| |s m ex]; cbn; intros [= <-]; by cbn. Qed.

Lemma log_events_no_create evs : forallb is_log evs = true -> create_requests evs = [].
Proof.
  induction evs as [|e evs IH]; [done|]. cbn [forallb]. intros H.
  apply andb_true_iff in H as [He Hevs]. destruct e; try done; by apply IH.
Qed.

(** One pass through the body of the loop. *)
Lemma chat_step_spec p :
  match stdin p with
  | [] => chat_step world runtime p = (inr Break, set_stdout (fun out => out ++ [prompt]) p)
  | i :: _ =>
      exists p', chat_step world runtime p = (inr Next, p')
                 /\ turn_taken world runtime i p p'
  end.
Proof.
  destruct p as [st path run sin sout xs]. cbn [stdin].
  destruct sin as [|[text|] rest].
  - unfold chat_step, chat_turn, Console.input. run_console. reflexivity.
  - unfold chat_step, chat_turn, Console.catch, Console.input.
    unfold Console.bind at 1. cbn [stdin].
    set (p1 := set_stdin rest _).
    unfold turn_taken, quits, is_message, is_command.
    destruct (String.eqb_spec (Text.strip text) "") as [Hblank|Hblank].
    { rewrite Hblank. eexists. split; [reflexivity|]. subst p1. cbn.
      repeat split; try done. by eexists. }
    destruct (Text.startswith "/" (Text.strip text)) eqn:Hslash.
    + unfold Console.bind at 1.
      destruct (handle_command_spec world runtime (Text.strip text) p1)
        as (p' & -> & Hin & Hpath & Hframe & (out & Hout) & Hquit & _).
      exists p'. split; [reflexivity|]. subst p1.
      destruct Hframe as (_ & Hss & Hms & _ & _ & (evs & Htr & Hlog)). cbn in *.
      split; [by rewrite Hin|]. split; [done|]. split; [done|].
      split; [exists ([prompt] ++ out); by rewrite Hout, <- app_assoc|].
      split; [done|]. split; [done|].
      by rewrite Htr, create_requests_app, (log_events_no_create _ Hlog), app_nil_r.
    + cbn [negb andb].
      unfold Console.bind at 1, Console.call. cbn [client].
      destruct (chat_with_claude_cases world (client p1) (Text.strip text) 3)
        as [(e & Hint & Hrun)|(millis & r & st' & Hint & Hrun & Hss)];
        subst p1; cbn [client set_stdin set_stdout] in *; rewrite Hrun.
      * rewrite (proj2 (String.eqb_neq _ _) (to_int_error _ _ Hint)).
        destruct st as [cfgs sessions h ms tr fs]. run_console.
        eexists. split; [reflexivity|]. cbn.
        repeat split; try done; [by eexists|].
        intros Hclock. destruct (Hclock tr) as [millis Hmillis]. cbn [trace] in Hint. congruence.
      * destruct st as [cfgs sessions h ms tr fs]. run_console.
        eexists. split; [reflexivity|]. cbn.
        repeat split; try done; [by eexists|].
        intros Hclock.
        destruct (chat_with_claude_records_one_metric world
                    {| server_configs := cfgs; server_sessions := sessions;
                       conversation_history := h; metrics := ms; trace := tr;
                       files := fs |} (Text.strip text) 3 Hclock ltac:(lia))
          as (text' & metric & _ & Hms & Hfin).
        unfold final in Hms. rewrite Hrun in Hms. by exists metric.
  - unfold chat_step, chat_turn, Console.catch, Console.input.
    unfold Console.bind at 1. cbn [stdin]. run_console.
    eexists. split; [reflexivity|]. unfold turn_taken. cbn.
    repeat split; try done. by eexists.
Qed.

(** The loop, when the passes suffice. *)
Lemma chat_loop_spec fuel : forall p,
  (length (stdin p) < fuel)%nat ->
  exists consumed p',
    chat_loop world runtime fuel p = (inr (Some tt), p')
    /\ stdin p = consumed ++ stdin p'
    /\ config_path p' = config_path p
    /\ server_sessions (client p') = server_sessions (client p)
    /\ (exists out, stdout p' = stdout p ++ out)
    /\ (running p = false -> consumed = [] /\ p' = p)
    /\ (running p = true ->
          (exists before q chunks,
             consumed = before ++ [q]
             /\ existsb (quits runtime) before = false
             /\ quits runtime q = true
             /\ running p' = false
             /\ exits p' = exits p ++ concat chunks
             /\ Forall2 closes (server_sessions (client p)) chunks)
          \/ (existsb (quits runtime) consumed = false
              /\ stdin p' = []
              /\ running p' = true
              /\ exits p' = exits p))
    /\ (clock_in_range world ->
          length (metrics (client p'))
          = (length (metrics (client p)) + length (List.filter is_message consumed))%nat)
    /\ (existsb is_message consumed = false ->
          metrics (client p') = metrics (client p)
          /\ create_requests (trace (client p')) = create_requests (trace (client p))).
Proof.
  induction fuel as [|fuel IH]; intros p Hfuel; [lia|].
  cbn [chat_loop]. unfold Console.bind at 1, Console.gets.
  destruct (running p) eqn:Hrunning.
  2: { exists [], p. unfold Console.ret. split; [done|]. split; [done|].
       split; [done|]. split; [done|]. split; [exists []; by rewrite app_nil_r|].
       split; [done|]. split; [done|]. split; [cbn; lia|done]. }
  unfold Console.bind at 1.
  pose proof (chat_step_spec p) as Hstep.
  destruct (stdin p) as [|i rest] eqn:Hin.
  - rewrite Hstep. unfold Console.ret.
    exists [], (set_stdout (fun out => out ++ [prompt]) p).
    destruct p as [st path run sin sout xs]. cbn in *. subst.
    split; [done|]. split; [done|]. split; [done|]. split; [done|].
    split; [by eexists|]. split; [done|]. split; [by right|]. split; [lia|done].
  - destruct Hstep as (p1 & -> & Hin1 & Hpath & Hss & (out & Hout) & Hquit & Hmsg).
    rewrite Hin in Hin1. injection Hin1 as Hrest.
    destruct (IH p1) as (consumed & p' & -> & Hin' & Hpath' & Hss' & (out' & Hout')
                         & Hstopped & Hend & Hcount & Hnone).
    { rewrite <- Hrest. cbn in Hfuel. lia. }
    exists (i :: consumed), p'. split; [reflexivity|].
    split; [by rewrite Hrest, Hin'|]. split; [congruence|]. split; [congruence|].
    split; [exists (out ++ out'); by rewrite Hout', Hout, <- app_assoc|].
    split; [done|]. split; [|split].
    + intros _. destruct (quits runtime i) eqn:Hq.
      * destruct Hquit as (Hoff & chunks & Hxs & Hall).
        destruct (Hstopped Hoff) as [-> ->].
        left. exists [], i, chunks. by repeat split.
      * destruct Hquit as (Hon & Hxs). rewrite Hrunning in Hon.
        destruct (Hend Hon)
          as [(before & q & chunks & -> & Hbefore & Hq' & Hoff & Hxs' & Hall)
             |(Hquiet & Hempty & Hon' & Hxs')].
        -- left. exists (i :: before), q, chunks. cbn. rewrite Hq, Hbefore.
           repeat split; try done; [congruence|]. by rewrite <- Hss.
        -- right. cbn. rewrite Hq, Hquiet. repeat split; try done. congruence.
    + intros Hclock. rewrite (Hcount Hclock). cbn [List.filter].
      destruct (is_message i).
      * destruct (Hmsg Hclock) as (metric & -> & _). rewrite length_app. cbn. lia.
      * destruct Hmsg as [-> _]. lia.
    + cbn [existsb]. intros Hno. apply orb_false_iff in Hno as [Hi Hconsumed].
      rewrite Hi in Hmsg. destruct Hmsg as [Hms Hreq].
      destruct (Hnone Hconsumed) as [Hms' Hreq']. split; congruence.
Qed.

End ChatLoopFacts.

(** ** [initialize] and [run_chat] *)

Section InitializeFacts.

Context (world : World).

Lemma initialize_keeps (st : State) (path : string) :
  exists ok st',
    initialize world path st = (inr ok, st')
    /\ metrics st' = metrics st
    /\ conversation_history st' = conversation_history st.
Proof.
  unfold initialize, log, emit, modify, try_except, bind. cbn [fst snd].
  set (st0 := set_trace _ st).
  assert (exists r st1, load_configuration world path st0 = (r, st1)
            /\ metrics st1 = metrics st /\ conversation_history st1 = conversation_history st)
    as (r & st1 & -> & Hms & Hh).
  { destruct (files st0 !! path) as [text|] eqn:Hfile.
    - destruct (load_configuration_outcome world _ _ _ Hfile) as [[e ->]|[cfgs ->]];
        eexists _, _; (split; [reflexivity|]); by destruct st.
    - rewrite (load_configuration_absent world _ _ Hfile).
      eexists _, _. split; [reflexivity|]. by destruct st. }
  destruct r as [e|[]].
  - eexists _, _. split; [reflexivity|]. by destruct st1.
  - destruct (initialize_servers_from_spec world (server_configs st1) [] st1 eq_refl)
      as (configs' & sessions' & evs1 & Hrun1 & _).
    change (length (@nil MCPServerConfig.t)) with 0%nat in Hrun1. cbn [app] in Hrun1.
    unfold initialize_servers, bind, gets. rewrite Hrun1.
    set (st2 := set_trace _ (set_server_sessions _ _)).
    destruct (health_check_from_spec world (server_sessions st2) [] st2 eq_refl)
      as (sessions'' & evs2 & Hrun2 & _).
    change (length (@nil (string * SessionInfo.t))) with 0%nat in Hrun2. cbn [app] in Hrun2.
    unfold health_check_all, bind, gets. rewrite Hrun2. unfold ret.
    eexists _, _. split; [reflexivity|]. subst st2. by destruct st1.
Qed.

End InitializeFacts.

Section ChatFacts.

Context (world : World) (runtime : Runtime).

Lemma run_chat_unfold p :
  run_chat world runtime p
  = chat_loop world runtime (S (length (stdin p)))
      (set_stdout (fun out => out ++ greeting) p).
Proof.
  unfold run_chat, Console.bind, Console.print, Console.modify, Console.gets.
  destruct p as [st path run sin sout xs]. cbn [stdin set_stdout].
  unfold set_stdout, greeting. cbn [stdout client config_path running stdin exits].
  by rewrite <- !app_assoc.
Qed.

Lemma existsb_app_false {A} (f : A -> bool) l1 l2 :
  existsb f (l1 ++ l2) = false -> existsb f l1 = false.
Proof. rewrite existsb_app. by intros [? _]%orb_false_iff. Qed.

(** X22: a chat that is running ends, without raising, at the first line
    that quits or at the end of the input, whichever comes first.  At a
    line that quits, [running] is off, every registered session has been
    left, and the lines after it are unread; at the end of the input the
    chat is still marked running and no backend was closed.  Lines that do
    not quit, Ctrl-C included, never end it. *)
Theorem run_chat_ends_at_quit_or_end_of_input (p : Process) :
  running p = true ->
  exists consumed p',
    run_chat world runtime p = (inr (Some tt), p')
    /\ stdin p = consumed ++ stdin p'
    /\ server_sessions (client p') = server_sessions (client p)
    /\ ((exists before q chunks,
           consumed = before ++ [q]
           /\ existsb (quits runtime) before = false
           /\ quits runtime q = true
           /\ running p' = false
           /\ exits p' = exits p ++ concat chunks
           /\ Forall2 closes (server_sessions (client p)) chunks)
        \/ (existsb (quits runtime) consumed = false
            /\ stdin p' = []
            /\ running p' = true
            /\ exits p' = exits p)).
Proof.
  intros Hrunning. rewrite run_chat_unfold.
  destruct (chat_loop_spec world runtime (S (length (stdin p)))
              (set_stdout (fun out => out ++ greeting) p))
    as (consumed & p' & Hrun & Hin & _ & Hss & _ & _ & Hend & _).
  { destruct p; cbn; lia. }
  exists consumed, p'. split; [done|].
  destruct p as [st path run sin sout xs]; cbn in *.
  split; [done|]. split; [done|]. by apply Hend.
Qed.

(** X23: when the clock can be read, [run_chat] records exactly one metric
    for every message it reads, and none for a blank line, a command or a
    Ctrl-C, whatever the model and the backends did. *)
Theorem run_chat_one_metric_per_message (p : Process) :
  clock_in_range world ->
  exists consumed p',
    run_chat world runtime p = (inr (Some tt), p')
    /\ stdin p = consumed ++ stdin p'
    /\ length (metrics (client p'))
       = (length (metrics (client p)) + length (List.filter is_message consumed))%nat.
Proof.
  intros Hclock. rewrite run_chat_unfold.
  destruct (chat_loop_spec world runtime (S (length (stdin p)))
              (set_stdout (fun out => out ++ greeting) p))
    as (consumed & p' & Hrun & Hin & _ & _ & _ & _ & _ & Hcount & _).
  { destruct p; cbn; lia. }
  exists consumed, p'. split; [done|].
  destruct p as [st path run sin sout xs]; cbn in *.
  split; [done|]. by apply Hcount.
Qed.

(** X24: an input without a message (only blank lines, commands and
    Ctrl-C) never reaches the model: [run_chat] sends no request and
    records no metric. *)
Theorem run_chat_without_messages_never_asks_model (p : Process) :
  existsb is_message (stdin p) = false ->
  exists p',
    run_chat world runtime p = (inr (Some tt), p')
    /\ metrics (client p') = metrics (client p)
    /\ create_requests (trace (client p')) = create_requests (trace (client p)).
Proof.
  intros Hnone. rewrite run_chat_unfold.
  destruct (chat_loop_spec world runtime (S (length (stdin p)))
              (set_stdout (fun out => out ++ greeting) p))
    as (consumed & p' & Hrun & Hin & _ & _ & _ & _ & _ & _ & Hquiet).
  { destruct p; cbn; lia. }
  exists p'. split; [done|].
  destruct p as [st path run sin sout xs]; cbn in *.
  apply Hquiet. rewrite Hin in Hnone. by apply existsb_app_false in Hnone.
Qed.

End ChatFacts.

Lemma run_chat_ends_at_quit_or_end_of_input_witness :
  exists consumed p',
    run_chat Sample.quiet Desk.calm
      (Desk.chatting [Line "/help"; CtrlC; Line " /QUIT "; Line "hello"])
      = (inr (Some tt), p')
    /\ [Line "/help"; CtrlC; Line " /QUIT "; Line "hello"] = consumed ++ stdin p'
    /\ server_sessions (client p') = server_sessions Sample.connected
    /\ ((exists before q chunks,
           consumed = before ++ [q]
           /\ existsb (quits Desk.calm) before = false
           /\ quits Desk.calm q = true
           /\ running p' = false
           /\ exits p' = [] ++ concat chunks
           /\ Forall2 closes (server_sessions Sample.connected) chunks)
        \/ (existsb (quits Desk.calm) consumed = false
            /\ stdin p' = []
            /\ running p' = true
            /\ exits p' = [])).
Proof.
  apply (run_chat_ends_at_quit_or_end_of_input Sample.quiet Desk.calm
           (Desk.chatting [Line "/help"; CtrlC; Line " /QUIT "; Line "hello"])).
  reflexivity.
Defined.

Lemma run_chat_one_metric_per_message_witness :
  exists consumed p',
    run_chat Sample.quiet Desk.calm
      (Desk.chatting [Line "hello"; Line "  "; Line "/metrics"; Line "again"])
      = (inr (Some tt), p')
    /\ [Line "hello"; Line "  "; Line "/metrics"; Line "again"] = consumed ++ stdin p'
    /\ length (metrics (client p'))
       = (length (metrics Sample.connected) + length (List.filter is_message consumed))%nat.
Proof.
  apply (run_chat_one_metric_per_message Sample.quiet Desk.calm
           (Desk.chatting [Line "hello"; Line "  "; Line "/metrics"; Line "again"])).
  intros tr. eexists. vm_compute. reflexivity.
Defined.

Lemma run_chat_without_messages_never_asks_model_witness :
  exists p',
    run_chat Sample.quiet Desk.calm (Desk.chatting [Line "/clear"; Line ""; CtrlC])
      = (inr (Some tt), p')
    /\ metrics (client p') = metrics Sample.connected
    /\ create_requests (trace (client p')) = create_requests (trace Sample.connected).
Proof.
  apply (run_chat_without_messages_never_asks_model Sample.quiet Desk.calm
           (Desk.chatting [Line "/clear"; Line ""; CtrlC])).
  vm_compute. reflexivity.
Defined.

(** ** The console programs *)

Section ProgramFacts.

Context (world : World) (runtime : Runtime).

(** ** The constructor *)

Lemma no_api_key_cases :
  ~ has_api_key world ->
  dict_get "ANTHROPIC_API_KEY" (os_environ world) = None
  \/ dict_get "ANTHROPIC_API_KEY" (os_environ world) = Some "".
Proof.
  intros Hno. destruct (dict_get _ _) as [[|c s]|] eqn:Hkey; [by right| |by left].
  destruct Hno. by exists c, s.
Qed.

Lemma MCPClient_init_unkeyed p :
  ~ has_api_key world ->
  MCPClient_init world runtime None p = (inl (Exn missing_key), unkeyed p).
Proof.
  intros Hno. unfold MCPClient_init.
  destruct (no_api_key_cases Hno) as [-> | ->];
    destruct p as [[cfgs sessions h ms tr fs] path run sin sout xs]; by run_console.
Qed.

Lemma MCPClient_init_spec path p :
  exists r p',
    MCPClient_init world runtime path p = (r, p')
    /\ (r = inr tt \/ exists e, r = inl (Exn e))
    /\ (has_api_key world -> anthropic_comes_up runtime -> r = inr tt)
    /\ stdin p' = stdin p /\ stdout p' = stdout p /\ exits p' = exits p
    /\ running p' = running p
    /\ metrics (client p') = [] /\ server_sessions (client p') = []
    /\ connect_requests (trace (client p')) = connect_requests (trace (client p)).
Proof.
  unfold MCPClient_init.
  destruct p as [[cfgs sessions h ms tr fs] path0 run sin sout xs].
  destruct (dict_get "ANTHROPIC_API_KEY" (os_environ world)) as [[|c s]|] eqn:Hkey.
  1,3: run_console; eexists _, _; (split; [reflexivity|]); cbn;
       (split; [right; by eexists|]); (split; [|done]);
       intros (c & s & Hsome) _; congruence.
  run_console. cbn [init_state trace].
  destruct (new_anthropic runtime tr (String c s)) as [e|] eqn:Hnew; cbn.
  - eexists _, _. split; [reflexivity|]. cbn.
    split; [right; by eexists|]. split.
    + intros _ Hup. rewrite Hup in Hnew. done.
    + repeat split. by rewrite connect_requests_app, app_nil_r.
  - eexists _, _. split; [reflexivity|]. cbn.
    split; [by left|]. split; [done|].
    repeat split. by rewrite connect_requests_app, app_nil_r.
Qed.

(** ** [start] *)

Lemma start_spec p :
  exists ok p',
    start world p = (inr ok, p')
    /\ stdin p' = stdin p /\ exits p' = exits p /\ running p' = running p
    /\ metrics (client p') = metrics (client p).
Proof.
  destruct p as [st path run sin sout xs].
  unfold start. run_console.
  destruct (initialize_keeps world st path) as (ok & st' & -> & Hms & _).
  destruct ok; run_console; eexists _, _; (split; [reflexivity|]); by cbn.
Qed.

(** ** The body of the [try] statements of [main] and [run_interactive] *)

Lemma session_body_spec p :
  exists consumed p',
    Console.bind (start world)
      (fun ok => if ok then Console.bind (run_chat world runtime) (fun _ => Console.ret tt)
                 else Console.ret tt) p = (inr tt, p')
    /\ stdin p = consumed ++ stdin p'
    /\ (existsb (quits runtime) consumed = false -> exits p' = exits p)
    /\ (clock_in_range world ->
          length (metrics (client p'))
          = (length (metrics (client p)) + length (List.filter is_message consumed))%nat).
Proof.
  unfold Console.bind at 1.
  destruct (start_spec p) as (ok & p1 & -> & Hin & Hxs & Hrun & Hms).
  destruct ok.
  - unfold Console.bind, Console.ret. rewrite run_chat_unfold.
    destruct (chat_loop_spec world runtime (S (length (stdin p1)))
                (set_stdout (fun out => out ++ greeting) p1))
      as (consumed & p' & -> & Hin' & _ & _ & _ & Hoff & Hend & Hcount & _).
    { destruct p1; cbn; lia. }
    exists consumed, p'. split; [done|].
    destruct p1 as [st1 path1 run1 sin1 sout1 xs1]; cbn in *.
    split; [congruence|]. split; [|by rewrite <- Hms].
    intros Hquiet. destruct run1.
    + destruct (Hend eq_refl)
        as [(before & q & chunks & -> & _ & Hq & _)|(_ & _ & _ & Hxs')]; [|congruence].
      rewrite existsb_app in Hquiet. cbn in Hquiet. rewrite Hq in Hquiet.
      by rewrite orb_true_r in Hquiet.
    + destruct (Hoff eq_refl) as [_ ->]. by cbn.
  - exists [], p1. unfold Console.ret. split; [done|]. split; [done|].
    split; [done|]. intros _. cbn. rewrite Hms. lia.
Qed.

Lemma session_spec (handler : PyExn -> Console.P unit) p :
  exists p',
    Console.bind (MCPChat_init world runtime None)
      (fun _ =>
         Console.try_finally
           (Console.try_except
              (Console.bind (start world)
                 (fun ok => if ok then Console.bind (run_chat world runtime)
                                         (fun _ => Console.ret tt)
                            else Console.ret tt))
              handler)
           (Console.print "👋 Thanks for using MCP Chat!")) p
      = (match fst (MCPClient_init world runtime None p) with
         | inl r => inl r
         | inr _ => inr tt
         end, p')
    /\ (existsb (quits runtime) (stdin p) = false -> exits p' = exits p).
Proof.
  unfold MCPChat_init. unfold Console.bind at 1 2.
  destruct (MCPClient_init_spec None p)
    as (r & p0 & -> & Hr & _ & Hin & _ & Hxs & _).
  destruct Hr as [->|[e ->]]; cbn [fst].
  2: { by exists p0. }
  unfold Console.modify, Console.try_finally, Console.try_except, Console.catch.
  destruct (session_body_spec (set_running true p0))
    as (consumed & p1 & -> & Hin1 & Hquiet & _).
  unfold Console.print, Console.modify. eexists. split; [reflexivity|].
  intros Hnone.
  change (stdin (set_running true p0)) with (stdin p0) in Hin1.
  change (exits (set_running true p0)) with (exits p0) in Hquiet.
  rewrite <- Hin, Hin1 in Hnone. apply existsb_app_false in Hnone.
  destruct p1; cbn. rewrite <- Hxs. by apply Hquiet.
Qed.

(** X25: without an API key (unset, or set to the empty string) neither
    console program gets past the constructor of the client.  [main] of
    [chat.py] and [run_interactive] raise the [ValueError] before anything
    is printed, [run_demo] after its two banner lines; no configuration is
    read, no backend is launched, and the farewell of the [finally] blocks
    is not printed, as the client is made outside the [try]. *)
Theorem console_programs_need_api_key (p : Process) :
  ~ has_api_key world ->
  chat_main world runtime p = (inl (Exn missing_key), unkeyed p)
  /\ run_interactive world runtime p = (inl (Exn missing_key), unkeyed p)
  /\ run_demo world runtime p
     = (inl (Exn missing_key),
        unkeyed (set_stdout
                   (fun out => out ++ ["🚀 Claude + MCP Server Demo" +:+ nl;
                                       Text.times "=" 50 +:+ nl]) p)).
Proof.
  intros Hno. unfold chat_main, run_interactive, run_demo, MCPChat_init.
  split; [|split].
  - unfold Console.bind at 1 2. by rewrite MCPClient_init_unkeyed.
  - unfold Console.bind at 1 2. by rewrite MCPClient_init_unkeyed.
  - unfold Console.bind at 1, Console.print at 1, Console.modify.
    unfold Console.bind at 1, Console.print at 1, Console.modify.
    unfold Console.bind at 1. rewrite MCPClient_init_unkeyed by done.
    destruct p as [st path run sin sout xs]. unfold unkeyed. run_console. reflexivity.
Qed.

(** X26: the interactive programs close the backends only through a line
    that quits.  When the input holds no such line ([run_chat] then ends at
    the end of the input, or was never entered), [run_interactive] and
    [main] of [chat.py] return without leaving a single session or stdio
    client: the guarded [cleanup] of [run_interactive] is never called. *)
Theorem interactive_programs_leave_backends_open (p : Process) :
  existsb (quits runtime) (stdin p) = false ->
  exits (snd (run_interactive world runtime p)) = exits p
  /\ exits (snd (chat_main world runtime p)) = exits p.
Proof.
  intros Hnone. unfold run_interactive, chat_main. split.
  - destruct (session_spec (fun e => Console.print ("❌ Error: " +:+ exn_text e)) p)
      as (p' & -> & Hxs). by apply Hxs.
  - destruct (session_spec
                (fun e => Console.bind (console_log ERROR ("Fatal error: " +:+ exn_text e))
                            (fun _ => Console.print ("❌ Fatal error: " +:+ exn_text e))) p)
      as (p' & -> & Hxs). by apply Hxs.
Qed.

End ProgramFacts.

(** ** The demo *)

Section DemoFacts.

Context (world : World) (runtime : Runtime).

(** One query of the demo. *)
Lemma demo_query_spec query p :
  exists p',
    Console.try_except
      (Console.bind (Console.call (chat_with_claude world query 3))
         (fun response => Console.print ("🤖 Claude: " +:+ format_response response)))
      (fun e => Console.print ("❌ Error: " +:+ exn_text e)) p = (inr tt, p')
    /\ stdin p' = stdin p /\ exits p' = exits p
    /\ server_sessions (client p') = server_sessions (client p)
    /\ (clock_in_range world ->
          exists metric, metrics (client p') = metrics (client p) ++ [metric]
                         /\ finalized metric).
Proof.
  unfold Console.try_except, Console.catch, Console.bind, Console.call.
  destruct (chat_with_claude_cases world (client p) query 3)
    as [(e & Hint & Hrun)|(millis & r & st' & Hint & Hrun & Hss)]; rewrite Hrun.
  - destruct p as [[cfgs sessions h ms tr fs] path run sin sout xs]. run_console.
    eexists. split; [reflexivity|]. cbn. repeat split.
    intros Hclock. destruct (Hclock tr) as [millis Hmillis]. cbn [trace client] in Hint. congruence.
  - destruct p as [st path run sin sout xs]. run_console.
    eexists. split; [reflexivity|]. cbn. repeat split; [exact Hss|].
    intros Hclock.
    destruct (chat_with_claude_records_one_metric world st query 3 Hclock ltac:(lia))
      as (text' & metric & _ & Hms & Hfin).
    unfold final in Hms. cbn [client] in Hrun. rewrite Hrun in Hms. by exists metric.
Qed.

Lemma demo_from_spec queries : forall i p,
  exists p',
    demo_from world i queries p = (inr tt, p')
    /\ stdin p' = stdin p /\ exits p' = exits p
    /\ server_sessions (client p') = server_sessions (client p)
    /\ (clock_in_range world ->
          exists ms, metrics (client p') = metrics (client p) ++ ms
                     /\ length ms = length queries
                     /\ Forall finalized ms).
Proof.
  induction queries as [|query rest IH]; intros i p.
  - exists p. split; [done|]. repeat split. intros _. exists []. by rewrite app_nil_r.
  - cbn [demo_from].
    unfold Console.bind at 1, Console.print at 1, Console.modify.
    unfold Console.bind at 1, Console.print at 1, Console.modify.
    unfold Console.bind at 1.
    set (p1 := set_stdout _ (set_stdout _ p)).
    destruct (demo_query_spec query p1) as (p2 & -> & Hin2 & Hxs2 & Hss2 & Hms2).
    unfold Console.bind at 1, Console.print at 1, Console.modify.
    set (p3 := set_stdout _ p2).
    destruct (IH (i + 1) p3) as (p4 & -> & Hin4 & Hxs4 & Hss4 & Hms4).
    exists p4. split; [done|].
    subst p3 p1. destruct p as [st path run sin sout xs], p2 as [st2 path2 run2 sin2 sout2 xs2].
    cbn in *. split; [congruence|]. split; [congruence|]. split; [congruence|].
    intros Hclock. destruct (Hms2 Hclock) as (metric & Hm & Hfin).
    destruct (Hms4 Hclock) as (ms' & Hm' & Hlen & Hall).
    exists (metric :: ms'). rewrite Hm', Hm, <- app_assoc. split; [done|].
    split; [by cbn; rewrite Hlen|by constructor].
Qed.

Lemma run_demo_spec p :
  has_api_key world -> anthropic_comes_up runtime ->
  exists p' chunks,
    run_demo world runtime p = (inr tt, p')
    /\ stdin p' = stdin p
    /\ exits p' = exits p ++ concat chunks
    /\ Forall2 closes (server_sessions (client p')) chunks
    /\ (clock_in_range world ->
          length (metrics (client p')) = 6%nat /\ Forall finalized (metrics (client p'))).
Proof.
  intros Hkey Hup. unfold run_demo.
  unfold Console.bind at 1, Console.print at 1, Console.modify.
  unfold Console.bind at 1, Console.print at 1, Console.modify.
  unfold Console.bind at 1.
  set (p1 := set_stdout _ (set_stdout _ p)).
  destruct (MCPClient_init_spec world runtime None p1)
    as (r & p2 & -> & _ & Hr & Hin2 & _ & Hxs2 & _ & Hms2 & _).
  rewrite (Hr Hkey Hup).
  unfold Console.bind at 1, Console.gets. unfold Console.bind at 1, Console.call.
  destruct (initialize_keeps world (client p2) (config_path p2)) as (ok & st3 & -> & Hms3 & _).
  set (p3 := set_client _ p2).
  unfold Console.try_finally. unfold Console.bind at 1.
  destruct (demo_from_spec demo_queries 1 p3) as (p4 & -> & Hin4 & Hxs4 & Hss4 & Hms4).
  unfold client_cleanup, Console.bind, Console.print, Console.modify, Console.gets.
  match goal with
  | |- context [cleanup runtime ?q] =>
      destruct (cleanup_spec runtime q) as (chunks & evs & -> & Hall & _)
  end.
  eexists _, chunks. split; [reflexivity|].
  subst p3 p1.
  destruct p as [st path run sin sout xs], p2 as [st2 path2 run2 sin2 sout2 xs2],
    p4 as [st4 path4 run4 sin4 sout4 xs4].
  cbn in *. split; [congruence|]. split; [congruence|].
  split; [by destruct st4|].
  intros Hclock. destruct (Hms4 Hclock) as (ms & Hm & Hlen & Hfin).
  rewrite Hms3, Hms2 in Hm. cbn in Hm. destruct st4; cbn in *. by subst.
Qed.

(** X27: once the client is made, [run_demo] cannot fail.  Whatever the
    configuration, the backends and the model do, it returns normally,
    reads nothing from the input and ends by leaving every session that
    initialization registered, each exactly once. *)
Theorem run_demo_always_cleans_up (p : Process) :
  has_api_key world -> anthropic_comes_up runtime ->
  exists p' chunks,
    run_demo world runtime p = (inr tt, p')
    /\ stdin p' = stdin p
    /\ exits p' = exits p ++ concat chunks
    /\ Forall2 closes (server_sessions (client p')) chunks
    /\ left_sessions (concat chunks)
         = map (fun kv => SessionInfo.session (snd kv)) (server_sessions (client p')).
Proof.
  intros Hkey Hup.
  destruct (run_demo_spec p Hkey Hup) as (p' & chunks & Hrun & Hin & Hxs & Hall & _).
  exists p', chunks. repeat split; try done. by apply closes_left_sessions.
Qed.

(** X28: when the clock can be read, [run_demo] ends with exactly six
    metrics, one for each of its queries and each with its end time and
    outcome set: a query on which the model keeps failing is recorded and
    does not keep the demo from the next one. *)
Theorem run_demo_records_six_metrics (p : Process) :
  has_api_key world -> anthropic_comes_up runtime -> clock_in_range world ->
  let p' := snd (run_demo world runtime p) in
  length (metrics (client p')) = 6%nat /\ Forall finalized (metrics (client p')).
Proof.
  intros Hkey Hup Hclock.
  destruct (run_demo_spec p Hkey Hup) as (p' & chunks & Hrun & _ & _ & _ & Hms).
  cbv zeta. rewrite Hrun. by apply Hms.
Qed.

End DemoFacts.

Lemma console_programs_need_api_key_witness :
  chat_main Sample.quiet Desk.calm (new_process [] ∅ [Line "hello"])
    = (inl (Exn missing_key), unkeyed (new_process [] ∅ [Line "hello"]))
  /\ run_interactive Sample.quiet Desk.calm (new_process [] ∅ [Line "hello"])
     = (inl (Exn missing_key), unkeyed (new_process [] ∅ [Line "hello"]))
  /\ run_demo Sample.quiet Desk.calm (new_process [] ∅ [Line "hello"])
     = (inl (Exn missing_key),
        unkeyed (set_stdout
                   (fun out => out ++ ["🚀 Claude + MCP Server Demo" +:+ nl;
                                       Text.times "=" 50 +:+ nl])
                   (new_process [] ∅ [Line "hello"]))).
Proof.
  apply (console_programs_need_api_key Sample.quiet Desk.calm
           (new_process [] ∅ [Line "hello"])).
  intros (c & s & Hkey). vm_compute in Hkey. discriminate Hkey.
Defined.

Lemma interactive_programs_leave_backends_open_witness :
  exits (snd (run_interactive Desk.keyed Desk.calm
                (new_process [] ∅ [Line "hello"; Line "/help"]))) = []
  /\ exits (snd (chat_main Desk.keyed Desk.calm
                   (new_process [] ∅ [Line "hello"; Line "/help"]))) = [].
Proof.
  apply (interactive_programs_leave_backends_open Desk.keyed Desk.calm
           (new_process [] ∅ [Line "hello"; Line "/help"])).
  vm_compute. reflexivity.
Defined.

Lemma run_demo_always_cleans_up_witness :
  exists p' chunks,
    run_demo Desk.keyed Desk.calm (new_process [] ∅ []) = (inr tt, p')
    /\ stdin p' = []
    /\ exits p' = [] ++ concat chunks
    /\ Forall2 closes (server_sessions (client p')) chunks
    /\ left_sessions (concat chunks)
         = map (fun kv => SessionInfo.session (snd kv)) (server_sessions (client p')).
Proof.
  apply (run_demo_always_cleans_up Desk.keyed Desk.calm (new_process [] ∅ [])).
  - eexists _, _. vm_compute. reflexivity.
  - intros tr api_key. reflexivity.
Defined.

Lemma run_demo_records_six_metrics_witness :
  length (metrics (client (snd (run_demo Desk.keyed Desk.calm (new_process [] ∅ [])))))
    = 6%nat
  /\ Forall finalized
       (metrics (client (snd (run_demo Desk.keyed Desk.calm (new_process [] ∅ []))))).
Proof.
  apply (run_demo_records_six_metrics Desk.keyed Desk.calm (new_process [] ∅ [])).
  - eexists _, _. vm_compute. reflexivity.
  - intros tr api_key. reflexivity.
  - intros tr. eexists. vm_compute. reflexivity.
Defined.
